(* ===== verification/_CoqProject ===== *)
-Q . S2P
Prelude.v
Numeric.v
Deque.v
StepDetector.v
Branches.v
Invariant.v
PeakMachine.v
Refinement.v
Startup.v
Console.v
Reset.v
Windows.v
Periodic.v
Text.v
Interface.v
Clock.v
Wifi.v
Server.v
Replies.v
Loop.v
Main.v
Faults.v
Api.v
Rate.v
Reads.v
Board.v
Log.v
Stream.v
Locality.v
EndToEnd.v
Filter.v
FloatRun.v
