(* ===== verification/Prelude.v ===== *)
(** * A verified model of Krokomierz-Inteligentny, a MicroPython pedometer

    ** The program

    [src/step_detector.py] holds the class [StepDetector]: a stream
    processor that turns 3-axis accelerometer samples into a step count
    (vector norm, DC removal over a sliding window, a fixed 7-tap low-pass
    kernel, a slope-sign tracker, an adaptive mean threshold and a
    peak-pair state machine).  [src/main.py] is the board's program: it
    waits for the Wi-Fi network ([connect_wifi]), creates one detector
    ([krokomierz]) and then loops for ever; each turn it polls the sensor
    when 50 ms have passed, feeds the detector, copies the count into the
    global [steps], redraws the display, polls the listening socket and
    answers at most one HTTP request ([GET /steps], [GET /zeruj],
    [GET /dodaj], [OPTIONS], anything else).  The two parts meet in the four
    methods the loop calls: [process_sample], [get_step_count],
    [reset_step_count] and [add_step].

    ** The files, in dependency order

    - [Prelude] (this file): Python's exceptions as values ([exn],
      [outcome]), the state-and-exception monad [py] in which the methods
      are written (the state a method has mutated before it raises is kept,
      as in Python), its notations in [py_scope], the tactics [py_simp] and
      [py_inv], the hint databases [py] and [pylen], and the list lemmas the
      components share (the last-[n] window [lastn]).
    - [Numeric]: the arithmetic interface.  [Arith R] gives the operations
      the detector applies to its numbers (int-to-float conversion, [+],
      [-], [*], [/], unary minus, [<]) and [Sqrt R] the square root of
      [norm].  [pysum] is Python's [sum] (a left fold from [0]) and
      [truediv] is [/] by an [int], which raises [ZeroDivisionError] on [0].
      Instances: IEEE binary64 ([float], the kernel's primitive floats:
      CPython's [float]) and exact rationals ([Q]).  [OrderLaws] states the
      facts about [<] that both instances satisfy, NaN included; the only
      theorems that need them are those of [sign_of_slope] in [Branches]
      (a flat signal counts as falling).
    - [Deque]: [collections.deque] with a [maxlen], as the detector uses it:
      [deque_new], [append], [appendleft], [clear], [len], the truth value
      and [d[-1]], with the capacity invariant [deque_ok] and the
      sliding-window characterisation of a stream of appends.  The class is
      not in the sources: it is modelled from the documentation of
      CPython's [collections.deque].
    - [StepDetector]: the class, method by method, from the source:
      [__init__], [norm], [block_dc], [lp_filter], [sign_of_slope],
      [process_sample] (the composition of [condition], lines 45-56, and
      [detect], lines 58-106, whose peak logic is [confirm_peak] followed
      by [count_step]), [get_step_count], [reset], [reset_step_count],
      [add_step]; [feed] is [process_sample] along a stream of readings, as
      the control loop calls it.  The file holds definitions only.
    - [Branches]: the methods branch by branch: what each phase of
      [process_sample] returns and which state it leaves ([conditioned],
      [thresholded], [settle]), and the case lemmas of [confirm_peak] and
      [count_step] that the later proofs split on.
    - [Invariant]: the invariant [wf] of detector states (buffers within
      their capacities, sign attributes in range, at most one pending
      marker that agrees with [last_peak], a non-negative count), its
      preservation by [__init__], [process_sample] and [feed]; no exception
      when the low-pass buffer and the threshold window have positive
      capacity ([runnable]); the exceptions of the degenerate sizes; the
      count is monotone and grows by at most one step per two samples.
    - [PeakMachine]: the abstract specification of the peak logic: a
      machine with a phase (NONE, MAX, MIN) and the number of confirmed
      peaks, its labelled step relation [astep], the function [anext] that
      computes it, runs, and the laws of runs (confirmed peaks alternate;
      [steps_of p] is [(p - 1) / 2]).
    - [Refinement]: the relation [refines] between detector states and
      machines, and the proof that [peak_logic], [process_sample] and [feed]
      are steps and runs of the machine; hence the law of the count on any
      stream.
    - [Startup]: start-up suppression (no step before both windows are
      full) and amplitude gating (no peak while the filtered signal stays
      within [min_step_amplitude] of zero).
    - [Console]: the line [process_sample] prints where it counts a step,
      by the value it formats: one line for each step, and every value
      beyond the floor.
    - [Reset]: [reset], [reset_step_count] and [add_step]: what [reset]
      restores, that it reproduces a fresh detector when [lp_filter_size]
      is 7, that it stops detection for good when [lp_filter_size] exceeds
      7 and changes the filter below 7; detection does not read the count
      ([bump_feed]).
    - [Windows]: the contents of the three buffers after any stream, as
      windows over the traces of norms, DC-blocked and filtered samples;
      with [lp_filter_size] from 1 to 6 the low-pass buffer is always full
      and the filter is a delay of [lp_filter_size - 1] samples
      ([lp_filter_short_delay]).
    - [Periodic]: a stream that takes a state back to itself with [k] more
      steps does so for ever: [n] repetitions count [n * k] steps
      ([steady_counts]), the liveness of detection on a periodic input.
    - [Text]: the string operations [src/main.py] relies on, from Python's
      documentation: [str] of an [int], [startswith], the first element of
      [split], [json.dumps] of the one-key dictionary, and, for stating
      what a client reads, [after], [body_of], [content_length],
      [content_type] and [loads_steps].
    - [Interface]: what the control loop needs of a detector, as the class
      [Detector] (the four methods and the constructor) and its laws
      [DetectorLaws] (a validity predicate the methods preserve, a count
      that [get_step_count] returns, [reset_step_count] zeroes, [add_step]
      increments and [process_sample] never decreases).
    - [Clock]: the millisecond clock: [TICKS_PERIOD], [ticks_diff], and
      when the difference the loop measures is the time that has passed,
      also across the wrap of the clock.
    - [Wifi]: [connect_wifi] with its waiting loop [wait_loop], and its
      termination.
    - [Server]: the loop of [src/main.py]: its state ([server]), the sensor
      branch ([sensor_update]), the routes ([route], [classify]), the reply
      ([head], [render]), one connection ([serve]), one turn ([turn]) and
      the loop on a finite prefix of its inputs ([loop]).  The file holds
      definitions only.
    - [Replies]: what a client reads from a reply: the body after the
      empty line, [Content-Length], [Content-Type], the JSON value.
    - [Loop]: the theorems about the loop, for any detector that satisfies
      [DetectorLaws]: the invariant [server_ok], the sensor branch, the
      five routes and their replies.
    - [Main]: the script from power-on to the loop: its constants, which
      globals the initialisation of lines 24-32 binds when a driver raises
      ([bound_i2c], [bound_accel_sensor], [bound_display]), which call of
      the socket set-up of lines 70-76 raised ([socket_stage]) and what is
      bound and open then, the sequence [main] of
      initialisation, [connect_wifi], socket set-up, detector and loop, the
      ways it can end ([main_outcome]), and the count of replies and closes
      along a run of the loop ([loop_replies]).
    - [Faults]: the exceptions that leave the loop: an [OSError] without
      arguments from [accept], [recv] or [sendall], whose handler raises
      [IndexError] at [e.args[0]], and [conn.close()] raising in the
      [finally] clause ([fault]); one turn and the loop under them
      ([turn_with], [loop_with]), the script with that loop ([main_with]);
      without a fault [loop_with] is [loop], and an exception leaves a run
      for one of the four causes, every accepted connection closed
      ([run_stops]).
    - [Api]: what a client is told: [fresh] says that the global [steps] is
      the detector's count; it holds at boot, every sample re-establishes
      it, the routes [/zeruj] and [/dodaj] break it, and while it holds the
      reply to [/steps] carries the count.
    - [Rate]: how often the detector is fed: at most one sample per 51 ms
      of elapsed time while the display works, also across the wrap of the
      clock ([sampling_rate]).
    - [Reads]: what a client reads over a run ([told]): while no request
      changes the count the values read are integers that never go down
      and never run ahead of the detector ([reads_monotone]).
    - [Board]: the instance of the interface for [StepDetector] with the
      default arguments, the composition theorems [loop_feed] (the detector
      after a run of the loop is the one [feed] leaves on the readings the
      loop processed, but for the count the routes changed) and
      [loop_count] (count included, one more step per [/dodaj], while no
      request zeroes it), and a session of six turns evaluated on binary64.
    - [Log]: the console of [src/main.py]: a [line] for each [print], what
      a turn, a run and the script print ([turn_prints], [run_prints],
      [main_prints]), placed where the code prints; the [Step] lines are
      the detector's on the readings sampled, the error lines of the
      handlers are the hardware's and the network's, each [close] has its
      line, and [Listening] is printed exactly when the loop is reached.
    - [Stream]: the reference the class computes, on unbounded
      histories: [history] keeps every magnitude, DC-blocked and filtered
      sample, [hstep] extends it by one sample and reads the windows off
      it, [concrete] is the object a history stands for; the class is
      equal to it call by call and on every stream ([feed_implements]),
      and the start-up latency of detection follows on the histories
      ([detection_latency]).
    - [Locality]: the signal path has a finite memory: histories fed the
      same samples [agree] on a growing part, and after [memory] common
      samples the buffers, [last_filtered] and [last_slope] are the same
      whatever came before ([finite_memory]).
    - [EndToEnd]: the loop, the detector and the copy of the count put
      together: after a run that served no [/zeruj] and no [/dodaj] the
      global [steps], and the body of the reply to [GET /steps], is the
      reference count of the readings sampled.
    - [Filter]: the filters in exact arithmetic ([Q], up to [Qeq]):
      [lp_filter] as a dot product with the weights 1,2,3,4,3,2,1 over 16,
      unit DC gain, the bound of the kernel's output, DC blocking of a
      constant and of a shifted window, with the [Proper] instances that
      let [==] rewrite under the filters.
    - [FloatRun]: the default detector on binary64 inputs, evaluated by
      the kernel: thirty samples at rest and five periods of a sine of
      amplitude 3, then the manual controls; and, from one evaluated period
      in the steady state, the count after any number of periods
      ([walking_forever]).

    ** Correspondence with the code

    A detector object is the record [StepDetector R]; its fields carry the
    attribute names of the class.  A method [m(self, a)] is a function
    [m a : py (StepDetector R) A]: it takes the state and returns an
    [outcome] and the state after it.  Numbers are the carrier [R] of an
    [Arith] instance: every theorem of [Invariant], [Refinement],
    [Startup], [Reset], [Windows], [Stream] and [Locality] holds for
    every carrier, hence for
    binary64 (CPython) and for the 32-bit floats of MicroPython builds
    alike.  Python [int] attributes ([last_slope], [last_peak], the two
    slots of [peak_pair], [step_count], the three sizes) are [Z].  The
    two-slot list [peak_pair] is a pair: the code only builds it as the
    literal [[0, 0]] and assigns its indices 0 and 1, and no other object
    holds a reference to it.  An early [return] is the [then] branch of an
    [if] whose [else] is the rest of the method.

    The globals the loop of [src/main.py] assigns are the record [server]:
    [krokomierz], [steps] (an [int], or [None] once the value of
    [add_step()] has been assigned to it: [option Z]),
    [last_gyro_update_ms] and [ip_addr].  What the outside does during one
    turn is an [input]: the clock value, what the accelerometer returned
    or that reading it raised, whether drawing on the display succeeded,
    and what [accept] and [recv] returned or which error they raised.  What
    the loop does to the outside is a list of [event]s: display contents,
    sleeps, the response sent, the close of the connection.  A [try] block
    whose handler only prints is a [match] on the [outcome] that keeps the
    state assigned so far.  What the handlers themselves may raise is a
    [fault] of the turn: [loop_with] is [loop] with an exit, the exception
    that reaches the top level.  The console is a second output beside the
    events: a list of [line]s, one constructor for each [print] of the
    sources, computed by functions that follow the blocks of the script
    ([sensor_update_prints] for lines 84-105, [serve_prints] for lines
    120-171) and read the same inputs and the same state as the loop.

    ** What the theorems show

    Refinement: every call of [process_sample] is one step of the abstract
    peak machine, and the count on a stream is [(p - 1) / 2] for [p]
    alternating confirmed peaks; with sizes L >= 1 and T >= 1 the object
    after any stream is [concrete] of the stream's history, so that the
    bounded deques updated in place are the sliding windows of the
    reference and the count is a function of the samples alone; no peak
    is confirmed before max(N, T + (L - 8)) samples; and the buffers and
    the slope depend on the last max(N, 1) + L + max(T, 2) - 2 samples
    only.  Invariant and safety: [wf] holds
    initially and is preserved; with sizes N >= 0, L >= 1, T >= 1 no method
    raises; T = 0 raises [ZeroDivisionError], L = 0 raises [IndexError], a
    negative size raises [ValueError] in the constructor.  Functional:
    start-up suppression, amplitude gating, the window contents, the
    filter of a detector built with [lp_filter_size] below 7 (line 36 on
    every sample, a pure delay), the manual controls, each route and each reply of the server.  Reset:
    [reset] reproduces a fresh detector only when [lp_filter_size] is 7.
    Server: every request gets one well-formed reply and a close, and
    what is sent is ASCII, so that [Content-Length] counts bytes; the reply
    to [/dodaj] carries [null], the reply to [/zeruj] the count from before
    the reset, the 404 page is announced as JSON; the invariant of the
    loop; the composition with the detector; as many replies as requests
    and as many closes as connections along any run; the count of the
    detector after a run, manual steps included; the reply to [/steps] is
    the detector's count while [steps] is fresh, and a client that only
    reads sees a counter; the sampling rate is
    bounded while the display works.  Liveness: a detector in a steady
    state on a periodic input counts for ever, and the default detector on
    the sampled sine counts one step per period from the third period on.  Start-up: the
    program reaches the loop only if the display was created, the network
    answered and the socket was set up, and a failed initialisation ends
    it with [NameError]; once in the loop, the program ends only with
    [IndexError] from a handler that reads [e.args[0]] of an [OSError]
    without arguments or with [OSError] from [conn.close()], and until then
    it is the loop without faults.  Console: the lines follow the run: one
    [Step] line per step detected, no error line of a handler without a
    failure of the hardware or of [recv], a [Closed] line per connection.
    Termination: [connect_wifi] returns within 20
    seconds of sleep.  Round trip: a client reads back
    from the body of a reply the value of [steps].  Equivalence and bounds
    of the filters in exact arithmetic.

    ** Bounds and fuel

    The loops of the class are bounded traversals of a list ([sum]).  The
    waiting loop of [connect_wifi] is [wait_loop], by recursion on fuel:
    it decrements [max_wait] from 20, so 21 units of fuel cover it, and
    [connect_wifi_terminates] proves that with any fuel above 20 the
    function returns; [wait_loop_fuel] shows that more fuel does not change
    the answer.  The control loop never returns: [loop] is its effect on a
    finite prefix of the inputs, by structural recursion on the prefix, so
    that the theorems hold after any number of turns; [main], [main_with]
    and [main_prints] take the same fuel and the same prefix, and
    [loop_with] stops at the first exception, after [ran] turns.
    [step_count] and the sizes are unbounded [Z], as Python's [int]; the millisecond clock wraps
    at [TICKS_PERIOD] = 2^30 as MicroPython's [ticks_ms] does.

    ** Not modelled

    - MicroPython's own [deque].  [Deque] follows CPython's
      [collections.deque]; the [deque] of a MicroPython build may refuse a
      non-empty initial iterable and may have no [clear()], in which case
      the constructor or [reset()] raises on the board where the model
      goes on.  The theorems are about the class under the semantics of
      CPython's [deque], which is what the sources import by name.
    - Objects that are never built: [initial] gives the attribute values
      of lines 7-21 for any sizes, and [__init__] raises on a negative
      one; [init_ok] says that [__init__] returns [initial] for sizes from
      0 on, and the theorems about [initial] carry those bounds or are
      meant under them.
    - The text of the console lines: [Log] models each [print] by the
      line of the source that makes it and the values it formats that the
      model has (the SSID, the address, the request line, the errno, the
      amplitude).  The messages themselves are not ASCII and format values
      the model does not have: the text of a driver's exception, the
      address of the client, the rounding of [:.4f].
    - The drivers behind the initialisation (lines 24-32 of [src/main.py])
      and the network library behind the socket calls of lines 70-76:
      whether a call raises, and which, is an input of [main]; what the
      call does on the bus or in the network stack is not in the sources.
    - A failure of the display inside [connect_wifi] once the display
      exists, and exceptions of [settimeout], [decode] and [sendall] other
      than those [received] and [fault] list: each would be one more input
      of the same shape; the drivers are not in the sources.
    - The bytes of a request beyond what [recv(512)] returns in one call:
      an input of a turn is what that call returned.  [Send] is the call of
      [sendall], whether or not it raises: nothing follows it in the [try]
      block.
    - Two faults in one turn: a [fault] names one call that misbehaves.
    - The distinction between Python's [0] and [0.0] (equal as numbers);
      [OverflowError] of CPython's [float ** 2] (MicroPython returns
      infinity, which is what the binary64 instance does); compensated
      summation of CPython 3.12's [sum] (MicroPython and earlier CPython
      add left to right, as [pysum]). *)

From Stdlib Require Import ZArith List Lia.
From stdpp Require Import base tactics option list numbers.

Declare Scope py_scope.
Delimit Scope py_scope with py.

(** ** Python exceptions as values *)

(** The exceptions the code can raise: the first three in the detector,
    [RuntimeError] in [connect_wifi], [TypeError] in the reply builder,
    [NameError] where a global the initialisation did not bind is read,
    [OSError] in the set-up of the socket. *)
Inductive exn : Type :=
| ValueError
| ZeroDivisionError
| IndexError
| RuntimeError
| TypeError
| NameError
| OSError.

#[export] Instance exn_eq_dec : EqDecision exn.
Proof. solve_decision. Defined.

(** The result of evaluating an expression or calling a method. *)
Inductive outcome (A : Type) : Type :=
| Ok (a : A)
| Raise (e : exn).

Arguments Ok {A} a.
Arguments Raise {A} e.

Definition is_ok {A} (o : outcome A) : bool :=
  match o with Ok _ => true | Raise _ => false end.

Definition outcome_map {A B} (f : A -> B) (o : outcome A) : outcome B :=
  match o with Ok a => Ok (f a) | Raise e => Raise e end.

(** ** The state-and-exception monad

    A computation over a mutable object of type [S].  Unlike the usual
    [stateT] over an error monad, the state is returned in both cases: what
    a Python method has assigned before it raises stays assigned. *)

Definition py (S A : Type) : Type := S -> outcome A * S.

Section Monad.
Context {S : Type}.

Definition ret {A} (a : A) : py S A := fun s => (Ok a, s).

Definition bind {A B} (c : py S A) (k : A -> py S B) : py S B :=
  fun s => match c s with
           | (Ok a, s') => k a s'
           | (Raise e, s') => (Raise e, s')
           end.

Definition raise {A} (e : exn) : py S A := fun s => (Raise e, s).

Definition gets {A} (f : S -> A) : py S A := fun s => (Ok (f s), s).

Definition modify (f : S -> S) : py S unit := fun s => (Ok tt, f s).

Definition lift {A} (o : outcome A) : py S A := fun s => (o, s).

(** The state after a computation, whatever its outcome. *)
Definition exec {A} (c : py S A) (s : S) : S := snd (c s).

(** The outcome of a computation. *)
Definition eval {A} (c : py S A) (s : S) : outcome A := fst (c s).

End Monad.

Notation "x <- c1 ;; c2" := (bind c1 (fun x => c2))
  (at level 100, c1 at next level, right associativity) : py_scope.
Notation "c1 ;; c2" := (bind c1 (fun _ => c2))
  (at level 100, right associativity) : py_scope.

(** ** Tactics and hint databases *)

Create HintDb py discriminated.
Create Rewrite HintDb pylen.

(** Unfold the monad's combinators and compute. *)
Ltac py_unfold :=
  unfold exec, eval, bind, ret, raise, gets, modify, lift in *.

Ltac py_simp := py_unfold; cbn in *.

(** Split on the first [match] or [if] scrutinee of the goal, keeping the
    equation. *)
Ltac case_step :=
  match goal with
  | |- context [match ?x with _ => _ end] =>
      lazymatch x with
      | context [match _ with _ => _ end] => fail
      | _ => let E := fresh "E" in destruct x eqn:E
      end
  end.

(** Close a goal that is a disjunction one of whose disjuncts [done]
    proves. *)
Ltac pick_disjunct :=
  solve [ repeat first [ done | left; done | right ] ].

(** ** Shared list lemmas *)

Section Lists.
Context {A : Type}.
Implicit Types (l k : list A) (x : A) (n : nat).

(** The last [n] elements of a list: the content of a sliding window of
    capacity [n] over the stream [l]. *)
Definition lastn n l : list A := drop (length l - n) l.

Lemma length_lastn n l : length (lastn n l) = n `min` length l.
Proof. unfold lastn. rewrite length_drop. lia. Qed.

Lemma lastn_all n l : length l <= n -> lastn n l = l.
Proof. intros H. unfold lastn. by replace (length l - n) with 0 by lia. Qed.

Lemma lastn_0 l : lastn 0 l = [].
Proof. unfold lastn. rewrite Nat.sub_0_r. apply drop_all. Qed.

Lemma lastn_nil n : lastn n (@nil A) = [].
Proof. unfold lastn. apply drop_nil. Qed.

Lemma lastn_replicate n m x : lastn n (replicate m x) = replicate (n `min` m) x.
Proof.
  unfold lastn. rewrite length_replicate, drop_replicate. f_equal. lia.
Qed.

Lemma lastn_app_ge n l k : n <= length k -> lastn n (l ++ k) = lastn n k.
Proof.
  intros H. unfold lastn. rewrite length_app, drop_app.
  rewrite drop_ge by lia. simpl. f_equal. lia.
Qed.

Lemma lastn_app_le n l k :
  length k <= n -> lastn n (l ++ k) = lastn (n - length k) l ++ k.
Proof.
  intros H. unfold lastn. rewrite length_app, drop_app.
  replace (length l + length k - n - length l) with 0 by lia.
  rewrite drop_0. do 2 f_equal. lia.
Qed.

Lemma lastn_lastn_le m n l : m <= n -> lastn m (lastn n l) = lastn m l.
Proof.
  intros H. unfold lastn. rewrite drop_drop, length_drop. f_equal. lia.
Qed.

(** Sliding: the window over [l ++ k] is computed from the window over
    [l]. *)
Lemma lastn_app_lastn n l k : lastn n (lastn n l ++ k) = lastn n (l ++ k).
Proof.
  destruct (decide (n <= length k)) as [Hle|Hgt].
  - by rewrite !lastn_app_ge.
  - rewrite !(lastn_app_le _ _ k) by lia. f_equal. apply lastn_lastn_le. lia.
Qed.

(** The same for a window that keeps the first [n] (newest-first order). *)
Lemma take_app_take n l k : take n (l ++ take n k) = take n (l ++ k).
Proof. rewrite !take_app, take_take. do 2 f_equal. lia. Qed.

End Lists.

#[export] Hint Rewrite @length_lastn @length_app @length_take @length_drop
  @length_replicate @length_cons @length_nil : pylen.

(** ** Laws of the monad *)

Section MonadLaws.
Context {S A B C : Type}.

Lemma bind_ret_l (a : A) (k : A -> py S B) s : bind (ret a) k s = k a s.
Proof. reflexivity. Qed.

Lemma bind_ret_r (c : py S A) s : bind c ret s = c s.
Proof. unfold bind, ret. by destruct (c s) as [[a|e] s']. Qed.

Lemma bind_assoc (c : py S A) (k : A -> py S B) (h : B -> py S C) s :
  bind (bind c k) h s = bind c (fun a => bind (k a) h) s.
Proof. unfold bind. by destruct (c s) as [[a|e] s']. Qed.

(** Inversion of a [bind] that returned normally. *)
Lemma bind_ok_inv (c : py S A) (k : A -> py S B) s b s' :
  bind c k s = (Ok b, s') ->
  exists a s1, c s = (Ok a, s1) /\ k a s1 = (Ok b, s').
Proof. unfold bind. destruct (c s) as [[a|e] s1]; intros H; [eauto | done]. Qed.

(** Inversion of a [bind] that raised: either part did. *)
Lemma bind_raise_inv (c : py S A) (k : A -> py S B) s e s' :
  bind c k s = (Raise e, s') ->
  c s = (Raise e, s') \/ exists a s1, c s = (Ok a, s1) /\ k a s1 = (Raise e, s').
Proof.
  unfold bind. destruct (c s) as [[a|e1] s1]; intros H; [eauto |].
  left. congruence.
Qed.

End MonadLaws.

(** Decompose hypotheses about monadic computations. *)
Ltac py_inv :=
  repeat match goal with
  | H : bind _ _ _ = (Ok _, _) |- _ =>
      apply bind_ok_inv in H; destruct H as (? & ? & ? & H)
  | H : ret _ _ = _ |- _ => unfold ret in H; simplify_eq
  | H : gets _ _ = _ |- _ => unfold gets in H; simplify_eq
  | H : modify _ _ = _ |- _ => unfold modify in H; simplify_eq
  | H : raise _ _ = _ |- _ => unfold raise in H; simplify_eq
  | H : lift _ _ = _ |- _ => unfold lift in H; simplify_eq
  end.
