(* ===== verification/Numeric.v ===== *)
(** * Numeric: the arithmetic the detector computes with

    The class [StepDetector] applies [+], [-], [*], [/], unary [-], [<], [>]
    and [math.sqrt] to Python numbers, and mixes [int] literals and lengths
    with [float] samples.  [Arith R] is that interface over a carrier [R];
    [Sqrt R] adds the square root.  The detector is written once over the
    interface; this file gives the two carriers the development evaluates
    it at:

    - [float], IEEE binary64 with round-to-nearest-even (the kernel's
      primitive floats), which is CPython's [float] operation by operation;
    - [Q], exact rational arithmetic, in which the filters' algebraic
      properties hold up to [Qeq].

    [pysum] is the builtin [sum] and [truediv] the operator [/] with an
    [int] divisor, the only division the class performs.  [OrderLaws] says
    that [<] is irreflexive and asymmetric.  Both carriers satisfy it; for
    [float] this includes NaN and the two zeros.  The theorems of the
    detector hold for any [Arith] instance and do not assume it; the facts
    of [sign_of_slope] in [Branches] are the ones that do. *)

From Stdlib Require Import ZArith QArith Floats Lia Lqa.
From stdpp Require Import base tactics list.
From S2P Require Import Prelude.

Declare Scope num_scope.
Delimit Scope num_scope with num.

(** ** The interface *)

Class Arith (R : Type) : Type := {
  of_Z : Z -> R;
  nadd : R -> R -> R;
  nsub : R -> R -> R;
  nmul : R -> R -> R;
  ndiv : R -> R -> R;
  nneg : R -> R;
  nlt : R -> R -> bool
}.

Class Sqrt (R : Type) : Type := nsqrt : R -> R.

Notation "x + y" := (nadd x y) : num_scope.
Notation "x - y" := (nsub x y) : num_scope.
Notation "x * y" := (nmul x y) : num_scope.
Notation "x / y" := (ndiv x y) : num_scope.
Notation "- x" := (nneg x) : num_scope.
Notation "x <? y" := (nlt x y) : num_scope.
Notation "x >? y" := (nlt y x) : num_scope.

(** The comparison is irreflexive and asymmetric. *)
Class OrderLaws (R : Type) `{Arith R} : Prop := {
  nlt_irrefl : forall x : R, nlt x x = false;
  nlt_asym : forall x y : R, nlt x y = true -> nlt y x = false
}.

(** ** Python's [sum] and [/] *)

Section Builtins.
Context {R : Type} `{Arith R}.

(** [sum(xs)]: the items added left to right, starting from the [int] 0. *)
Definition pysum (xs : list R) : R := fold_left nadd xs (of_Z 0).

(** [x / n] for an [int] [n]: [ZeroDivisionError] when [n] is 0, otherwise
    the carrier's division by [n] converted. *)
Definition truediv (x : R) (n : Z) : outcome R :=
  if (n =? 0)%Z then Raise ZeroDivisionError else Ok (ndiv x (of_Z n)).

Lemma pysum_snoc xs x : pysum (xs ++ [x]) = nadd (pysum xs) x.
Proof. unfold pysum. by rewrite fold_left_app. Qed.

Lemma truediv_ok x n : n <> 0%Z -> truediv x n = Ok (ndiv x (of_Z n)).
Proof. intros Hn. unfold truediv. by destruct (Z.eqb_spec n 0). Qed.

Lemma truediv_zero x : truediv x 0 = Raise ZeroDivisionError.
Proof. reflexivity. Qed.

Lemma truediv_ok_inv x n y : truediv x n = Ok y -> n <> 0%Z /\ y = ndiv x (of_Z n).
Proof. unfold truediv. destruct (Z.eqb_spec n 0); naive_solver. Qed.

End Builtins.

(** ** Binary64 *)

(** [float(n)] for an [int]: the nearest binary64, ties to even. *)
Definition float_of_Z (n : Z) : float :=
  SF2Prim (binary_normalize prec emax n 0 false).

#[export] Instance float_arith : Arith float := {|
  of_Z := float_of_Z;
  nadd := PrimFloat.add;
  nsub := PrimFloat.sub;
  nmul := PrimFloat.mul;
  ndiv := PrimFloat.div;
  nneg := PrimFloat.opp;
  nlt := PrimFloat.ltb
|}.

#[export] Instance float_sqrt : Sqrt float := PrimFloat.sqrt.

(** ** Exact rationals *)

Definition Qltb (x y : Q) : bool := negb (Qle_bool y x).

#[export] Instance Q_arith : Arith Q := {|
  of_Z := inject_Z;
  nadd := Qplus;
  nsub := Qminus;
  nmul := Qmult;
  ndiv := Qdiv;
  nneg := Qopp;
  nlt := Qltb
|}.

Lemma Qltb_lt x y : Qltb x y = true <-> (x < y)%Q.
Proof.
  unfold Qltb. rewrite negb_true_iff, <- not_true_iff_false, Qle_bool_iff.
  split; [apply Qnot_le_lt | apply Qlt_not_le].
Qed.

Lemma Qltb_ge x y : Qltb x y = false <-> (y <= x)%Q.
Proof. unfold Qltb. by rewrite negb_false_iff, Qle_bool_iff. Qed.

#[export] Instance Qltb_proper : Proper (Qeq ==> Qeq ==> eq) Qltb.
Proof. intros x x' Hx y y' Hy. unfold Qltb. by rewrite Hx, Hy. Qed.

#[export] Instance Q_order : OrderLaws Q.
Proof.
  split; cbn.
  - intros x. apply Qltb_ge, Qle_refl.
  - intros x y. rewrite Qltb_lt, Qltb_ge. apply Qlt_le_weak.
Qed.

(** ** The comparison of binary64 is a strict order on non-NaN values and
    false on NaN: it satisfies [OrderLaws]. *)

Lemma SFcompare_refl_not_Lt x : SFcompare x x <> Some Lt.
Proof.
  destruct x as [s|s| |s m e]; simpl; try done; try by destruct s.
  rewrite Z.compare_refl, Pos.compare_cont_refl. by destruct s.
Qed.

Lemma SFcompare_Lt_swap x y : SFcompare x y = Some Lt -> SFcompare y x = Some Gt.
Proof.
  destruct x as [sx|sx| |sx mx ex], y as [sy|sy| |sy my ey]; simpl;
    try done; try (by destruct sx); try (by destruct sy);
    try (by destruct sx, sy).
  rewrite (Z.compare_antisym ex ey).
  replace (Pos.compare_cont Eq my mx) with (CompOpp (Pos.compare_cont Eq mx my))
    by apply (Pos.compare_cont_antisym mx my Eq).
  destruct sx, sy, (ex ?= ey)%Z, (Pos.compare_cont Eq mx my); simpl; congruence.
Qed.

#[export] Instance float_order : OrderLaws float.
Proof.
  split; cbn; intros x.
  - rewrite ltb_spec. unfold SFltb.
    pose proof (SFcompare_refl_not_Lt (Prim2SF x)).
    by destruct (SFcompare _ _) as [[]|].
  - intros y. rewrite !ltb_spec. unfold SFltb.
    destruct (SFcompare (Prim2SF x) _) as [[]|] eqn:E; try done.
    by rewrite (SFcompare_Lt_swap _ _ E).
Qed.
