(* ===== verification/Deque.v ===== *)
(** * Deque: [collections.deque] with a [maxlen]

    The detector keeps its three windows in bounded deques.  The class is
    imported, not defined, by the sources: this file models the operations
    [src/step_detector.py] calls from the documented behaviour of CPython's
    [collections.deque] (the [deque] of a MicroPython build may lack
    [clear()] and a non-empty initial iterable; such a build is outside
    the model):
    [deque(iterable, maxlen)] keeps the rightmost [maxlen] items and refuses
    a negative [maxlen]; [append] and [appendleft] add an item at one end
    and, when the deque was full, drop one from the other end; [clear]
    empties it; [len], truth value, iteration and indexing read [items].

    The capacity invariant [deque_ok] is what the detector's invariant asks
    of each buffer; [append_stream] and [appendleft_stream] say that a deque
    fed a stream is the sliding window over it. *)

From Stdlib Require Import ZArith Lia.
From stdpp Require Import base tactics list.
From S2P Require Import Prelude.

Record deque (A : Type) : Type := Deque {
  items : list A;
  maxlen : nat
}.

Arguments Deque {A} items maxlen.
Arguments items {A} d.
Arguments maxlen {A} d.

Section Deque.
Context {A : Type}.
Implicit Types (d : deque A) (x : A) (xs : list A).

(** [deque(xs, n)]. *)
Definition deque_new xs (n : Z) : outcome (deque A) :=
  if (n <? 0)%Z then Raise ValueError
  else Ok (Deque (lastn (Z.to_nat n) xs) (Z.to_nat n)).

(** [d.append(x)]: add on the right, then trim on the left. *)
Definition append x d : deque A :=
  let l := items d ++ [x] in
  Deque (if maxlen d <? length l then drop 1 l else l) (maxlen d).

(** [d.appendleft(x)]: add on the left, then trim on the right. *)
Definition appendleft x d : deque A :=
  let l := x :: items d in
  Deque (if maxlen d <? length l then take (length l - 1) l else l) (maxlen d).

(** [d.clear()]. *)
Definition clear d : deque A := Deque [] (maxlen d).

(** [len(d)]. *)
Definition len d : Z := Z.of_nat (length (items d)).

(** [not d]. *)
Definition is_empty d : bool :=
  match items d with [] => true | _ => false end.

(** [d[-1]]. *)
Definition index_last d : outcome A :=
  match last (items d) with Some x => Ok x | None => Raise IndexError end.

(** The capacity invariant. *)
Definition deque_ok d : Prop := length (items d) <= maxlen d.

#[export] Instance deque_ok_dec d : Decision (deque_ok d).
Proof. unfold deque_ok. apply _. Defined.

(** ** [maxlen] never changes *)

Lemma maxlen_append x d : maxlen (append x d) = maxlen d.
Proof. reflexivity. Qed.

Lemma maxlen_appendleft x d : maxlen (appendleft x d) = maxlen d.
Proof. reflexivity. Qed.

(** ** Contents after an operation *)

Lemma items_append x d :
  deque_ok d -> items (append x d) = lastn (maxlen d) (items d ++ [x]).
Proof.
  unfold deque_ok, append, lastn. cbn [items maxlen]. rewrite length_app.
  cbn [length]. intros Hok.
  destruct (Nat.ltb_spec (maxlen d) (length (items d) + 1)).
  - f_equal. lia.
  - replace (length (items d) + 1 - maxlen d) with 0 by lia. done.
Qed.

Lemma items_appendleft x d :
  deque_ok d -> items (appendleft x d) = take (maxlen d) (x :: items d).
Proof.
  unfold deque_ok, appendleft. cbn [items maxlen length]. intros Hok.
  destruct (Nat.ltb_spec (maxlen d) (S (length (items d)))).
  - f_equal. lia.
  - rewrite take_ge; [done | cbn; lia].
Qed.

Lemma length_append x d :
  deque_ok d -> length (items (append x d)) = maxlen d `min` S (length (items d)).
Proof. intros Hok. rewrite items_append, length_lastn, length_app by done. cbn. lia. Qed.

Lemma length_appendleft x d :
  deque_ok d -> length (items (appendleft x d)) = maxlen d `min` S (length (items d)).
Proof. intros Hok. rewrite items_appendleft, length_take by done. cbn. lia. Qed.

(** ** The invariant is established and preserved *)

Lemma deque_new_ok xs n d : deque_new xs n = Ok d -> deque_ok d.
Proof.
  unfold deque_new, deque_ok. case_match; [done|].
  intros [= <-]. cbn. rewrite length_lastn. lia.
Qed.

Lemma deque_new_inv xs n d :
  deque_new xs n = Ok d ->
  (0 <= n)%Z /\ d = Deque (lastn (Z.to_nat n) xs) (Z.to_nat n).
Proof. unfold deque_new. destruct (Z.ltb_spec n 0); naive_solver. Qed.

Lemma deque_new_nonneg xs n :
  (0 <= n)%Z -> deque_new xs n = Ok (Deque (lastn (Z.to_nat n) xs) (Z.to_nat n)).
Proof. intros Hn. unfold deque_new. destruct (Z.ltb_spec n 0); [lia | done]. Qed.

Lemma deque_new_negative xs n : (n < 0)%Z -> deque_new xs n = Raise ValueError.
Proof. intros Hn. unfold deque_new. destruct (Z.ltb_spec n 0); [done | lia]. Qed.

Lemma append_ok x d : deque_ok d -> deque_ok (append x d).
Proof. intros Hok. unfold deque_ok. rewrite length_append, maxlen_append by done. lia. Qed.

Lemma appendleft_ok x d : deque_ok d -> deque_ok (appendleft x d).
Proof. intros Hok. unfold deque_ok. rewrite length_appendleft, maxlen_appendleft by done. lia. Qed.

Lemma clear_ok d : deque_ok (clear d).
Proof. unfold deque_ok. cbn. lia. Qed.

(** ** Lengths *)

Lemma len_nonneg d : (0 <= len d)%Z.
Proof. unfold len. lia. Qed.

Lemma len_le_maxlen d : deque_ok d -> (len d <= Z.of_nat (maxlen d))%Z.
Proof. unfold len, deque_ok. lia. Qed.

Lemma len_append x d :
  deque_ok d -> len (append x d) = (Z.of_nat (maxlen d) `min` (len d + 1))%Z.
Proof. intros Hok. unfold len. rewrite length_append by done. lia. Qed.

Lemma len_appendleft x d :
  deque_ok d -> len (appendleft x d) = (Z.of_nat (maxlen d) `min` (len d + 1))%Z.
Proof. intros Hok. unfold len. rewrite length_appendleft by done. lia. Qed.

(** An insertion adds at most one item, whatever the capacity. *)
Lemma len_append_le x d : (len (append x d) <= len d + 1)%Z.
Proof.
  unfold len, append. cbn [items]. case_match; rewrite ?length_drop, length_app;
    cbn [length]; lia.
Qed.

Lemma len_appendleft_le x d : (len (appendleft x d) <= len d + 1)%Z.
Proof.
  unfold len, appendleft. cbn [items]. case_match; rewrite ?length_take;
    cbn [length]; lia.
Qed.

(** After an insertion a deque of positive capacity is not empty. *)
Lemma len_append_pos x d : deque_ok d -> (0 < maxlen d)%nat -> (0 < len (append x d))%Z.
Proof. intros Hok Hm. rewrite len_append by done. pose proof (len_nonneg d). lia. Qed.

Lemma len_appendleft_pos x d :
  deque_ok d -> (0 < maxlen d)%nat -> (0 < len (appendleft x d))%Z.
Proof. intros Hok Hm. rewrite len_appendleft by done. pose proof (len_nonneg d). lia. Qed.

(** A deque of capacity 0 stays empty. *)
Lemma append_maxlen_0 x d : deque_ok d -> maxlen d = 0 -> items (append x d) = [].
Proof. intros Hok H0. by rewrite items_append, H0, lastn_0. Qed.

Lemma is_empty_len d : is_empty d = true <-> len d = 0%Z.
Proof. unfold is_empty, len. destruct (items d); cbn; split; (done || lia). Qed.

Lemma index_last_ok d : len d <> 0%Z -> exists x, index_last d = Ok x /\ last (items d) = Some x.
Proof.
  unfold index_last, len. destruct (items d) as [|y l] using rev_ind; [cbn; lia|].
  intros _. rewrite last_snoc. eauto.
Qed.

(** ** A deque fed a stream is the sliding window over the stream *)

Lemma append_stream xs d :
  deque_ok d ->
  items (foldl (fun d x => append x d) d xs) = lastn (maxlen d) (items d ++ xs)
  /\ maxlen (foldl (fun d x => append x d) d xs) = maxlen d
  /\ deque_ok (foldl (fun d x => append x d) d xs).
Proof.
  revert d. induction xs as [|x xs IH]; intros d Hok; cbn [foldl].
  - rewrite app_nil_r, lastn_all by done. done.
  - destruct (IH (append x d) (append_ok x d Hok)) as (Hi & Hm & Ho).
    rewrite Hi, Hm, maxlen_append, items_append by done. split_and!; [|done..].
    by rewrite lastn_app_lastn, <- app_assoc.
Qed.

(** The same for [appendleft]: the newest item is first. *)
Lemma appendleft_stream xs d :
  deque_ok d ->
  items (foldl (fun d x => appendleft x d) d xs)
    = take (maxlen d) (rev xs ++ items d)
  /\ maxlen (foldl (fun d x => appendleft x d) d xs) = maxlen d
  /\ deque_ok (foldl (fun d x => appendleft x d) d xs).
Proof.
  revert d. induction xs as [|x xs IH]; intros d Hok; cbn [foldl rev].
  - rewrite take_ge by done. done.
  - destruct (IH (appendleft x d) (appendleft_ok x d Hok)) as (Hi & Hm & Ho).
    rewrite Hi, Hm, maxlen_appendleft, items_appendleft by done.
    split_and!; [|done..].
    rewrite <- app_assoc. cbn [app]. apply take_app_take.
Qed.

End Deque.

#[export] Hint Resolve append_ok appendleft_ok clear_ok : py.
#[export] Hint Rewrite @maxlen_append @maxlen_appendleft : pylen.
