(* ===== verification/StepDetector.v ===== *)
(** * StepDetector: the class of [src/step_detector.py]

    The record [StepDetector] is the object; each method is a definition of
    the same name.  [process_sample] is the composition of its two phases,
    [condition] (lines 45-56: norm window, DC blocking, low-pass buffer and
    kernel) and [detect] (lines 58-106: slope, threshold, start-up gate,
    peak logic), the early [return] of the first phase being the value
    [None].  The peak logic of lines 78-103 is the state transformer
    [peak_logic]: [confirm_peak] (lines 80-97) followed by [count_step]
    (lines 100-103), run only when there is a candidate.

    [feed] is the control loop's use of the detector
    ([src/main.py], lines 84-105): one [process_sample] per reading, an
    exception being caught and dropped while the state keeps what the
    method had assigned. *)

From Stdlib Require Import ZArith Lia.
From stdpp Require Import base tactics list.
From S2P Require Import Prelude Numeric Deque.

#[local] Open Scope Z_scope.
#[local] Open Scope py_scope.

Section StepDetector.
Context {R : Type}.

(** The attributes of an instance. *)
Record StepDetector : Type := {
  norm_window_size : Z;
  lp_filter_size : Z;
  threshold_window_size : Z;
  min_step_amplitude : R;
  norm_buffer : deque R;
  lp_filter_buffer : deque R;
  threshold_buffer : deque R;
  last_filtered : R;
  last_slope : Z;
  last_peak : Z;
  peak_pair : Z * Z;
  step_count : Z
}.

(** Attribute assignment, one setter per attribute the methods assign. *)
Definition set_norm_buffer (b : deque R) (self : StepDetector) : StepDetector :=
  {| norm_window_size := norm_window_size self;
     lp_filter_size := lp_filter_size self;
     threshold_window_size := threshold_window_size self;
     min_step_amplitude := min_step_amplitude self;
     norm_buffer := b;
     lp_filter_buffer := lp_filter_buffer self;
     threshold_buffer := threshold_buffer self;
     last_filtered := last_filtered self;
     last_slope := last_slope self;
     last_peak := last_peak self;
     peak_pair := peak_pair self;
     step_count := step_count self |}.

Definition set_lp_filter_buffer (b : deque R) (self : StepDetector) : StepDetector :=
  {| norm_window_size := norm_window_size self;
     lp_filter_size := lp_filter_size self;
     threshold_window_size := threshold_window_size self;
     min_step_amplitude := min_step_amplitude self;
     norm_buffer := norm_buffer self;
     lp_filter_buffer := b;
     threshold_buffer := threshold_buffer self;
     last_filtered := last_filtered self;
     last_slope := last_slope self;
     last_peak := last_peak self;
     peak_pair := peak_pair self;
     step_count := step_count self |}.

Definition set_threshold_buffer (b : deque R) (self : StepDetector) : StepDetector :=
  {| norm_window_size := norm_window_size self;
     lp_filter_size := lp_filter_size self;
     threshold_window_size := threshold_window_size self;
     min_step_amplitude := min_step_amplitude self;
     norm_buffer := norm_buffer self;
     lp_filter_buffer := lp_filter_buffer self;
     threshold_buffer := b;
     last_filtered := last_filtered self;
     last_slope := last_slope self;
     last_peak := last_peak self;
     peak_pair := peak_pair self;
     step_count := step_count self |}.

Definition set_last_filtered (x : R) (self : StepDetector) : StepDetector :=
  {| norm_window_size := norm_window_size self;
     lp_filter_size := lp_filter_size self;
     threshold_window_size := threshold_window_size self;
     min_step_amplitude := min_step_amplitude self;
     norm_buffer := norm_buffer self;
     lp_filter_buffer := lp_filter_buffer self;
     threshold_buffer := threshold_buffer self;
     last_filtered := x;
     last_slope := last_slope self;
     last_peak := last_peak self;
     peak_pair := peak_pair self;
     step_count := step_count self |}.

Definition set_last_slope (z : Z) (self : StepDetector) : StepDetector :=
  {| norm_window_size := norm_window_size self;
     lp_filter_size := lp_filter_size self;
     threshold_window_size := threshold_window_size self;
     min_step_amplitude := min_step_amplitude self;
     norm_buffer := norm_buffer self;
     lp_filter_buffer := lp_filter_buffer self;
     threshold_buffer := threshold_buffer self;
     last_filtered := last_filtered self;
     last_slope := z;
     last_peak := last_peak self;
     peak_pair := peak_pair self;
     step_count := step_count self |}.

Definition set_last_peak (z : Z) (self : StepDetector) : StepDetector :=
  {| norm_window_size := norm_window_size self;
     lp_filter_size := lp_filter_size self;
     threshold_window_size := threshold_window_size self;
     min_step_amplitude := min_step_amplitude self;
     norm_buffer := norm_buffer self;
     lp_filter_buffer := lp_filter_buffer self;
     threshold_buffer := threshold_buffer self;
     last_filtered := last_filtered self;
     last_slope := last_slope self;
     last_peak := z;
     peak_pair := peak_pair self;
     step_count := step_count self |}.

Definition set_peak_pair (p : Z * Z) (self : StepDetector) : StepDetector :=
  {| norm_window_size := norm_window_size self;
     lp_filter_size := lp_filter_size self;
     threshold_window_size := threshold_window_size self;
     min_step_amplitude := min_step_amplitude self;
     norm_buffer := norm_buffer self;
     lp_filter_buffer := lp_filter_buffer self;
     threshold_buffer := threshold_buffer self;
     last_filtered := last_filtered self;
     last_slope := last_slope self;
     last_peak := last_peak self;
     peak_pair := p;
     step_count := step_count self |}.

Definition set_step_count (z : Z) (self : StepDetector) : StepDetector :=
  {| norm_window_size := norm_window_size self;
     lp_filter_size := lp_filter_size self;
     threshold_window_size := threshold_window_size self;
     min_step_amplitude := min_step_amplitude self;
     norm_buffer := norm_buffer self;
     lp_filter_buffer := lp_filter_buffer self;
     threshold_buffer := threshold_buffer self;
     last_filtered := last_filtered self;
     last_slope := last_slope self;
     last_peak := last_peak self;
     peak_pair := peak_pair self;
     step_count := z |}.

End StepDetector.

Arguments StepDetector R : clear implicits.

Section Methods.
Context {R : Type} `{Arith R} `{Sqrt R}.
Implicit Type self : StepDetector R.

(** [__init__] (lines 6-21).  The three [deque] constructors raise
    [ValueError] on a negative size; the low-pass buffer starts from seven
    zeros, of which [deque] keeps the last [lp_filter_size]. *)
Definition __init__ (norm_window_size lp_filter_size threshold_window_size : Z)
    (min_step_amplitude : R) : outcome (StepDetector R) :=
  match deque_new [] norm_window_size with
  | Raise e => Raise e
  | Ok nb =>
  match deque_new (replicate 7 (of_Z 0)) lp_filter_size with
  | Raise e => Raise e
  | Ok lb =>
  match deque_new [] threshold_window_size with
  | Raise e => Raise e
  | Ok tb =>
      Ok {| norm_window_size := norm_window_size;
            lp_filter_size := lp_filter_size;
            threshold_window_size := threshold_window_size;
            min_step_amplitude := min_step_amplitude;
            norm_buffer := nb;
            lp_filter_buffer := lb;
            threshold_buffer := tb;
            last_filtered := of_Z 0;
            last_slope := 0;
            last_peak := 0;
            peak_pair := (0, 0);
            step_count := 0 |}
  end end end.

(** The attribute values lines 7-21 assign when the sizes are accepted:
    the object [__init__] leaves.  The definition is total; on a negative
    size no object is built (lines 12-14 raise), and [init_ok] of
    [Invariant] ties it to [__init__] for the sizes from 0 on. *)
Definition initial (norm_window_size lp_filter_size threshold_window_size : Z)
    (min_step_amplitude : R) : StepDetector R :=
  {| norm_window_size := norm_window_size;
     lp_filter_size := lp_filter_size;
     threshold_window_size := threshold_window_size;
     min_step_amplitude := min_step_amplitude;
     norm_buffer := Deque [] (Z.to_nat norm_window_size);
     lp_filter_buffer :=
       Deque (replicate (Z.to_nat lp_filter_size `min` 7) (of_Z 0))
             (Z.to_nat lp_filter_size);
     threshold_buffer := Deque [] (Z.to_nat threshold_window_size);
     last_filtered := of_Z 0;
     last_slope := 0;
     last_peak := 0;
     peak_pair := (0, 0);
     step_count := 0 |}.

(** The default arguments of line 6, as [StepDetector()] of
    [src/main.py] line 79 uses them; [0.8] is [8 / 10] in the carrier. *)
Definition default : StepDetector R :=
  initial 20 7 10 (of_Z 8 / of_Z 10)%num.

(** [norm] (lines 23-24); [x**2] is [x * x]. *)
Definition norm (ax ay az : R) : R :=
  nsqrt (ax * ax + ay * ay + az * az)%num.

(** [block_dc] (lines 26-30). *)
Definition block_dc (sample : R) (window : deque R) : outcome R :=
  if is_empty window then Ok (of_Z 0)
  else
    let window_sum := pysum (items window) in
    match truediv window_sum (len window) with
    | Raise e => Raise e
    | Ok window_avg => Ok (sample - window_avg)%num
    end.

(** [lp_filter] (lines 32-38): [buf[-1]] below seven items, the kernel on
    [buf[0..6]] otherwise. *)
Definition lp_filter (buf : deque R) : outcome R :=
  if len buf <? 7 then index_last buf
  else
    match items buf with
    | b0 :: b1 :: b2 :: b3 :: b4 :: b5 :: b6 :: _ =>
        truediv (b0 + of_Z 2 * b1 + of_Z 3 * b2 + of_Z 4 * b3
                 + of_Z 3 * b4 + of_Z 2 * b5 + b6)%num 16
    | _ => Raise IndexError
    end.

(** [sign_of_slope] (lines 40-41). *)
Definition sign_of_slope (last current : R) : Z :=
  if (current >? last)%num then 1 else -1.

(** Lines 66-70: the peak candidate, [None] when the slope did not flip. *)
Definition peak_candidate_of (slope last_slope : Z) : option Z :=
  if (slope =? -1) && (last_slope =? 1) then Some 1
  else if (slope =? 1) && (last_slope =? -1) then Some (-1)
  else None.

(** Lines 80-97: confirmation of a candidate against the last confirmed
    peak, the threshold and the amplitude floor. *)
Definition confirm_peak (peak_candidate : Z) (filtered_sample threshold : R)
    (self : (StepDetector R)) : (StepDetector R) :=
  if (peak_candidate =? 1) && (last_peak self =? -1) then
    if (filtered_sample >? threshold)%num
       && (filtered_sample >? min_step_amplitude self)%num
    then set_last_peak peak_candidate
           (set_peak_pair (peak_candidate, snd (peak_pair self)) self)
    else self
  else if (peak_candidate =? -1) && (last_peak self =? 1) then
    if (filtered_sample <? threshold)%num
       && (filtered_sample <? - min_step_amplitude self)%num
    then set_last_peak peak_candidate
           (set_peak_pair (fst (peak_pair self), peak_candidate) self)
    else self
  else if last_peak self =? 0 then
    if (peak_candidate =? 1)
       && (filtered_sample >? min_step_amplitude self)%num
    then set_last_peak peak_candidate self
    else if (peak_candidate =? -1)
            && (filtered_sample <? - min_step_amplitude self)%num
    then set_last_peak peak_candidate self
    else self
  else self.

(** Lines 100-103: a maximum marker and a minimum marker make a step. *)
Definition count_step (self : (StepDetector R)) : (StepDetector R) :=
  if fst (peak_pair self) * snd (peak_pair self) =? -1
  then set_peak_pair (0, 0) (set_step_count (step_count self + 1) self)
  else self.

(** Lines 78-103. *)
Definition peak_logic (peak_candidate : option Z) (filtered_sample threshold : R)
    (self : (StepDetector R)) : (StepDetector R) :=
  match peak_candidate with
  | Some c => count_step (confirm_peak c filtered_sample threshold self)
  | None => self
  end.

(** Lines 46-56: the signal-conditioning phase of [process_sample].  [None]
    is the early [return] while the low-pass buffer is shorter than
    [lp_filter_size]. *)
Definition condition (new_sample : R) : py (StepDetector R) (option R) :=
  modify (fun self => set_norm_buffer (append new_sample (norm_buffer self)) self) ;;
  nb <- gets norm_buffer ;;
  dc_blocked_sample <- lift (block_dc new_sample nb) ;;
  modify (fun self =>
    set_lp_filter_buffer (appendleft dc_blocked_sample (lp_filter_buffer self)) self) ;;
  lb <- gets lp_filter_buffer ;;
  size <- gets lp_filter_size ;;
  if len lb <? size then ret None
  else
    filtered_sample <- lift (lp_filter lb) ;;
    ret (Some filtered_sample).

(** Line 73: the start-up gate, true while a window is still filling. *)
Definition buffers_filling self : bool :=
  (len (norm_buffer self) <? norm_window_size self)
  || (len (threshold_buffer self) <? threshold_window_size self).

(** Lines 58-106: the detection phase of [process_sample]. *)
Definition detect (filtered_sample : R) : py (StepDetector R) unit :=
  last <- gets last_filtered ;;
  let slope := sign_of_slope last filtered_sample in
  modify (fun self =>
    set_threshold_buffer (append filtered_sample (threshold_buffer self)) self) ;;
  tb <- gets threshold_buffer ;;
  threshold <- lift (truediv (pysum (items tb)) (len tb)) ;;
  old_slope <- gets last_slope ;;
  let peak_candidate := peak_candidate_of slope old_slope in
  not_full <- gets buffers_filling ;;
  if (not_full : bool) then
    modify (set_last_filtered filtered_sample) ;;
    modify (set_last_slope slope)
  else
    modify (peak_logic peak_candidate filtered_sample threshold) ;;
    modify (set_last_filtered filtered_sample) ;;
    modify (set_last_slope slope).

(** [process_sample] (lines 43-106). *)
Definition process_sample (ax ay az : R) : py (StepDetector R) unit :=
  let new_sample := norm ax ay az in
  filtered <- condition new_sample ;;
  match filtered with
  | None => ret tt
  | Some filtered_sample => detect filtered_sample
  end.

(** [get_step_count] (lines 108-109). *)
Definition get_step_count : py (StepDetector R) Z := gets step_count.

(** [reset] (lines 111-121). *)
Definition reset : py (StepDetector R) unit :=
  modify (fun self => set_norm_buffer (clear (norm_buffer self)) self) ;;
  lb <- lift (deque_new (replicate 7 (of_Z 0)) 7) ;;
  modify (set_lp_filter_buffer lb) ;;
  modify (fun self => set_threshold_buffer (clear (threshold_buffer self)) self) ;;
  modify (set_last_filtered (of_Z 0)) ;;
  modify (set_last_slope 0) ;;
  modify (set_last_peak 0) ;;
  modify (set_peak_pair (0, 0)) ;;
  modify (set_step_count 0).

(** [reset_step_count] (lines 123-124). *)
Definition reset_step_count : py (StepDetector R) unit :=
  modify (set_step_count 0).

(** [add_step] (lines 126-127).  The method has no [return]: its value is
    [None], here [tt]. *)
Definition add_step : py (StepDetector R) unit :=
  modify (fun self => set_step_count (step_count self + 1) self).

(** The call [krokomierz.process_sample(ax, ay, az)] of [src/main.py],
    line 92, repeated along a stream of readings.  It stands inside a
    [try] whose handler (lines 103-105) goes on with the state the call
    left, so an exception is dropped and the state kept.  The sensor
    branch itself is [sensor_update] of [Server]; [loop_feed] of [Board]
    says that the detector the loop leaves is the one [feed] leaves. *)
Definition feed (samples : list (R * R * R)) (self : (StepDetector R)) : (StepDetector R) :=
  foldl (fun self '(ax, ay, az) => exec (process_sample ax ay az) self)
        self samples.

End Methods.

Arguments append : simpl never.
Arguments appendleft : simpl never.
Arguments len : simpl never.
Arguments pysum : simpl never.
