(* ===== verification/Branches.v ===== *)
(** * Branches: the methods of [StepDetector], branch by branch

    The equations of this file say what each phase of [process_sample]
    returns and which state it leaves, in terms of the intermediate states
    of the method: [conditioned] (after lines 46-50), [thresholded] (after
    line 62) and [settle] (lines 74-75 and 105-106).  Every theorem about
    [process_sample] is derived from them, and the case lemmas of
    [confirm_peak] and [count_step] are what the invariant and the
    refinement proofs split on. *)

From Stdlib Require Import ZArith Lia.
From stdpp Require Import base tactics list.
From S2P Require Import Prelude Numeric Deque StepDetector.

#[local] Open Scope Z_scope.
#[local] Open Scope py_scope.

Section Equations.
Context {R : Type} `{Arith R} `{Sqrt R}.
Implicit Type self : StepDetector R.

(** The DC-blocked sample: [block_dc] on the norm window that already holds
    the new sample (lines 46 and 49). *)
Definition dc_blocked (new_sample : R) self : R :=
  let nb := append new_sample (norm_buffer self) in
  if is_empty nb then of_Z 0
  else (new_sample - pysum (items nb) / of_Z (len nb))%num.

(** The state after lines 46-50: both input buffers have taken the new
    sample. *)
Definition conditioned (new_sample : R) self : StepDetector R :=
  set_lp_filter_buffer
    (appendleft (dc_blocked new_sample self) (lp_filter_buffer self))
    (set_norm_buffer (append new_sample (norm_buffer self)) self).

(** The state after line 62. *)
Definition thresholded (filtered_sample : R) self : StepDetector R :=
  set_threshold_buffer (append filtered_sample (threshold_buffer self)) self.

(** Lines 74-75 and 105-106. *)
Definition settle (filtered_sample : R) (slope : Z) self : StepDetector R :=
  set_last_slope slope (set_last_filtered filtered_sample self).

(** [block_dc] never raises: its guard covers the only zero divisor. *)
Lemma block_dc_eq sample window :
  block_dc sample window =
  Ok (if is_empty window then of_Z 0
      else (sample - pysum (items window) / of_Z (len window))%num).
Proof.
  unfold block_dc. destruct (is_empty window) eqn:E; [done|].
  rewrite truediv_ok; [done|]. intros Hz%is_empty_len. congruence.
Qed.

(** [lp_filter] on a buffer of at least seven items is the kernel on the
    first seven. *)
Lemma lp_filter_full (b0 b1 b2 b3 b4 b5 b6 : R) rest m :
  lp_filter (Deque (b0 :: b1 :: b2 :: b3 :: b4 :: b5 :: b6 :: rest) m)
  = Ok ((b0 + of_Z 2 * b1 + of_Z 3 * b2 + of_Z 4 * b3
         + of_Z 3 * b4 + of_Z 2 * b5 + b6) / of_Z 16)%num.
Proof.
  unfold lp_filter, len. cbn [items].
  case_match eqn:Hlt; [|done]. apply Z.ltb_lt in Hlt. cbn [length] in Hlt. lia.
Qed.

Lemma lp_filter_short buf : len buf < 7 -> lp_filter buf = index_last buf.
Proof.
  intros Hl. unfold lp_filter. destruct (Z.ltb_spec (len buf) 7); [done | lia].
Qed.

Lemma lp_filter_empty buf : items buf = [] -> lp_filter buf = Raise IndexError.
Proof. intros Hi. unfold lp_filter, len, index_last. by rewrite Hi. Qed.

(** Line 41 compares strictly: a signal that has not moved counts as
    falling, and of two values at most one rises above the other. *)
Lemma sign_of_slope_flat `{!OrderLaws R} (x : R) : sign_of_slope x x = -1.
Proof. unfold sign_of_slope. by rewrite nlt_irrefl. Qed.

Lemma sign_of_slope_swap `{!OrderLaws R} (x y : R) :
  sign_of_slope x y = 1 -> sign_of_slope y x = -1.
Proof.
  unfold sign_of_slope. destruct (nlt x y) eqn:E; [|done].
  intros _. by rewrite (nlt_asym _ _ E).
Qed.

(** [lp_filter] raises on the empty buffer only. *)
Lemma lp_filter_ok buf : len buf <> 0 -> exists y, lp_filter buf = Ok y.
Proof.
  intros Hl. destruct (Z.ltb_spec (len buf) 7) as [Hs|Hs].
  - rewrite lp_filter_short by done.
    destruct (index_last_ok buf Hl) as (x & -> & _). eauto.
  - destruct buf as [l m]. unfold len in Hs. cbn [items] in Hs.
    do 7 (destruct l as [|? l]; [cbn in Hs; lia|]). rewrite lp_filter_full. eauto.
Qed.

Lemma condition_eq new_sample self :
  condition new_sample self =
  let s2 := conditioned new_sample self in
  ((if len (lp_filter_buffer s2) <? lp_filter_size self then Ok None
    else outcome_map Some (lp_filter (lp_filter_buffer s2))), s2).
Proof.
  unfold condition. py_simp. rewrite block_dc_eq. cbn.
  fold (dc_blocked new_sample self). fold (conditioned new_sample self).
  destruct (_ <? _); [done|]. by destruct (lp_filter _).
Qed.

Lemma detect_eq filtered_sample self :
  detect filtered_sample self =
  let s3 := thresholded filtered_sample self in
  let slope := sign_of_slope (last_filtered self) filtered_sample in
  match truediv (pysum (items (threshold_buffer s3))) (len (threshold_buffer s3)) with
  | Raise e => (Raise e, s3)
  | Ok threshold =>
      (Ok tt,
       settle filtered_sample slope
         (if buffers_filling s3 then s3
          else peak_logic (peak_candidate_of slope (last_slope self))
                          filtered_sample threshold s3))
  end.
Proof.
  unfold detect. py_simp. fold (thresholded filtered_sample self).
  destruct (truediv _ _); [|done]. by destruct (buffers_filling _).
Qed.

Lemma process_sample_eq ax ay az self :
  process_sample ax ay az self =
  let s2 := conditioned (norm ax ay az) self in
  if len (lp_filter_buffer s2) <? lp_filter_size self then (Ok tt, s2)
  else match lp_filter (lp_filter_buffer s2) with
       | Raise e => (Raise e, s2)
       | Ok filtered_sample => detect filtered_sample s2
       end.
Proof.
  unfold process_sample, bind. rewrite condition_eq. cbn zeta.
  destruct (_ <? _); [done|]. by destruct (lp_filter _).
Qed.

(** The five outcomes of peak confirmation: the candidate is dropped, or
    one of the four assignments of lines 83-84, 89-90, 95 and 97 is made,
    under the conditions of its branch. *)
Lemma confirm_peak_cases c f th self :
  confirm_peak c f th self = self
  \/ (c = 1 /\ last_peak self = -1 /\ (f >? th)%num = true
      /\ (f >? min_step_amplitude self)%num = true
      /\ confirm_peak c f th self
         = set_last_peak 1 (set_peak_pair (1, snd (peak_pair self)) self))
  \/ (c = -1 /\ last_peak self = 1 /\ (f <? th)%num = true
      /\ (f <? - min_step_amplitude self)%num = true
      /\ confirm_peak c f th self
         = set_last_peak (-1) (set_peak_pair (fst (peak_pair self), -1) self))
  \/ (c = 1 /\ last_peak self = 0 /\ (f >? min_step_amplitude self)%num = true
      /\ confirm_peak c f th self = set_last_peak 1 self)
  \/ (c = -1 /\ last_peak self = 0
      /\ (f <? - min_step_amplitude self)%num = true
      /\ confirm_peak c f th self = set_last_peak (-1) self).
Proof.
  unfold confirm_peak.
  destruct (Z.eqb_spec c 1), (Z.eqb_spec c (-1)),
    (Z.eqb_spec (last_peak self) (-1)), (Z.eqb_spec (last_peak self) 1),
    (Z.eqb_spec (last_peak self) 0); cbn [andb]; try lia; auto;
    repeat (case_match; cbn [andb] in *; auto);
    repeat match goal with
           | Hb : _ && _ = true |- _ => apply andb_prop in Hb as [? ?]
           end;
    subst; pick_disjunct.
Qed.

(** The two outcomes of the step test. *)
Lemma count_step_cases self :
  (fst (peak_pair self) * snd (peak_pair self) = -1
   /\ count_step self
      = set_peak_pair (0, 0) (set_step_count (step_count self + 1) self))
  \/ (fst (peak_pair self) * snd (peak_pair self) <> -1 /\ count_step self = self).
Proof.
  unfold count_step.
  destruct (Z.eqb_spec (fst (peak_pair self) * snd (peak_pair self)) (-1)); auto.
Qed.

Lemma count_step_fire self :
  fst (peak_pair self) * snd (peak_pair self) = -1 ->
  count_step self
  = set_peak_pair (0, 0) (set_step_count (step_count self + 1) self).
Proof. by destruct (count_step_cases self) as [[_ ->]|[? _]]. Qed.

Lemma count_step_idle self :
  fst (peak_pair self) * snd (peak_pair self) <> -1 -> count_step self = self.
Proof. by destruct (count_step_cases self) as [[? _]|[_ ->]]. Qed.

(** Feeding two streams one after the other. *)
Lemma feed_app samples samples' self :
  feed (samples ++ samples') self = feed samples' (feed samples self).
Proof. apply foldl_app. Qed.

End Equations.
