(* ===== verification/Invariant.v ===== *)
(** * Invariant: well-formed detector states

    [wf] is the invariant of a [StepDetector] object: each buffer respects
    its capacity, the capacities are the configured sizes (the low-pass
    buffer's may also be 7, which is what [reset] installs), the slope and
    peak attributes are signs, [peak_pair] holds at most one marker and that
    marker is the kind of the last confirmed peak, and [step_count] is not
    negative.

    The file proves that the constructor establishes [wf] and every method
    preserves it, that no method raises once the low-pass and threshold
    capacities are positive ([runnable]), which exceptions the degenerate
    sizes give, and that [step_count] never decreases under
    [process_sample] and grows by at most one per sample. *)

From Stdlib Require Import ZArith Lia Floats.
From stdpp Require Import base tactics list.
From S2P Require Import Prelude Numeric Deque StepDetector Branches.

#[local] Open Scope Z_scope.

Section Invariant.
Context {R : Type} `{Arith R} `{Sqrt R}.
Implicit Types self s : StepDetector R.

(** ** The invariant *)

Definition sign_ok (z : Z) : Prop := z = -1 \/ z = 0 \/ z = 1.

(** At most one marker is recorded between two calls, and it is the kind
    of the last confirmed peak. *)
Definition pair_ok (last_peak : Z) (pp : Z * Z) : Prop :=
  pp = (0, 0) \/ (pp = (1, 0) /\ last_peak = 1) \/ (pp = (0, -1) /\ last_peak = -1).

Definition buffers_ok s : Prop :=
  deque_ok (norm_buffer s) /\
  deque_ok (lp_filter_buffer s) /\
  deque_ok (threshold_buffer s) /\
  Z.of_nat (maxlen (norm_buffer s)) = norm_window_size s /\
  Z.of_nat (maxlen (threshold_buffer s)) = threshold_window_size s /\
  (Z.of_nat (maxlen (lp_filter_buffer s)) = lp_filter_size s
   \/ maxlen (lp_filter_buffer s) = 7%nat).

Definition machine_ok s : Prop :=
  sign_ok (last_slope s) /\
  sign_ok (last_peak s) /\
  pair_ok (last_peak s) (peak_pair s) /\
  0 <= step_count s.

Definition wf s : Prop := buffers_ok s /\ machine_ok s.

(** The sizes with which [process_sample] cannot raise. *)
Definition runnable s : Prop :=
  (0 < maxlen (lp_filter_buffer s))%nat /\ 0 < threshold_window_size s.

(** Twice the count, plus one while a marker is pending: the potential
    that bounds the step rate. *)
Definition progress s : Z :=
  2 * step_count s + (if decide (peak_pair s = (0, 0)) then 0 else 1).

#[export] Instance sign_ok_dec z : Decision (sign_ok z).
Proof. unfold sign_ok. apply _. Defined.

#[export] Instance pair_ok_dec lp pp : Decision (pair_ok lp pp).
Proof. unfold pair_ok. apply _. Defined.

#[export] Instance wf_dec s : Decision (wf s).
Proof. unfold wf, buffers_ok, machine_ok. apply _. Defined.

#[export] Instance runnable_dec s : Decision (runnable s).
Proof. unfold runnable. apply _. Defined.

(** ** The state transformers preserve the invariant *)

Lemma conditioned_buffers_ok x s : buffers_ok s -> buffers_ok (conditioned x s).
Proof.
  unfold buffers_ok, conditioned. cbn. autorewrite with pylen.
  intros (? & ? & ? & ? & ? & ?). split_and!; auto with py.
Qed.

Lemma thresholded_buffers_ok f s : buffers_ok s -> buffers_ok (thresholded f s).
Proof.
  unfold buffers_ok, thresholded. cbn. autorewrite with pylen.
  intros (? & ? & ? & ? & ? & ?). split_and!; auto with py.
Qed.

Lemma sign_of_slope_cases (last current : R) :
  sign_of_slope last current = 1 \/ sign_of_slope last current = -1.
Proof. unfold sign_of_slope. destruct (nlt _ _); auto. Qed.

Lemma sign_of_slope_ok (last current : R) : sign_ok (sign_of_slope last current).
Proof. unfold sign_ok. destruct (sign_of_slope_cases last current); auto. Qed.

Lemma peak_candidate_of_cases slope last_slope c :
  peak_candidate_of slope last_slope = Some c ->
  (c = 1 /\ slope = -1 /\ last_slope = 1) \/ (c = -1 /\ slope = 1 /\ last_slope = -1).
Proof.
  unfold peak_candidate_of.
  destruct (Z.eqb_spec slope (-1)), (Z.eqb_spec last_slope 1),
    (Z.eqb_spec slope 1), (Z.eqb_spec last_slope (-1)); cbn; naive_solver.
Qed.

(** After confirmation and before the step test both markers may be set;
    the step test consumes them. *)
Lemma peak_logic_machine_ok cand f th s :
  machine_ok s -> machine_ok (peak_logic cand f th s).
Proof.
  intros (Hs & Hp & Hpp & Hn). destruct cand as [c|]; [|done]. cbn [peak_logic].
  destruct (count_step_cases (confirm_peak c f th s)) as [[HM ->]|[HM ->]];
  destruct (confirm_peak_cases c f th s)
    as [E|[(?&?&?&?&E)|[(?&?&?&?&E)|[(?&?&?&E)|(?&?&?&E)]]]];
    rewrite E in *; clear E; unfold machine_ok, sign_ok, pair_ok in *;
    destruct Hpp as [Hpp|[[Hpp ?]|[Hpp ?]]]; rewrite ?Hpp in *; cbn in *;
    rewrite ?Hpp in *; cbn in *;
    split_and!; auto; lia.
Qed.

(** The peak logic assigns [last_peak], [peak_pair] and [step_count]
    only. *)
Lemma peak_logic_frame cand f th s :
  let s' := peak_logic cand f th s in
  norm_buffer s' = norm_buffer s /\
  lp_filter_buffer s' = lp_filter_buffer s /\
  threshold_buffer s' = threshold_buffer s /\
  norm_window_size s' = norm_window_size s /\
  lp_filter_size s' = lp_filter_size s /\
  threshold_window_size s' = threshold_window_size s /\
  min_step_amplitude s' = min_step_amplitude s /\
  last_filtered s' = last_filtered s /\
  last_slope s' = last_slope s.
Proof.
  destruct cand as [c|]; [|done]. cbn [peak_logic].
  destruct (count_step_cases (confirm_peak c f th s)) as [[_ ->]|[_ ->]];
  destruct (confirm_peak_cases c f th s)
    as [E|[(?&?&?&?&E)|[(?&?&?&?&E)|[(?&?&?&E)|(?&?&?&E)]]]];
    by rewrite E.
Qed.

Lemma peak_logic_wf cand f th s : wf s -> wf (peak_logic cand f th s).
Proof.
  intros [Hb Hm]. split; [|by apply peak_logic_machine_ok].
  destruct (peak_logic_frame cand f th s) as (E1 & E2 & E3 & E4 & E5 & E6 & _).
  unfold buffers_ok in *. by rewrite E1, E2, E3, E4, E5, E6.
Qed.

Lemma conditioned_wf x s : wf s -> wf (conditioned x s).
Proof. intros [Hb Hm]. split; [by apply conditioned_buffers_ok | done]. Qed.

Lemma thresholded_wf f s : wf s -> wf (thresholded f s).
Proof. intros [Hb Hm]. split; [by apply thresholded_buffers_ok | done]. Qed.

Lemma settle_wf f slope s : sign_ok slope -> wf s -> wf (settle f slope s).
Proof. intros Hs [Hb (_ & Hm)]. split; [done | by split]. Qed.

Lemma detect_wf f s : wf s -> wf (exec (detect f) s).
Proof.
  intros Hwf. unfold exec. rewrite detect_eq. cbn zeta.
  pose proof (thresholded_wf f s Hwf) as H3.
  destruct (truediv _ _); cbn [snd]; [|done].
  apply settle_wf; [apply sign_of_slope_ok|].
  destruct (buffers_filling _); [done | by apply peak_logic_wf].
Qed.

(** ** The constructor *)

Lemma wf_init N L T (A : R) s : __init__ N L T A = Ok s -> wf s.
Proof.
  unfold __init__. intros Hi.
  destruct (deque_new [] N) as [nb|] eqn:En; [|done].
  destruct (deque_new _ L) as [lb|] eqn:El; [|done].
  destruct (deque_new [] T) as [tb|] eqn:Et; [|done].
  injection Hi as <-.
  pose proof (deque_new_ok _ _ _ En). pose proof (deque_new_ok _ _ _ El).
  pose proof (deque_new_ok _ _ _ Et).
  apply deque_new_inv in En as [? ->], El as [? ->], Et as [? ->].
  split; [unfold buffers_ok | unfold machine_ok, sign_ok, pair_ok]; cbn;
    split_and!; auto; lia.
Qed.

Lemma init_initial N L T (A : R) :
  0 <= N -> 0 <= L -> 0 <= T -> __init__ N L T A = Ok (initial N L T A).
Proof.
  intros HN HL HT. unfold __init__, initial.
  rewrite !deque_new_nonneg by done. by rewrite lastn_replicate, !lastn_nil.
Qed.

(** Whatever sizes and amplitude it is given, a detector that
    [__init__] returns satisfies the invariant. *)
Theorem init_wf N L T (A : R) s : __init__ N L T A = Ok s -> wf s.
Proof. apply wf_init. Qed.

(** With non-negative sizes the constructor returns the initial
    object: empty norm and threshold windows, a low-pass buffer of
    [min(L, 7)] zeros of capacity [L], no peak, no marker, count 0. *)
Theorem init_ok N L T (A : R) :
  0 <= N -> 0 <= L -> 0 <= T -> __init__ N L T A = Ok (initial N L T A).
Proof. apply init_initial. Qed.

Lemma initial_wf N L T (A : R) :
  0 <= N -> 0 <= L -> 0 <= T -> wf (initial N L T A).
Proof. intros HN HL HT. eapply wf_init. by apply init_initial. Qed.

(** A negative size makes the constructor raise [ValueError]. *)
Theorem init_negative N L T (A : R) :
  N < 0 \/ L < 0 \/ T < 0 -> __init__ N L T A = Raise ValueError.
Proof.
  intros Hneg. unfold __init__.
  destruct (Z.ltb_spec N 0); [by rewrite deque_new_negative|].
  rewrite (deque_new_nonneg _ N) by done.
  destruct (Z.ltb_spec L 0); [by rewrite deque_new_negative|].
  rewrite (deque_new_nonneg _ L) by done.
  rewrite deque_new_negative; [done | lia].
Qed.

(** ** [process_sample] preserves the invariant *)

Lemma wf_process_sample ax ay az s :
  wf s -> wf (exec (process_sample ax ay az) s).
Proof.
  intros Hwf. unfold exec. rewrite process_sample_eq. cbn zeta.
  pose proof (conditioned_wf (norm ax ay az) s Hwf) as H2.
  destruct (_ <? _); [done|]. destruct (lp_filter _); [|done].
  by apply detect_wf.
Qed.

(** C4: [process_sample] preserves the invariant, whether it returns or
    raises. *)
Theorem process_sample_wf ax ay az s :
  wf s -> wf (exec (process_sample ax ay az) s).
Proof. apply wf_process_sample. Qed.

(** The invariant holds along any stream of samples. *)
Lemma wf_feed samples s : wf s -> wf (feed samples s).
Proof.
  revert s. induction samples as [|[[ax ay] az] xs IH]; intros s Hwf; [done|].
  cbn. apply IH. by apply wf_process_sample.
Qed.

(** ** No exception with positive capacities *)

Lemma conditioned_lp_pos x s :
  wf s -> runnable s -> 0 < len (lp_filter_buffer (conditioned x s)).
Proof. intros [(_ & Hl & _) _] [Hm _]. cbn. by apply len_appendleft_pos. Qed.

Lemma thresholded_pos f s :
  wf s -> 0 < threshold_window_size s ->
  0 < len (threshold_buffer (thresholded f s)).
Proof.
  intros [(_ & _ & Ht & _ & Hc & _) _] Hm. cbn.
  apply len_append_pos; [done | lia].
Qed.

Lemma detect_ok f s :
  wf s -> 0 < threshold_window_size s -> eval (detect f) s = Ok tt.
Proof.
  intros Hwf Hr. unfold eval. rewrite detect_eq. cbn zeta.
  pose proof (thresholded_pos f s Hwf Hr). by rewrite truediv_ok by lia.
Qed.

Lemma ok_process_sample ax ay az s :
  wf s -> runnable s -> eval (process_sample ax ay az) s = Ok tt.
Proof.
  intros Hwf Hr. unfold eval. rewrite process_sample_eq. cbn zeta.
  pose proof (conditioned_lp_pos (norm ax ay az) s Hwf Hr) as Hp.
  destruct (_ <? _); [done|].
  destruct (lp_filter_ok (lp_filter_buffer (conditioned (norm ax ay az) s)))
    as [y ->]; [lia|].
  apply detect_ok; [by apply conditioned_wf | apply Hr].
Qed.

(** C6: when the low-pass buffer and the threshold window have positive
    capacity, [process_sample] returns normally on every sample: its
    divisions and its indexing are all guarded. *)
Theorem process_sample_ok ax ay az s :
  wf s -> runnable s -> eval (process_sample ax ay az) s = Ok tt.
Proof. apply ok_process_sample. Qed.

(** [runnable] is itself preserved, so the guarantee holds along a
    stream. *)
Lemma peak_logic_runnable cand f th s :
  runnable s -> runnable (peak_logic cand f th s).
Proof.
  destruct (peak_logic_frame cand f th s) as (_ & E2 & _ & _ & _ & E6 & _).
  unfold runnable. by rewrite E2, E6.
Qed.

Lemma process_sample_runnable ax ay az s :
  runnable s -> runnable (exec (process_sample ax ay az) s).
Proof.
  intros Hr. unfold exec. rewrite process_sample_eq. cbn zeta.
  assert (runnable (conditioned (norm ax ay az) s)) as H2 by done.
  destruct (_ <? _); [done|]. destruct (lp_filter _) as [f|]; [|done].
  rewrite detect_eq. cbn zeta. destruct (truediv _ _) as [th|]; [|done].
  cbn [snd]. change (runnable (settle ?f ?sl ?x)) with (runnable x).
  destruct (buffers_filling _); [done|]. by apply peak_logic_runnable.
Qed.

(** ** The exceptions of degenerate sizes *)

(** C40: with [threshold_window_size] 0 the threshold window stays empty
    and every sample that reaches the threshold raises
    [ZeroDivisionError]. *)
Theorem threshold_zero_raises ax ay az s :
  wf s -> threshold_window_size s = 0 ->
  (0 < maxlen (lp_filter_buffer s))%nat ->
  lp_filter_size s <= len (lp_filter_buffer s) ->
  eval (process_sample ax ay az) s = Raise ZeroDivisionError.
Proof.
  intros Hwf HT Hm Hfull. unfold eval. rewrite process_sample_eq. cbn zeta.
  pose proof (conditioned_wf (norm ax ay az) s Hwf) as H2.
  destruct Hwf as [(_ & Hl & Ht & _ & Hc & _) _].
  set (s2 := conditioned (norm ax ay az) s) in *.
  assert (lp_filter_size s <= len (lp_filter_buffer s2)
          /\ 0 < len (lp_filter_buffer s2)) as [Hge Hpos].
  { subst s2. cbn. rewrite len_appendleft by done.
    pose proof (len_le_maxlen _ Hl).
    pose proof (len_nonneg (lp_filter_buffer s)). lia. }
  destruct (Z.ltb_spec (len (lp_filter_buffer s2)) (lp_filter_size s)); [lia|].
  destruct (lp_filter_ok (lp_filter_buffer s2)) as [y ->]; [lia|].
  rewrite detect_eq. cbn zeta.
  replace (len (threshold_buffer (thresholded y s2))) with 0; [done|].
  subst s2. cbn. rewrite len_append by done.
  pose proof (len_nonneg (threshold_buffer s)). lia.
Qed.

(** With [lp_filter_size] 0 the low-pass buffer stays empty, the
    early return is not taken and [buf[-1]] raises [IndexError]. *)
Theorem lp_zero_raises ax ay az s :
  wf s -> lp_filter_size s <= 0 -> maxlen (lp_filter_buffer s) = 0%nat ->
  eval (process_sample ax ay az) s = Raise IndexError.
Proof.
  intros [(_ & Hl & _) _] HL Hm. unfold eval. rewrite process_sample_eq.
  cbn zeta. set (s2 := conditioned (norm ax ay az) s).
  assert (items (lp_filter_buffer s2) = []) as Hi.
  { subst s2. cbn. by rewrite items_appendleft, Hm by done. }
  assert (len (lp_filter_buffer s2) = 0) as ->.
  { unfold len. by rewrite Hi. }
  destruct (Z.ltb_spec 0 (lp_filter_size s)); [lia|]. by rewrite lp_filter_empty.
Qed.

(** ** Monotonicity of the count *)

Lemma peak_logic_step_count cand f th s :
  step_count (peak_logic cand f th s) = step_count s
  \/ step_count (peak_logic cand f th s) = step_count s + 1.
Proof.
  destruct cand as [c|]; [|by left]. cbn [peak_logic].
  destruct (count_step_cases (confirm_peak c f th s)) as [[_ ->]|[_ ->]];
  destruct (confirm_peak_cases c f th s)
    as [E|[(?&?&?&?&E)|[(?&?&?&?&E)|[(?&?&?&E)|(?&?&?&E)]]]];
    rewrite E; cbn; auto.
Qed.

Lemma detect_step_count f s :
  step_count (exec (detect f) s) = step_count s
  \/ step_count (exec (detect f) s) = step_count s + 1.
Proof.
  unfold exec. rewrite detect_eq. cbn zeta. destruct (truediv _ _); [|by left].
  cbn [snd]. destruct (buffers_filling _); [by left|].
  change (step_count (settle ?f ?sl ?x)) with (step_count x).
  apply (peak_logic_step_count _ _ _ (thresholded f s)).
Qed.

(** One call of [process_sample] never decreases [step_count] and
    adds at most one step, in every state and on every sample. *)
Lemma step_count_process_sample ax ay az s :
  step_count s <= step_count (exec (process_sample ax ay az) s)
  <= step_count s + 1.
Proof.
  unfold exec. rewrite process_sample_eq. cbn zeta.
  destruct (_ <? _); [cbn; lia|]. destruct (lp_filter _) as [f|]; [|cbn; lia].
  pose proof (detect_step_count f (conditioned (norm ax ay az) s)) as Hd.
  change (step_count (conditioned _ s)) with (step_count s) in Hd.
  unfold exec in Hd. lia.
Qed.

(** C9: along a stream of samples with no reset in between the count is
    non-decreasing and grows by at most the number of samples. *)
Theorem feed_step_count samples s :
  step_count s <= step_count (feed samples s)
  <= step_count s + Z.of_nat (length samples).
Proof.
  revert s. induction samples as [|[[ax ay] az] xs IH]; intros s; [cbn; lia|].
  cbn [feed foldl length]. pose proof (step_count_process_sample ax ay az s).
  specialize (IH (exec (process_sample ax ay az) s)). unfold feed in IH. lia.
Qed.

(** ** At most one step per two samples *)

Lemma peak_logic_progress cand f th s :
  machine_ok s -> progress (peak_logic cand f th s) <= progress s + 1.
Proof.
  intros (Hs & Hp & Hpp & Hn). destruct cand as [c|]; cbn [peak_logic]; [|lia].
  unfold progress.
  destruct (count_step_cases (confirm_peak c f th s)) as [[HM ->]|[HM ->]];
  destruct (confirm_peak_cases c f th s)
    as [E|[(?&?&?&?&E)|[(?&?&?&?&E)|[(?&?&?&E)|(?&?&?&E)]]]];
    rewrite E in *; clear E; unfold pair_ok in *;
    destruct Hpp as [Hpp|[[Hpp ?]|[Hpp ?]]]; rewrite ?Hpp in *; cbn in *;
    rewrite ?Hpp in *; cbn in *; repeat case_decide; try done; lia.
Qed.

Lemma process_sample_progress ax ay az s :
  wf s -> progress (exec (process_sample ax ay az) s) <= progress s + 1.
Proof.
  intros Hwf. unfold exec. rewrite process_sample_eq. cbn zeta.
  pose proof (conditioned_wf (norm ax ay az) s Hwf) as H2.
  set (s2 := conditioned (norm ax ay az) s) in *.
  assert (progress s2 = progress s) as E2 by done.
  destruct (_ <? _); [cbn [snd]; lia|].
  destruct (lp_filter _) as [f|]; [|cbn [snd]; lia].
  rewrite detect_eq. cbn zeta. pose proof (thresholded_wf f _ H2) as [_ H3].
  assert (progress (thresholded f s2) = progress s2) as E3 by done.
  destruct (truediv _ _) as [th|]; [|cbn [snd]; lia]. cbn [snd].
  change (progress (settle ?f ?sl ?x)) with (progress x).
  destruct (buffers_filling _); [lia|].
  pose proof (peak_logic_progress
    (peak_candidate_of (sign_of_slope (last_filtered s2) f) (last_slope s2))
    f th _ H3). lia.
Qed.

Lemma feed_progress samples s :
  wf s -> progress (feed samples s) <= progress s + Z.of_nat (length samples).
Proof.
  revert s. induction samples as [|[[ax ay] az] xs IH]; intros s Hwf; [cbn; lia|].
  cbn [feed foldl length].
  pose proof (process_sample_progress ax ay az s Hwf).
  specialize (IH _ (wf_process_sample ax ay az s Hwf)). unfold feed in IH. lia.
Qed.

(** C39: the step rate is bounded.  A step needs two confirmed peaks and
    a call confirms at most one: from a state that satisfies the
    invariant, [n] samples add at most [(n + 1) / 2] steps, whatever the
    samples are. *)
Theorem feed_steps_bound samples s :
  wf s ->
  step_count (feed samples s)
  <= step_count s + (Z.of_nat (length samples) + 1) / 2.
Proof.
  intros Hwf. pose proof (feed_progress samples s Hwf) as Hp.
  unfold progress in Hp.
  enough (step_count (feed samples s) - step_count s
          <= (Z.of_nat (length samples) + 1) / 2) by lia.
  apply Z.div_le_lower_bound; [lia|]. repeat case_decide; lia.
Qed.

End Invariant.

(** ** Witnesses: the theorems at the default detector on binary64 *)

Lemma init_wf_witness : wf (initial 20 7 10 1%float).
Proof. apply (init_wf 20 7 10 1%float). reflexivity. Defined.

Lemma init_ok_witness :
  __init__ 20 7 10 1%float = Ok (initial 20 7 10 1%float).
Proof. apply init_ok; lia. Defined.

Lemma init_negative_witness :
  __init__ 20 (-1) 10 1%float = Raise ValueError.
Proof. apply init_negative. lia. Defined.

Lemma process_sample_wf_witness :
  wf (exec (process_sample 0%float 0%float 1%float) default).
Proof.
  apply process_sample_wf. apply (bool_decide_unpack _). vm_compute. exact I.
Defined.

Lemma wf_feed_witness :
  wf (feed [(0, 0, 1); (0, 3, 4)]%float default).
Proof. apply wf_feed. apply (bool_decide_unpack _). vm_compute. exact I. Defined.

Lemma process_sample_ok_witness :
  eval (process_sample 0%float 0%float 1%float) default = Ok tt.
Proof.
  apply process_sample_ok; apply (bool_decide_unpack _); vm_compute; exact I.
Defined.

Lemma threshold_zero_raises_witness :
  eval (process_sample 0%float 0%float 1%float) (initial 20 7 0 1%float)
  = Raise ZeroDivisionError.
Proof.
  apply threshold_zero_raises;
    [apply (bool_decide_unpack _); vm_compute; exact I
    | reflexivity | cbn; lia | vm_compute; discriminate].
Defined.

Lemma lp_zero_raises_witness :
  eval (process_sample 0%float 0%float 1%float) (initial 20 0 10 1%float)
  = Raise IndexError.
Proof.
  apply lp_zero_raises;
    [apply (bool_decide_unpack _); vm_compute; exact I
    | cbn; lia | reflexivity].
Defined.

Lemma feed_steps_bound_witness :
  step_count (feed [(0, 0, 1); (0, 3, 4); (1, 2, 2)]%float default)
  <= step_count (default (R := float)) + (Z.of_nat 3 + 1) / 2.
Proof.
  apply (feed_steps_bound [(0, 0, 1); (0, 3, 4); (1, 2, 2)]%float default).
  apply (bool_decide_unpack _). vm_compute. exact I.
Defined.
