(* ===== verification/PeakMachine.v ===== *)
(** * PeakMachine: the peak-pair state machine, abstractly

    Lines 78-103 of [src/step_detector.py] keep three fields, [last_peak],
    [peak_pair] and [step_count], and change them when a slope flip is
    confirmed as a peak.  This file states what those lines promise as an
    abstract machine that knows nothing of buffers or numbers:

    - a [machine] is the kind of the last confirmed peak ([phase]) and the
      number of peaks confirmed so far ([peaks]);
    - an [observation] is what one sample tells the machine: the candidate
      kind, whether the sample is beyond the threshold on the candidate's
      side, and whether it is beyond the amplitude floor;
    - [astep] is the labelled step relation: the first peak needs the floor
      only, every later peak must be of the other kind and beyond both the
      threshold and the floor, and anything else is dropped;
    - [anext] is the same machine as a function, [arun] its iteration;
    - [steps_of] is the count the machine promises: after the first peak,
      every second confirmed peak is a step.

    The theorems: [astep] is deterministic and total and agrees with
    [anext]; it keeps [consistent]; along any run the confirmed peaks
    alternate ([alternating_run]) and [peaks] counts them.  The file
    Refinement shows that the detector implements this machine. *)

From Stdlib Require Import ZArith Lia.
From stdpp Require Import base tactics list.
From S2P Require Import Prelude.

#[local] Open Scope Z_scope.

(** ** The abstract machine *)

Inductive phase : Type := NONE | MAX | MIN.

#[export] Instance phase_eq_dec : EqDecision phase.
Proof. solve_decision. Defined.

Inductive kind : Type := Maximum | Minimum.

#[export] Instance kind_eq_dec : EqDecision kind.
Proof. solve_decision. Defined.

Record machine : Type := Machine { phase_of : phase; peaks : nat }.

#[export] Instance machine_eq_dec : EqDecision machine.
Proof. solve_decision. Defined.

Record observation : Type := Observation {
  candidate : option kind;
  beyond_threshold : bool;
  beyond_floor : bool
}.

(** The observation of a sample that cannot confirm anything. *)
Definition quiet : observation := Observation None false false.

Definition phase_for (k : kind) : phase :=
  match k with Maximum => MAX | Minimum => MIN end.

Definition opposite (k : kind) : kind :=
  match k with Maximum => Minimum | Minimum => Maximum end.

Inductive astep (o : observation) : machine -> option kind -> machine -> Prop :=
| astep_first m k :
    phase_of m = NONE -> candidate o = Some k -> beyond_floor o = true ->
    astep o m (Some k) (Machine (phase_for k) (S (peaks m)))
| astep_next m k :
    phase_of m = phase_for (opposite k) -> candidate o = Some k ->
    beyond_threshold o = true -> beyond_floor o = true ->
    astep o m (Some k) (Machine (phase_for k) (S (peaks m)))
| astep_drop m :
    (forall k, candidate o = Some k ->
       beyond_floor o = false
       \/ phase_of m = phase_for k
       \/ (phase_of m = phase_for (opposite k) /\ beyond_threshold o = false)) ->
    astep o m None m.

(** Whether a candidate of kind [k] is confirmed in machine [m]. *)
Definition confirms (o : observation) (m : machine) (k : kind) : bool :=
  beyond_floor o
  && (bool_decide (phase_of m = NONE)
      || (bool_decide (phase_of m = phase_for (opposite k)) && beyond_threshold o)).

(** The machine as a function: the label and the next machine. *)
Definition anext (o : observation) (m : machine) : option kind * machine :=
  match candidate o with
  | Some k =>
      if confirms o m k then (Some k, Machine (phase_for k) (S (peaks m)))
      else (None, m)
  | None => (None, m)
  end.

(** Runs: the labels of a sequence of steps. *)
Inductive run : machine -> list (option kind) -> machine -> Prop :=
| run_nil m : run m [] m
| run_cons o m l m' ls m'' :
    astep o m l m' -> run m' ls m'' -> run m (l :: ls) m''.

Definition arun (os : list observation) (m : machine) : machine :=
  foldl (fun m o => snd (anext o m)) m os.

Fixpoint alabels (os : list observation) (m : machine) : list (option kind) :=
  match os with
  | [] => []
  | o :: os => fst (anext o m) :: alabels os (snd (anext o m))
  end.

(** The confirmed peaks among the labels. *)
Definition confirmed (ls : list (option kind)) : list kind := omap id ls.

(** A list of peaks that starts with one that may follow phase [p] and
    changes kind at every position. *)
Fixpoint alternating (p : phase) (ks : list kind) : bool :=
  match ks with
  | [] => true
  | k :: ks => negb (bool_decide (p = phase_for k)) && alternating (phase_for k) ks
  end.

(** The steps counted after [peaks] confirmed peaks: the first peak opens
    the sequence, then every second one closes a step. *)
Definition steps_of (peaks : nat) : Z := Z.of_nat (Nat.div2 (Nat.pred peaks)).

(** Whether a marker is waiting in the pair. *)
Definition pending (peaks : nat) : bool :=
  Nat.even peaks && negb (Nat.eqb peaks 0).

(** The machine has no phase exactly when it has confirmed no peak. *)
Definition consistent (m : machine) : Prop := phase_of m = NONE <-> peaks m = 0%nat.

#[export] Instance consistent_dec m : Decision (consistent m).
Proof. unfold consistent. apply _. Defined.

(** ** The step relation and the step function *)

Lemma phase_for_not_NONE k : phase_for k <> NONE.
Proof. by destruct k. Qed.

Lemma phase_for_opposite k : phase_for (opposite k) <> phase_for k.
Proof. by destruct k. Qed.

Lemma phase_for_inj k k' : phase_for k = phase_for k' -> k = k'.
Proof. by destruct k, k'. Qed.

Lemma confirms_true o m k :
  confirms o m k = true <->
  beyond_floor o = true
  /\ (phase_of m = NONE
      \/ (phase_of m = phase_for (opposite k) /\ beyond_threshold o = true)).
Proof.
  unfold confirms.
  rewrite andb_true_iff, orb_true_iff, andb_true_iff, !bool_decide_eq_true. done.
Qed.

Lemma confirms_false o m k :
  confirms o m k = false <->
  beyond_floor o = false
  \/ phase_of m = phase_for k
  \/ (phase_of m = phase_for (opposite k) /\ beyond_threshold o = false).
Proof.
  unfold confirms.
  destruct (beyond_floor o), (beyond_threshold o), (phase_of m), k; cbn;
    intuition congruence.
Qed.

Lemma anext_astep o m : astep o m (fst (anext o m)) (snd (anext o m)).
Proof.
  unfold anext. destruct (candidate o) as [k|] eqn:Ek;
    [|apply astep_drop; congruence].
  destruct (confirms o m k) eqn:Ec; cbn [fst snd].
  - apply confirms_true in Ec as (Hf & [Hp|[Hp Ht]]);
      [by apply astep_first | by apply astep_next].
  - apply astep_drop. intros k' Hk'. rewrite Ek in Hk'. injection Hk' as <-.
    by apply confirms_false.
Qed.

Lemma astep_anext o m l m' : astep o m l m' -> anext o m = (l, m').
Proof.
  unfold anext. intros [m0 k Hp Hc Hf|m0 k Hp Hc Ht Hf|m0 Hd].
  - rewrite Hc. by rewrite (proj2 (confirms_true o m0 k)) by auto.
  - rewrite Hc. by rewrite (proj2 (confirms_true o m0 k)) by auto.
  - destruct (candidate o) as [k|]; [|done].
    by rewrite (proj2 (confirms_false o m0 k)) by auto.
Qed.

Lemma astep_iff o m l m' : astep o m l m' <-> anext o m = (l, m').
Proof.
  split; [apply astep_anext|]. intros E. pose proof (anext_astep o m) as Ha.
  by rewrite E in Ha.
Qed.

Lemma astep_drop_inv o m m' : astep o m None m' -> m' = m.
Proof. by inversion 1. Qed.

Lemma astep_confirm_inv o m k m' :
  astep o m (Some k) m' ->
  candidate o = Some k /\ beyond_floor o = true
  /\ phase_of m <> phase_for k /\ m' = Machine (phase_for k) (S (peaks m)).
Proof.
  inversion 1 as [m0 k0 Hp|m0 k0 Hp|]; subst; rewrite Hp; split_and!; try done.
  - intros E. by apply (phase_for_not_NONE k).
  - apply phase_for_opposite.
Qed.

Lemma astep_consistent o m l m' : astep o m l m' -> consistent m -> consistent m'.
Proof.
  destruct l as [k|].
  - intros (_ & _ & _ & ->)%astep_confirm_inv _. unfold consistent. cbn.
    pose proof (phase_for_not_NONE k). split; [done | lia].
  - by intros ->%astep_drop_inv.
Qed.

Lemma astep_peaks o m l m' :
  astep o m l m' -> peaks m' = (peaks m + length (confirmed [l]))%nat.
Proof.
  destruct l as [k|].
  - intros (_ & _ & _ & ->)%astep_confirm_inv. cbn. lia.
  - intros ->%astep_drop_inv. cbn. lia.
Qed.

Lemma confirmed_cons l ls : confirmed (l :: ls) = confirmed [l] ++ confirmed ls.
Proof. by destruct l. Qed.

Lemma arun_run os m : run m (alabels os m) (arun os m).
Proof.
  revert m. induction os as [|o os IH]; intros m; cbn [alabels arun foldl].
  - apply run_nil.
  - eapply run_cons; [apply anext_astep | apply IH].
Qed.

(** A sample within the amplitude floor confirms nothing. *)
Lemma anext_floor o m : beyond_floor o = false -> anext o m = (None, m).
Proof.
  intros Hf. unfold anext, confirms. rewrite Hf. by destruct (candidate o).
Qed.

Lemma arun_floor os m :
  Forall (fun o => beyond_floor o = false) os -> arun os m = m.
Proof.
  induction 1 as [|o os Hf _ IH]; [done|].
  cbn [arun foldl]. by rewrite (anext_floor _ _ Hf).
Qed.

(** ** The arithmetic of the count *)

Lemma div2_succ k :
  Nat.div2 (S k) = (Nat.div2 k + (if Nat.even k then 0 else 1))%nat.
Proof.
  induction k as [k IH] using (well_founded_induction lt_wf).
  destruct k as [|[|k]]; [done..|].
  change (Nat.div2 (S (S (S k)))) with (S (Nat.div2 (S k))).
  change (Nat.div2 (S (S k))) with (S (Nat.div2 k)).
  change (Nat.even (S (S k))) with (Nat.even k).
  rewrite IH by lia. lia.
Qed.

Lemma steps_of_confirm k :
  steps_of (S (S k)) = steps_of (S k) + (if pending (S k) then 1 else 0).
Proof.
  unfold steps_of, pending. cbn [Nat.pred Nat.eqb negb].
  rewrite div2_succ, Nat.even_succ, andb_true_r. unfold Nat.odd.
  destruct (Nat.even k); cbn; lia.
Qed.

Lemma pending_confirm k : pending (S (S k)) = negb (pending (S k)).
Proof.
  unfold pending. cbn [Nat.eqb negb]. rewrite !andb_true_r, Nat.even_succ.
  unfold Nat.odd. change (Nat.even (S (S k))) with (Nat.even k).
  by rewrite Nat.even_succ.
Qed.

Lemma steps_of_succ k : steps_of k <= steps_of (S k) <= steps_of k + 1.
Proof.
  destruct k as [|k]; [done|]. rewrite steps_of_confirm.
  destruct (pending _); lia.
Qed.

Lemma steps_of_mono k k' : (k <= k')%nat -> steps_of k <= steps_of k'.
Proof.
  induction 1 as [|k' _ IH]; [lia|]. pose proof (steps_of_succ k'). lia.
Qed.

(** Twice the steps, plus one for the opening peak, never exceeds the
    number of peaks. *)
Lemma steps_of_double k : (0 < k)%nat -> 2 * steps_of k + 1 <= Z.of_nat k.
Proof.
  intros Hk. unfold steps_of. pose proof (Nat.div2_odd (Nat.pred k)) as Ho.
  destruct (Nat.odd _); cbn [Nat.b2n] in Ho; lia.
Qed.

(** ** Theorems of the abstract machine *)

(** The step relation is deterministic: an observation fixes the label
    and the next machine. *)
Theorem astep_deterministic o m l1 m1 l2 m2 :
  astep o m l1 m1 -> astep o m l2 m2 -> l1 = l2 /\ m1 = m2.
Proof. intros E1%astep_anext E2%astep_anext. split; congruence. Qed.

(** The step relation is total: every observation is answered. *)
Theorem astep_total o m : exists l m', astep o m l m'.
Proof. eexists _, _. apply anext_astep. Qed.

(** Along any run of the machine the confirmed peaks alternate: each
    differs in kind from the one before it, and the first from the phase the
    run starts in. *)
Lemma alternating_run m ls m' :
  run m ls m' -> alternating (phase_of m) (confirmed ls) = true.
Proof.
  induction 1 as [|o m l m' ls m'' Hs _ IH]; [done|].
  destruct l as [k|].
  - apply astep_confirm_inv in Hs as (_ & _ & Hp & ->).
    change (confirmed (Some k :: ls)) with (k :: confirmed ls).
    cbn [alternating]. by rewrite bool_decide_eq_false_2.
  - apply astep_drop_inv in Hs as ->. done.
Qed.

(** A run confirms as many peaks as its labels show, and keeps the
    machine consistent. *)
Lemma peaks_run m ls m' :
  run m ls m' ->
  peaks m' = (peaks m + length (confirmed ls))%nat
  /\ (consistent m -> consistent m').
Proof.
  induction 1 as [|o m l m' ls m'' Hs _ [IHp IHc]]; [split; [cbn; lia | done]|].
  rewrite confirmed_cons, length_app, IHp, (astep_peaks _ _ _ _ Hs).
  split; [lia|]. intros Hc. eauto using astep_consistent.
Qed.

(** ** The theorems at a concrete run: a maximum, a dropped candidate, a
    minimum *)

Lemma sample_run :
  run (Machine NONE 0) [Some Maximum; None; Some Minimum] (Machine MIN 2).
Proof.
  apply run_cons with (o := Observation (Some Maximum) false true)
                      (m' := Machine MAX 1); [by apply astep_first|].
  apply run_cons with (o := Observation (Some Maximum) true true)
                      (m' := Machine MAX 1).
  { apply astep_drop. intros k [= <-]. auto. }
  apply run_cons with (o := Observation (Some Minimum) true true)
                      (m' := Machine MIN 2).
  { by apply (astep_next _ (Machine MAX 1) Minimum). }
  apply run_nil.
Defined.

Lemma astep_deterministic_witness :
  Some Maximum = fst (anext (Observation (Some Maximum) false true) (Machine NONE 0))
  /\ Machine MAX 1 = snd (anext (Observation (Some Maximum) false true) (Machine NONE 0)).
Proof.
  apply (astep_deterministic (Observation (Some Maximum) false true) (Machine NONE 0)).
  - by apply astep_first.
  - apply anext_astep.
Defined.

Lemma alternating_run_witness :
  alternating NONE (confirmed [Some Maximum; None; Some Minimum]) = true.
Proof. apply (alternating_run _ _ _ sample_run). Defined.

Lemma peaks_run_witness :
  peaks (Machine MIN 2)
  = (0 + length (confirmed [Some Maximum; None; Some Minimum]))%nat
  /\ (consistent (Machine NONE 0) -> consistent (Machine MIN 2)).
Proof. apply (peaks_run _ _ _ sample_run). Defined.
