(* ===== verification/Refinement.v ===== *)
(** * Refinement: the detector implements the peak machine

    [refines b s m] relates a detector state [s] to a machine [m] of
    PeakMachine: [last_peak] is the code of the phase, [peak_pair] holds the
    marker of the phase while one is pending, and [step_count] is [b] plus
    the steps the machine has counted.  [observe] is what lines 80-97 read
    of a sample, [observed] what a whole call of [process_sample] shows the
    machine, [observations] the same along a stream.

    The theorems: [peak_logic], [process_sample] and [feed] take related
    states to related states, the machine moving by [anext]; every
    well-formed state is related to its [abstraction]; and on a stream fed
    to a fresh detector [step_count] is [(p - 1) / 2] for [p] the number of
    confirmed peaks, which alternate between maxima and minima. *)

From Stdlib Require Import ZArith Lia Floats.
From stdpp Require Import base tactics list.
From S2P Require Import Prelude Numeric Deque StepDetector Branches Invariant PeakMachine.

#[local] Open Scope Z_scope.

(** How the fields encode a phase: [last_peak] holds [code], and
    [peak_pair] holds [marker] while a marker is pending. *)
Definition code (p : phase) : Z :=
  match p with NONE => 0 | MAX => 1 | MIN => -1 end.

Definition marker (p : phase) : Z * Z :=
  match p with NONE => (0, 0) | MAX => (1, 0) | MIN => (0, -1) end.

(** The kind a candidate value stands for (lines 67-70 produce 1 and -1). *)
Definition kind_of (c : Z) : option kind :=
  if c =? 1 then Some Maximum else if c =? -1 then Some Minimum else None.

(** Replaces the comparisons of integer literals by their values. *)
Ltac eqb_consts :=
  repeat match goal with
         | |- context [Z.eqb ?a ?b] =>
             let v := eval vm_compute in (Z.eqb a b) in
             match v with true => idtac | false => idtac end;
             change (Z.eqb a b) with v
         end.

Section Refinement.
Context {R : Type} `{Arith R} `{Sqrt R}.
Implicit Types (s : StepDetector R) (m : machine).

(** What lines 80-97 read of a sample: the comparisons of the branch the
    candidate selects. *)
Definition observe (cand : option Z) (f th A : R) : observation :=
  match cand ≫= kind_of with
  | Some Maximum => Observation (Some Maximum) (f >? th)%num (f >? A)%num
  | Some Minimum => Observation (Some Minimum) (f <? th)%num (f <? - A)%num
  | None => quiet
  end.

(** What one call of [process_sample] shows the machine: nothing on the
    early return, on an exception and while a window is filling (line 73),
    otherwise the comparisons on the filtered sample. *)
Definition observed (ax ay az : R) s : observation :=
  let s2 := conditioned (norm ax ay az) s in
  if len (lp_filter_buffer s2) <? lp_filter_size s then quiet
  else match lp_filter (lp_filter_buffer s2) with
       | Raise _ => quiet
       | Ok f =>
           let s3 := thresholded f s2 in
           match truediv (pysum (items (threshold_buffer s3)))
                         (len (threshold_buffer s3)) with
           | Raise _ => quiet
           | Ok th =>
               if buffers_filling s3 then quiet
               else observe (peak_candidate_of
                               (sign_of_slope (last_filtered s) f) (last_slope s))
                            f th (min_step_amplitude s)
           end
       end.

Fixpoint observations (samples : list (R * R * R)) s : list observation :=
  match samples with
  | [] => []
  | (ax, ay, az) :: samples =>
      observed ax ay az s
      :: observations samples (exec (process_sample ax ay az) s)
  end.

(** The refinement relation, with [b] the count when the machine started. *)
Definition refines (b : Z) s m : Prop :=
  last_peak s = code (phase_of m) /\
  consistent m /\
  peak_pair s = (if pending (peaks m) then marker (phase_of m) else (0, 0)) /\
  step_count s = b + steps_of (peaks m).

(** The machine a state stands for: two peaks are as many as the fields
    can tell apart. *)
Definition abstraction s : machine :=
  Machine (if last_peak s =? 1 then MAX else if last_peak s =? -1 then MIN else NONE)
          (if last_peak s =? 0 then 0
           else if bool_decide (peak_pair s = (0, 0)) then 1 else 2).

#[export] Instance refines_dec b s m : Decision (refines b s m).
Proof. unfold refines. apply _. Defined.

(** In a related state the step test of lines 100-103 finds no pair. *)
Lemma refines_pair b s m :
  refines b s m -> fst (peak_pair s) * snd (peak_pair s) <> -1.
Proof.
  intros (_ & _ & -> & _). by destruct (pending _), (phase_of m).
Qed.

Lemma refines_idle b s m : refines b s m -> count_step s = s.
Proof. intros Href. eapply count_step_idle, refines_pair, Href. Qed.

Lemma refines_first b s k :
  refines b s (Machine NONE 0) ->
  refines b (count_step (set_last_peak (code (phase_for k)) s))
            (Machine (phase_for k) 1).
Proof.
  intros (Hl & Hc & Hp & Hn). cbn in *.
  rewrite count_step_idle by (cbn; rewrite Hp; cbn; lia).
  split_and!; cbn; try done. by destruct k.
Qed.

Lemma refines_next b s k n :
  refines b s (Machine (phase_for (opposite k)) (S n)) ->
  refines b
    (count_step
       (set_last_peak (code (phase_for k))
          (set_peak_pair
             (match k with
              | Maximum => (1, snd (peak_pair s))
              | Minimum => (fst (peak_pair s), -1)
              end) s)))
    (Machine (phase_for k) (S (S n))).
Proof.
  intros (Hl & Hc & Hp & Hn). unfold refines.
  cbn [phase_of peaks] in *. rewrite steps_of_confirm, pending_confirm, Hp.
  destruct (pending _), k; cbn [negb];
    (rewrite count_step_fire by (cbn; lia)) || (rewrite count_step_idle by (cbn; lia));
    unfold consistent; cbn; split_and!; try done; lia.
Qed.

(** ** One confirmation *)

Lemma refines_peak_logic b cand f th s m :
  refines b s m ->
  refines b (peak_logic cand f th s)
            (snd (anext (observe cand f th (min_step_amplitude s)) m)).
Proof.
  intros Href. destruct cand as [c|]; [|done].
  pose proof (refines_idle _ _ _ Href) as Hidle.
  pose proof Href as (Hl & Hc & _ & _).
  cbn [peak_logic]. unfold confirm_peak, observe, kind_of.
  cbn [mbind option_bind]. rewrite Hl.
  destruct m as [[] [|n]]; unfold consistent in Hc; cbn in Hc;
    try (exfalso; intuition congruence); clear Hc; cbn [code];
    (destruct (Z.eqb_spec c 1) as [->|?];
       [|destruct (Z.eqb_spec c (-1)) as [->|?]]); eqb_consts; cbn [andb];
    repeat match goal with
           | |- context [nlt ?a ?b] => destruct (nlt a b) eqn:?
           end; cbn [andb];
    match goal with
    | |- refines _ _ ?m => let m' := eval vm_compute in m in change m with m'
    end;
    rewrite ?Hidle;
    first [ exact Href
          | apply (refines_first b s Maximum Href)
          | apply (refines_first b s Minimum Href)
          | apply (refines_next b s Maximum n Href)
          | apply (refines_next b s Minimum n Href) ].
Qed.

(** Lines 78-103 implement one step of the machine: from related
    states, [peak_logic] leads to the state related to the machine's next
    one on the observation of the sample. *)
Theorem peak_logic_refines b cand f th s m :
  refines b s m ->
  refines b (peak_logic cand f th s)
            (snd (anext (observe cand f th (min_step_amplitude s)) m)).
Proof. apply refines_peak_logic. Qed.

(** ** One sample, and a stream *)

Lemma refines_process_sample b ax ay az s m :
  refines b s m ->
  refines b (exec (process_sample ax ay az) s)
            (snd (anext (observed ax ay az s) m)).
Proof.
  intros Href. unfold exec, observed. rewrite process_sample_eq. cbn zeta.
  destruct (_ <? _); [exact Href|].
  destruct (lp_filter _) as [f|]; [|exact Href]. rewrite detect_eq. cbn zeta.
  destruct (truediv _ _) as [th|]; [|exact Href]. cbn [snd].
  destruct (buffers_filling _); [exact Href|].
  exact (refines_peak_logic b _ f th
           (thresholded f (conditioned (norm ax ay az) s)) m Href).
Qed.

(** C1: every call of [process_sample], whichever way it leaves (early
    return, exception, filling window or full detection), is one step of
    the machine on the observation [observed] computes from the sample. *)
Theorem process_sample_refines b ax ay az s m :
  refines b s m ->
  refines b (exec (process_sample ax ay az) s)
            (snd (anext (observed ax ay az s) m)).
Proof. apply refines_process_sample. Qed.

Lemma refines_feed b samples s m :
  refines b s m ->
  refines b (feed samples s) (arun (observations samples s) m).
Proof.
  revert s m. induction samples as [|[[ax ay] az] xs IH]; intros s m Href; [done|].
  cbn [feed foldl observations arun]. apply IH, refines_process_sample, Href.
Qed.

(** Along a stream of samples the detector follows the machine:
    [feed] is related to [arun] on the stream's observations. *)
Theorem feed_refines b samples s m :
  refines b s m ->
  refines b (feed samples s) (arun (observations samples s) m).
Proof. apply refines_feed. Qed.

Lemma length_observations samples s :
  length (observations samples s) = length samples.
Proof.
  revert s. induction samples as [|[[ax ay] az] xs IH]; intros s; [done|].
  cbn [observations length]. by rewrite IH.
Qed.

Lemma length_alabels os m : length (alabels os m) = length os.
Proof.
  revert m. induction os as [|o os IH]; intros m; [done|].
  cbn [alabels length]. by rewrite IH.
Qed.

(** ** Every well-formed state is related to a machine *)

Lemma initial_refines N L T (A : R) :
  refines 0 (initial N L T A) (Machine NONE 0).
Proof. by unfold refines, consistent. Qed.

Lemma refines_abstraction s :
  machine_ok s ->
  refines (step_count s - steps_of (peaks (abstraction s))) s (abstraction s).
Proof.
  intros (_ & Hs & Hp & _). unfold refines, abstraction, consistent.
  destruct Hs as [Hs|[Hs|Hs]], Hp as [Hp|[[Hp ?]|[Hp ?]]];
    rewrite Hs, Hp in *; try lia; cbn; split_and!; try done; lia.
Qed.

(** The invariant of the detector is the refinement relation seen from
    the state: a state with well-formed machine fields is related to its
    [abstraction], with the base the count the abstraction does not
    explain. *)
Theorem machine_ok_refines s :
  machine_ok s ->
  refines (step_count s - steps_of (peaks (abstraction s))) s (abstraction s).
Proof. apply refines_abstraction. Qed.

(** ** The count on a stream *)

(** C2: on any stream fed to a fresh detector the count is determined by
    the peaks the machine confirms on the stream's observations: they
    alternate in kind, there is at most one per sample, and with [p] of
    them the count is [(p - 1) / 2] rounded down (0 when there is none),
    while [last_peak] is the code of the phase the machine ends in. *)
Theorem feed_steps_law N L T (A : R) samples :
  let s0 := initial N L T A in
  let os := observations samples s0 in
  let ls := alabels os (Machine NONE 0) in
  length ls = length samples
  /\ alternating NONE (confirmed ls) = true
  /\ step_count (feed samples s0) = steps_of (length (confirmed ls))
  /\ last_peak (feed samples s0) = code (phase_of (arun os (Machine NONE 0))).
Proof.
  cbv zeta.
  pose proof (refines_feed 0 samples _ _ (initial_refines N L T A)) as Href.
  pose proof (arun_run (observations samples (initial N L T A)) (Machine NONE 0))
    as Hrun.
  destruct Href as (Hl & _ & _ & Hc), (peaks_run _ _ _ Hrun) as [Hp _].
  split_and!; [|apply (alternating_run _ _ _ Hrun)|by rewrite Hc, Hp|exact Hl].
  by rewrite length_alabels, length_observations.
Qed.

End Refinement.

(** ** The theorems at concrete inputs (binary64) *)

Lemma peak_logic_refines_witness :
  refines 0
    (peak_logic (Some 1) 2%float 1%float
       (set_peak_pair (0, -1) (set_last_peak (-1) (initial 20 7 10 1%float))))
    (Machine MAX 3).
Proof.
  assert (refines 0
            (set_peak_pair (0, -1) (set_last_peak (-1) (initial 20 7 10 1%float)))
            (Machine MIN 2)) as Href
    by (apply (bool_decide_unpack _); vm_compute; exact I).
  pose proof (peak_logic_refines 0 (Some 1) 2%float 1%float _ _ Href) as W.
  vm_compute in W. vm_compute. exact W.
Defined.

Lemma process_sample_refines_witness :
  refines 0 (exec (process_sample 0%float 0%float 1%float) (initial 20 7 10 1%float))
            (Machine NONE 0).
Proof.
  pose proof (process_sample_refines 0 0%float 0%float 1%float _ _
                (initial_refines 20 7 10 1%float)) as W.
  vm_compute in W. vm_compute. exact W.
Defined.

Lemma feed_refines_witness :
  refines 0
    (feed [(0, 0, 0); (0, 0, 2); (0, 0, 4); (0, 0, 3); (0, 0, 1); (0, 0, 0);
           (0, 0, 1); (0, 0, 3); (0, 0, 4); (0, 0, 3); (0, 0, 1); (0, 0, 0);
           (0, 0, 1)]%float
          (initial 3 1 3 0.25%float))
    (Machine MIN 3).
Proof.
  pose proof (feed_refines 0
                [(0, 0, 0); (0, 0, 2); (0, 0, 4); (0, 0, 3); (0, 0, 1); (0, 0, 0);
                 (0, 0, 1); (0, 0, 3); (0, 0, 4); (0, 0, 3); (0, 0, 1); (0, 0, 0);
                 (0, 0, 1)]%float _ _
                (initial_refines 3 1 3 0.25%float)) as W.
  vm_compute in W. vm_compute. exact W.
Defined.

Lemma machine_ok_refines_witness :
  refines 0 (initial 20 7 10 1%float) (Machine NONE 0).
Proof.
  apply (machine_ok_refines (initial 20 7 10 1%float)).
  unfold machine_ok, sign_ok, pair_ok. cbn. split_and!; auto; done.
Defined.
