(* ===== verification/Startup.v ===== *)
(** * Startup: start-up suppression and amplitude gating

    Two promises about when [process_sample] does not count:

    - while the norm window or the threshold window is still filling
      (line 73 of [src/step_detector.py]) the peak logic does not run, so a
      stream shorter than [max norm_window_size threshold_window_size] fed
      to a fresh detector counts nothing ([startup_suppression]);
    - a stream whose filtered samples all stay within [min_step_amplitude]
      of zero counts nothing, however long it is ([amplitude_gating]).

    [filtered_of] is the filtered sample a call reaches line 56 with, and
    [filtered_trace] the filtered samples of a stream. *)

From Stdlib Require Import ZArith Lia Floats.
From stdpp Require Import base tactics list.
From S2P Require Import Prelude Numeric Deque StepDetector Branches Invariant.
From S2P Require Import PeakMachine Refinement.

#[local] Open Scope Z_scope.

Section Startup.
Context {R : Type} `{Arith R} `{Sqrt R}.
Implicit Types (s : StepDetector R) (samples : list (R * R * R)).

(** The value of [filtered_sample] at line 56, when the call gets there. *)
Definition filtered_of (ax ay az : R) s : option R :=
  let s2 := conditioned (norm ax ay az) s in
  if len (lp_filter_buffer s2) <? lp_filter_size s then None
  else match lp_filter (lp_filter_buffer s2) with
       | Ok f => Some f
       | Raise _ => None
       end.

Fixpoint filtered_trace samples s : list R :=
  match samples with
  | [] => []
  | (ax, ay, az) :: samples =>
      match filtered_of ax ay az s with
      | Some f => [f]
      | None => []
      end ++ filtered_trace samples (exec (process_sample ax ay az) s)
  end.

(** A filtered sample within the amplitude floor, as lines 82, 88, 94 and
    96 test it. *)
Definition within_floor (A f : R) : Prop :=
  (f >? A)%num = false /\ (f <? - A)%num = false.

(** The fields the peak logic owns. *)
Definition machine_fields s : Z * (Z * Z) * Z :=
  (last_peak s, peak_pair s, step_count s).

(** ** What a call leaves alone *)

(** [process_sample] never assigns the configuration. *)
Lemma process_sample_config ax ay az s :
  let s' := exec (process_sample ax ay az) s in
  norm_window_size s' = norm_window_size s
  /\ lp_filter_size s' = lp_filter_size s
  /\ threshold_window_size s' = threshold_window_size s
  /\ min_step_amplitude s' = min_step_amplitude s.
Proof.
  cbn zeta. unfold exec. rewrite process_sample_eq. cbn zeta.
  destruct (_ <? _); [done|]. destruct (lp_filter _) as [f|]; [|done].
  rewrite detect_eq. cbn zeta. destruct (truediv _ _) as [th|]; [|done].
  cbn [snd]. destruct (buffers_filling _); [done|].
  pose proof (peak_logic_frame
                (peak_candidate_of
                   (sign_of_slope (last_filtered (conditioned (norm ax ay az) s)) f)
                   (last_slope (conditioned (norm ax ay az) s)))
                f th (thresholded f (conditioned (norm ax ay az) s))) as Hf.
  cbn zeta in Hf. destruct Hf as (_ & _ & _ & HN & HL & HT & HA & _).
  change (norm_window_size (settle ?f ?sl ?x)) with (norm_window_size x).
  change (lp_filter_size (settle ?f ?sl ?x)) with (lp_filter_size x).
  change (threshold_window_size (settle ?f ?sl ?x)) with (threshold_window_size x).
  change (min_step_amplitude (settle ?f ?sl ?x)) with (min_step_amplitude x).
  by rewrite HN, HL, HT, HA.
Qed.

Lemma feed_config samples s :
  let s' := feed samples s in
  norm_window_size s' = norm_window_size s
  /\ lp_filter_size s' = lp_filter_size s
  /\ threshold_window_size s' = threshold_window_size s
  /\ min_step_amplitude s' = min_step_amplitude s.
Proof.
  revert s. induction samples as [|[[ax ay] az] xs IH]; intros s; [done|].
  cbn [feed foldl]. cbn zeta in *.
  destruct (process_sample_config ax ay az s) as (? & ? & ? & ?).
  destruct (IH (exec (process_sample ax ay az) s)) as (? & ? & ? & ?).
  unfold feed in *. split_and!; congruence.
Qed.

(** Each window grows by at most one item per call. *)
Lemma process_sample_len ax ay az s :
  let s' := exec (process_sample ax ay az) s in
  len (norm_buffer s') <= len (norm_buffer s) + 1
  /\ len (threshold_buffer s') <= len (threshold_buffer s) + 1.
Proof.
  cbn zeta. unfold exec. rewrite process_sample_eq. cbn zeta.
  pose proof (len_append_le (norm ax ay az) (norm_buffer s)) as Hn.
  destruct (_ <? _); [cbn; lia|]. destruct (lp_filter _) as [f|]; [|cbn; lia].
  pose proof (len_append_le f (threshold_buffer s)) as Ht.
  rewrite detect_eq. cbn zeta. destruct (truediv _ _) as [th|]; [|done].
  cbn [snd]. destruct (buffers_filling _); [done|].
  pose proof (peak_logic_frame
                (peak_candidate_of
                   (sign_of_slope (last_filtered (conditioned (norm ax ay az) s)) f)
                   (last_slope (conditioned (norm ax ay az) s)))
                f th (thresholded f (conditioned (norm ax ay az) s))) as Hf.
  cbn zeta in Hf. destruct Hf as (Hnb & _ & Htb & _).
  change (norm_buffer (settle ?f ?sl ?x)) with (norm_buffer x).
  change (threshold_buffer (settle ?f ?sl ?x)) with (threshold_buffer x).
  by rewrite Hnb, Htb.
Qed.

(** While a window is short of its size by more than the sample to come,
    the call leaves the machine's fields alone (line 73). *)
Lemma process_sample_filling ax ay az s :
  len (norm_buffer s) + 1 < norm_window_size s
  \/ len (threshold_buffer s) + 1 < threshold_window_size s ->
  machine_fields (exec (process_sample ax ay az) s) = machine_fields s.
Proof.
  intros Hlen. unfold exec. rewrite process_sample_eq. cbn zeta.
  pose proof (len_append_le (norm ax ay az) (norm_buffer s)) as Hn.
  destruct (_ <? _); [done|]. destruct (lp_filter _) as [f|]; [|done].
  pose proof (len_append_le f (threshold_buffer s)) as Ht.
  rewrite detect_eq. cbn zeta. destruct (truediv _ _) as [th|]; [|done].
  cbn [snd]. destruct (buffers_filling _) eqn:Eb; [done|].
  unfold buffers_filling in Eb. apply orb_false_elim in Eb as [E1 E2].
  apply Z.ltb_ge in E1, E2. cbn in E1, E2. lia.
Qed.

(** ** Start-up suppression *)

(** A stream too short to fill the norm window, or too short to fill
    the threshold window, leaves [last_peak], [peak_pair] and [step_count]
    as they were, from any state. *)
Lemma filling_feed samples s :
  len (norm_buffer s) + Z.of_nat (length samples) < norm_window_size s
  \/ len (threshold_buffer s) + Z.of_nat (length samples) < threshold_window_size s ->
  machine_fields (feed samples s) = machine_fields s.
Proof.
  revert s. induction samples as [|[[ax ay] az] xs IH]; intros s Hlen; [done|].
  cbn [feed foldl length] in *.
  destruct (process_sample_config ax ay az s) as (HN & _ & HT & _).
  destruct (process_sample_len ax ay az s) as (Hn & Ht).
  etrans; [apply IH; rewrite HN, HT; lia|].
  apply process_sample_filling. lia.
Qed.

(** C7: fewer than [max norm_window_size threshold_window_size] samples
    fed to a fresh detector count no step. *)
Theorem startup_suppression N L T (A : R) samples :
  Z.of_nat (length samples) < Z.max N T ->
  step_count (feed samples (initial N L T A)) = 0.
Proof.
  intros Hlen.
  enough (machine_fields (feed samples (initial N L T A))
          = machine_fields (initial N L T A)) as [= _ _ ->] by done.
  apply filling_feed. unfold len. cbn. lia.
Qed.

(** ** Amplitude gating *)

Lemma observe_floor cand (f th A : R) :
  within_floor A f -> beyond_floor (observe cand f th A) = false.
Proof.
  intros [Hmax Hmin]. unfold observe.
  by destruct (cand ≫= kind_of) as [[]|].
Qed.

Lemma observed_floor ax ay az s :
  (forall f, filtered_of ax ay az s = Some f ->
     within_floor (min_step_amplitude s) f) ->
  beyond_floor (observed ax ay az s) = false.
Proof.
  unfold filtered_of, observed. cbn zeta. intros Hf.
  destruct (_ <? _); [done|]. destruct (lp_filter _) as [f|]; [|done].
  destruct (truediv _ _); [|done]. destruct (buffers_filling _); [done|].
  by apply observe_floor, Hf.
Qed.

Lemma observations_floor samples s :
  Forall (within_floor (min_step_amplitude s)) (filtered_trace samples s) ->
  Forall (fun o => beyond_floor o = false) (observations samples s).
Proof.
  revert s. induction samples as [|[[ax ay] az] xs IH]; intros s; [done|].
  cbn [filtered_trace observations]. intros [Hhd Htl]%Forall_app.
  destruct (process_sample_config ax ay az s) as (_ & _ & _ & HA).
  constructor; [|by apply IH; rewrite HA].
  apply observed_floor. intros f Ef. rewrite Ef in Hhd. by inversion Hhd.
Qed.

(** C8: a stream whose filtered samples all stay within
    [min_step_amplitude] of zero confirms no peak and counts no step,
    whatever its length and whatever the thresholds. *)
Theorem amplitude_gating samples s :
  machine_ok s ->
  Forall (within_floor (min_step_amplitude s)) (filtered_trace samples s) ->
  machine_fields (feed samples s) = machine_fields s.
Proof.
  intros Hok%refines_abstraction Hq%observations_floor.
  pose proof (refines_feed _ samples _ _ Hok) as Hr.
  rewrite (arun_floor _ _ Hq) in Hr.
  destruct Hok as (Hl & _ & Hp & Hn), Hr as (Hl' & _ & Hp' & Hn').
  unfold machine_fields. by rewrite Hl', Hp', Hn', <- Hl, <- Hp, <- Hn.
Qed.

#[export] Instance within_floor_dec (A f : R) : Decision (within_floor A f).
Proof. unfold within_floor. apply _. Defined.

Lemma initial_machine_ok N L T (A : R) : machine_ok (initial N L T A).
Proof. unfold machine_ok, sign_ok, pair_ok. cbn. split_and!; auto; done. Qed.

End Startup.

(** ** The theorems at concrete inputs (binary64) *)

Lemma filling_feed_witness :
  machine_fields
    (feed [(0, 0, 1); (0, 3, 4); (0, 0, 1)]%float (initial 20 7 10 0.5%float))
  = (0, (0, 0), 0).
Proof.
  apply (filling_feed [(0, 0, 1); (0, 3, 4); (0, 0, 1)]%float
           (initial 20 7 10 0.5%float)).
  left. vm_compute. reflexivity.
Defined.

Lemma startup_suppression_witness :
  step_count
    (feed [(0, 0, 1); (0, 3, 4); (0, 0, 1); (0, 3, 4); (0, 0, 1)]%float
          (initial 3 1 6 0.5%float)) = 0.
Proof.
  apply (startup_suppression 3 1 6 0.5%float
           [(0, 0, 1); (0, 3, 4); (0, 0, 1); (0, 3, 4); (0, 0, 1)]%float).
  vm_compute. reflexivity.
Defined.

Lemma amplitude_gating_witness :
  machine_fields
    (feed [(0, 0, 0); (0, 0, 2); (0, 0, 4); (0, 0, 3); (0, 0, 1); (0, 0, 0);
           (0, 0, 1); (0, 0, 3); (0, 0, 4); (0, 0, 3); (0, 0, 1); (0, 0, 0);
           (0, 0, 1)]%float
          (initial 3 1 3 2%float))
  = (0, (0, 0), 0).
Proof.
  apply (amplitude_gating
           [(0, 0, 0); (0, 0, 2); (0, 0, 4); (0, 0, 3); (0, 0, 1); (0, 0, 0);
            (0, 0, 1); (0, 0, 3); (0, 0, 4); (0, 0, 3); (0, 0, 1); (0, 0, 0);
            (0, 0, 1)]%float
           (initial 3 1 3 2%float)).
  - apply initial_machine_ok.
  - apply (bool_decide_unpack _). vm_compute. exact I.
Defined.
