(* ===== verification/Console.v ===== *)
(** * Console: the line the detector prints

    [process_sample] prints one line, ["STEP! Amplitude: ..."], where it
    counts a step (line 101 of [src/step_detector.py]).  This file models
    that line by the value it formats: [process_sample_prints] is what one
    call prints and [feed_prints] what a stream prints.  The detector
    prints exactly as many lines as it counts steps, and on a well-formed
    detector every amplitude it prints is beyond the floor
    [min_step_amplitude]; the value is the filtered sample at the peak that
    closes the pair.  The lines are a function of the state and the sample:
    they change nothing the methods read. *)

From Stdlib Require Import ZArith Lia.
From stdpp Require Import base tactics list.
From S2P Require Import Prelude Numeric Deque StepDetector Branches Invariant Startup.

#[local] Open Scope Z_scope.

Section Console.
Context {R : Type} `{Arith R} `{Sqrt R}.
Implicit Types (self s : StepDetector R) (samples : list (R * R * R)).

(** Lines 78-101: the values the peak logic prints, by the test of line
    100 on the state the confirmation leaves. *)
Definition peak_logic_prints (peak_candidate : option Z) (filtered_sample threshold : R)
    self : list R :=
  match peak_candidate with
  | Some c =>
      let confirmed := confirm_peak c filtered_sample threshold self in
      if fst (peak_pair confirmed) * snd (peak_pair confirmed) =? -1
      then [filtered_sample] else []
  | None => []
  end.

(** Lines 43-101: the values one call prints.  Nothing is printed on the
    early returns of lines 53-54 and 73-76, nor when [lp_filter] or the
    division of line 63 raises. *)
Definition process_sample_prints (ax ay az : R) self : list R :=
  let s2 := conditioned (norm ax ay az) self in
  if len (lp_filter_buffer s2) <? lp_filter_size self then []
  else match lp_filter (lp_filter_buffer s2) with
       | Raise _ => []
       | Ok filtered_sample =>
           let s3 := thresholded filtered_sample s2 in
           match truediv (pysum (items (threshold_buffer s3)))
                         (len (threshold_buffer s3)) with
           | Raise _ => []
           | Ok threshold =>
               if buffers_filling s3 then []
               else peak_logic_prints
                      (peak_candidate_of
                         (sign_of_slope (last_filtered self) filtered_sample)
                         (last_slope self))
                      filtered_sample threshold s3
           end
       end.

(** What the calls of line 92 of [src/main.py] print along a stream of
    readings: the lines of [process_sample], call by call. *)
Fixpoint feed_prints samples self : list R :=
  match samples with
  | [] => []
  | (ax, ay, az) :: samples =>
      process_sample_prints ax ay az self
      ++ feed_prints samples (exec (process_sample ax ay az) self)
  end.

(** Whether a value is beyond the floor [A]. *)
Definition beyond (A f : R) : Prop := (f >? A)%num = true \/ (f <? - A)%num = true.

(** ** One line for each step *)

Lemma step_count_confirm_peak c f th s : step_count (confirm_peak c f th s) = step_count s.
Proof.
  destruct (confirm_peak_cases c f th s)
    as [E|[(?&?&?&?&E)|[(?&?&?&?&E)|[(?&?&?&E)|(?&?&?&E)]]]]; by rewrite E.
Qed.

Lemma peak_logic_prints_count cand f th s :
  Z.of_nat (length (peak_logic_prints cand f th s))
  = step_count (peak_logic cand f th s) - step_count s.
Proof.
  destruct cand as [c|]; cbn [peak_logic_prints peak_logic length]; [|lia].
  rewrite <- (step_count_confirm_peak c f th s).
  destruct (count_step_cases (confirm_peak c f th s)) as [[Hp ->]|[Hp ->]].
  - rewrite Hp. cbn. lia.
  - destruct (Z.eqb_spec (fst (peak_pair (confirm_peak c f th s))
                          * snd (peak_pair (confirm_peak c f th s))) (-1));
      [done | cbn; lia].
Qed.

Lemma process_sample_prints_count ax ay az s :
  Z.of_nat (length (process_sample_prints ax ay az s))
  = step_count (exec (process_sample ax ay az) s) - step_count s.
Proof.
  unfold exec, process_sample_prints. rewrite process_sample_eq. cbn zeta.
  destruct (_ <? _); [cbn; lia|]. destruct (lp_filter _) as [f|]; [|cbn; lia].
  rewrite detect_eq. cbn zeta. destruct (truediv _ _) as [th|]; [|cbn; lia].
  destruct (buffers_filling _); [cbn; lia|].
  rewrite peak_logic_prints_count. done.
Qed.

Lemma feed_prints_count samples s :
  Z.of_nat (length (feed_prints samples s)) = step_count (feed samples s) - step_count s.
Proof.
  revert s. induction samples as [|[[ax ay] az] samples IH]; intros s;
    cbn [feed_prints feed foldl length]; [lia|].
  rewrite length_app, Nat2Z.inj_add, process_sample_prints_count.
  fold (feed samples (exec (process_sample ax ay az) s)). rewrite IH. lia.
Qed.

(** ** What is printed is beyond the floor *)

Lemma pair_ok_open lp (pp : Z * Z) : pair_ok lp pp -> fst pp * snd pp <> -1.
Proof. by intros [->|[[-> _]|[-> _]]]. Qed.

Lemma peak_logic_prints_beyond cand f th s :
  wf s -> Forall (beyond (min_step_amplitude s)) (peak_logic_prints cand f th s).
Proof.
  intros (_ & _ & _ & Hp & _). destruct cand as [c|]; [|by apply Forall_nil].
  cbn [peak_logic_prints]. unfold beyond.
  case_match eqn:Ht; [|by apply Forall_nil]. apply Z.eqb_eq in Ht.
  apply Forall_singleton.
  destruct (confirm_peak_cases c f th s)
    as [E|[(?&?&?&?&E)|[(?&?&?&?&E)|[(?&?&?&E)|(?&?&?&E)]]]]; auto.
  rewrite E in Ht. by apply pair_ok_open in Hp.
Qed.

Lemma process_sample_prints_beyond ax ay az s :
  wf s -> Forall (beyond (min_step_amplitude s)) (process_sample_prints ax ay az s).
Proof.
  intros Hwf. unfold process_sample_prints. cbn zeta.
  repeat case_match; try by apply Forall_nil.
  apply (peak_logic_prints_beyond _ _ _ (thresholded _ (conditioned _ s))).
  by apply thresholded_wf, conditioned_wf.
Qed.

(** The detector prints one line for each step it counts: along any
    stream, from any state, the number of ["STEP!"] lines is the growth of
    [step_count]. *)
Theorem steps_printed samples s :
  Z.of_nat (length (feed_prints samples s)) = step_count (feed samples s) - step_count s.
Proof. apply feed_prints_count. Qed.

(** On a well-formed detector every amplitude printed is beyond the
    floor: above [min_step_amplitude] or below its negative. *)
Theorem printed_beyond_floor samples s :
  wf s -> Forall (beyond (min_step_amplitude s)) (feed_prints samples s).
Proof.
  revert s. induction samples as [|[[ax ay] az] samples IH]; intros s Hwf;
    cbn [feed_prints]; [by apply Forall_nil|].
  apply Forall_app. split; [by apply process_sample_prints_beyond|].
  pose proof (process_sample_config ax ay az s) as (_ & _ & _ & HA).
  rewrite <- HA. by apply IH, wf_process_sample.
Qed.

End Console.
