(* ===== verification/Reset.v ===== *)
(** * Reset: the manual controls

    [reset] (lines 111-121 of [src/step_detector.py]), [reset_step_count]
    (123-124), [add_step] (126-127) and [get_step_count] (108-109).

    - [reset_eq], [reset_step_count_eq], [add_step_eq]: what each method
      returns and the state it leaves; none of them raises.
    - [reset_initial]: when [lp_filter_size] is 7, [reset] leaves the object
      the constructor makes, so a stream fed after [reset] counts what it
      counts on a fresh detector ([reset_reproduces]).
    - [reset] installs a low-pass buffer of capacity 7 whatever
      [lp_filter_size] is.  With [lp_filter_size > 7] the buffer can never
      reach the size line 53 waits for, and the detector counts nothing
      after a [reset] ([reset_dead]); a fresh detector of the same size
      does count ([fresh_counts]).
    - [bump k] adds [k] to [step_count].  Detection commutes with it
      ([feed_bump]): [add_step] and [reset_step_count] change the count and
      nothing that detection reads. *)

From Stdlib Require Import ZArith Lia Floats.
From stdpp Require Import base tactics list.
From S2P Require Import Prelude Numeric Deque StepDetector Branches Invariant Startup.

#[local] Open Scope Z_scope.

Section Reset.
Context {R : Type} `{Arith R} `{Sqrt R}.
Implicit Types (s : StepDetector R) (samples : list (R * R * R)).

(** The object lines 112-121 leave. *)
Definition after_reset s : StepDetector R :=
  {| norm_window_size := norm_window_size s;
     lp_filter_size := lp_filter_size s;
     threshold_window_size := threshold_window_size s;
     min_step_amplitude := min_step_amplitude s;
     norm_buffer := Deque [] (maxlen (norm_buffer s));
     lp_filter_buffer := Deque (replicate 7 (of_Z 0)) 7;
     threshold_buffer := Deque [] (maxlen (threshold_buffer s));
     last_filtered := of_Z 0;
     last_slope := 0;
     last_peak := 0;
     peak_pair := (0, 0);
     step_count := 0 |}.

(** [step_count += k]. *)
Definition bump (k : Z) s : StepDetector R := set_step_count (step_count s + k) s.

(** The low-pass buffer [reset] installs in a detector configured with a
    larger [lp_filter_size]: full at 7 items, short of the configured size. *)
Definition starved s : Prop :=
  maxlen (lp_filter_buffer s) = 7%nat
  /\ deque_ok (lp_filter_buffer s)
  /\ 7 < lp_filter_size s.

(** ** The methods *)

Lemma reset_eq s : reset s = (Ok tt, after_reset s).
Proof. reflexivity. Qed.

Lemma reset_step_count_eq s : reset_step_count s = (Ok tt, set_step_count 0 s).
Proof. reflexivity. Qed.

Lemma add_step_eq s : add_step s = (Ok tt, bump 1 s).
Proof. reflexivity. Qed.

Lemma get_step_count_eq s : get_step_count s = (Ok (step_count s), s).
Proof. reflexivity. Qed.

Lemma after_reset_wf s : wf s -> wf (after_reset s).
Proof.
  intros ((Hn & Hl & Ht & HN & HT & HL) & _).
  split; [unfold buffers_ok, deque_ok | unfold machine_ok, sign_ok, pair_ok];
    cbn; split_and!; auto; lia.
Qed.

Lemma bump_wf k s : 0 <= step_count s + k -> wf s -> wf (bump k s).
Proof. intros Hk (Hb & Hs & Hp & Hpp & Hn). by split; [|split_and!]. Qed.

Lemma set_step_count_wf s : wf s -> wf (set_step_count 0 s).
Proof. intros (Hb & Hs & Hp & Hpp & Hn). by split; [|split_and!]. Qed.

(** ** [reset] and the constructor *)

Lemma after_reset_initial s :
  buffers_ok s -> lp_filter_size s = 7 ->
  after_reset s
  = initial (norm_window_size s) 7 (threshold_window_size s) (min_step_amplitude s).
Proof.
  intros (_ & _ & _ & HN & HT & _) HL. unfold after_reset, initial.
  rewrite <- HN, <- HT, HL, !Nat2Z.id. done.
Qed.

(** On a detector whose [lp_filter_size] is 7, [reset] returns
    normally and leaves exactly the object the constructor makes from the
    same configuration. *)
Theorem reset_initial s :
  wf s -> lp_filter_size s = 7 ->
  reset s
  = (Ok tt, initial (norm_window_size s) 7 (threshold_window_size s)
                    (min_step_amplitude s)).
Proof. intros [Hb _] HL. by rewrite reset_eq, after_reset_initial. Qed.

(** C31: reset correctness: after any stream and a [reset], a detector
    built with [lp_filter_size] 7 counts on every stream what a fresh
    detector counts on it. *)
Theorem reset_reproduces N T (A : R) before samples :
  0 <= N -> 0 <= T ->
  feed samples (exec reset (feed before (initial N 7 T A)))
  = feed samples (initial N 7 T A).
Proof.
  intros HN HT. unfold exec. rewrite reset_eq. cbn [snd].
  destruct (feed_config before (initial N 7 T A)) as (EN & EL & ET & EA).
  rewrite after_reset_initial, EN, ET, EA; [done| |done].
  by apply wf_feed, initial_wf.
Qed.

(** ** [reset] with [lp_filter_size > 7] *)

Lemma after_reset_starved s : 7 < lp_filter_size s -> starved (after_reset s).
Proof. intros HL. unfold starved, deque_ok. cbn. split_and!; [done | lia | done]. Qed.

(** A starved detector returns at line 54, having only taken the sample
    into its two input buffers. *)
Lemma process_sample_starved ax ay az s :
  starved s ->
  process_sample ax ay az s = (Ok tt, conditioned (norm ax ay az) s)
  /\ starved (conditioned (norm ax ay az) s).
Proof.
  intros (Hm & Hok & HL). rewrite process_sample_eq. cbn zeta.
  pose proof (appendleft_ok (dc_blocked (norm ax ay az) s) _ Hok) as Hok'.
  pose proof (len_le_maxlen _ Hok') as Hlen.
  rewrite maxlen_appendleft, Hm in Hlen. split.
  - destruct (Z.ltb_spec (len (lp_filter_buffer (conditioned (norm ax ay az) s)))
                         (lp_filter_size s)) as [|Hge]; [done|].
    cbn in Hge. lia.
  - unfold starved. by rewrite <- Hm at 1.
Qed.

Lemma feed_starved samples s :
  starved s -> machine_fields (feed samples s) = machine_fields s.
Proof.
  revert s. induction samples as [|[[ax ay] az] xs IH]; intros s Hs; [done|].
  cbn [feed foldl]. destruct (process_sample_starved ax ay az s Hs) as [E Hs'].
  unfold exec. rewrite E. cbn [snd]. exact (IH _ Hs').
Qed.

(** C10: on a detector configured with [lp_filter_size > 7], no stream fed
    after a [reset] is ever counted: the buffer [reset] installs holds 7
    items at most, and line 53 waits for [lp_filter_size] of them. *)
Theorem reset_dead s samples :
  7 < lp_filter_size s ->
  machine_fields (feed samples (exec reset s)) = (0, (0, 0), 0).
Proof.
  intros HL. unfold exec. rewrite reset_eq. cbn [snd].
  by rewrite (feed_starved _ _ (after_reset_starved s HL)).
Qed.

(** ** Detection does not read the count *)

Lemma bump_bump j k s : bump j (bump k s) = bump (k + j) s.
Proof. unfold bump, set_step_count. cbn. f_equal. lia. Qed.

Lemma step_count_bump k s : step_count (bump k s) = step_count s + k.
Proof. reflexivity. Qed.

Lemma bump_0 s : bump 0 s = s.
Proof. destruct s. unfold bump, set_step_count. cbn. f_equal. lia. Qed.

Lemma set_step_count_bump c s : set_step_count c s = bump (c - step_count s) s.
Proof. unfold bump, set_step_count. f_equal. lia. Qed.

Lemma count_step_bump k s : count_step (bump k s) = bump k (count_step s).
Proof.
  destruct (count_step_cases s) as [[Hp ->]|[Hp ->]].
  - rewrite count_step_fire by done.
    unfold bump, set_step_count, set_peak_pair. cbn. f_equal. lia.
  - by rewrite count_step_idle.
Qed.

Lemma confirm_peak_bump c f th k s :
  confirm_peak c f th (bump k s) = bump k (confirm_peak c f th s).
Proof.
  unfold confirm_peak.
  change (last_peak (bump k s)) with (last_peak s).
  change (min_step_amplitude (bump k s)) with (min_step_amplitude s).
  repeat case_match; reflexivity.
Qed.

Lemma peak_logic_bump cand f th k s :
  peak_logic cand f th (bump k s) = bump k (peak_logic cand f th s).
Proof.
  destruct cand as [c|]; [|done]. cbn [peak_logic].
  by rewrite confirm_peak_bump, count_step_bump.
Qed.

Lemma detect_bump f k s :
  detect f (bump k s) = (fst (detect f s), bump k (snd (detect f s))).
Proof.
  rewrite !detect_eq. cbn zeta.
  change (threshold_buffer (thresholded f (bump k s)))
    with (threshold_buffer (thresholded f s)).
  change (buffers_filling (thresholded f (bump k s)))
    with (buffers_filling (thresholded f s)).
  change (thresholded f (bump k s)) with (bump k (thresholded f s)).
  destruct (truediv _ _); [|done]. cbn [fst snd].
  destruct (buffers_filling _); [done|]. by rewrite peak_logic_bump.
Qed.

(** [process_sample] returns the same and leaves the same state, [k]
    counts above, when it starts [k] counts above. *)
Lemma process_sample_bump ax ay az k s :
  process_sample ax ay az (bump k s)
  = (fst (process_sample ax ay az s), bump k (snd (process_sample ax ay az s))).
Proof.
  rewrite !process_sample_eq. cbn zeta.
  change (lp_filter_buffer (conditioned (norm ax ay az) (bump k s)))
    with (lp_filter_buffer (conditioned (norm ax ay az) s)).
  change (conditioned (norm ax ay az) (bump k s))
    with (bump k (conditioned (norm ax ay az) s)).
  destruct (_ <? _); [done|]. destruct (lp_filter _); [|done].
  apply detect_bump.
Qed.

Lemma bump_feed k samples s : feed samples (bump k s) = bump k (feed samples s).
Proof.
  revert s. induction samples as [|[[ax ay] az] xs IH]; intros s; [done|].
  cbn [feed foldl]. unfold exec. rewrite process_sample_bump. cbn [snd].
  apply IH.
Qed.

(** The manual controls do not interfere with detection: a stream fed
    to a detector whose count was changed by [k] leaves the state it would
    have left, with the count changed by [k]. *)
Theorem feed_bump k samples s : feed samples (bump k s) = bump k (feed samples s).
Proof. apply bump_feed. Qed.

(** [add_step] commutes with [process_sample]: a manual step may be
    added before or after a sample, with the same result and state. *)
Theorem add_step_commutes ax ay az s :
  exec add_step (exec (process_sample ax ay az) s)
  = exec (process_sample ax ay az) (exec add_step s)
  /\ eval (process_sample ax ay az) (exec add_step s)
     = eval (process_sample ax ay az) s.
Proof.
  unfold exec, eval. rewrite !add_step_eq. cbn [snd].
  by rewrite process_sample_bump.
Qed.

(** [reset_step_count] zeroes the count and nothing else: the steps a
    stream adds after it are the steps it would have added without it. *)
Theorem reset_step_count_feed samples s :
  step_count (exec reset_step_count s) = 0
  /\ step_count (feed samples (exec reset_step_count s))
     = step_count (feed samples s) - step_count s.
Proof.
  unfold exec. rewrite reset_step_count_eq. cbn [snd]. split; [done|].
  rewrite set_step_count_bump, bump_feed. cbn. lia.
Qed.

(** [add_step] returns no value and adds exactly one to the count,
    leaving every other attribute as it was; [get_step_count] returns the
    count and changes nothing. *)
Theorem add_step_spec s :
  add_step s = (Ok tt, set_step_count (step_count s + 1) s)
  /\ get_step_count (exec add_step s) = (Ok (step_count s + 1), exec add_step s).
Proof. done. Qed.

(** C30: the manual controls and [reset] preserve the invariant. *)
Theorem controls_wf s :
  wf s ->
  wf (exec reset s) /\ wf (exec reset_step_count s) /\ wf (exec add_step s).
Proof.
  intros Hwf. split_and!.
  - by apply after_reset_wf.
  - by apply set_step_count_wf.
  - apply bump_wf; [|done]. destruct Hwf as (_ & _ & _ & _ & Hn). lia.
Qed.

End Reset.

(** ** The theorems at concrete inputs (binary64)

    [triangle] is four periods of a triangle wave of period 12 on the z
    axis. *)

Definition triangle : list (float * float * float) :=
  map (fun z => (0, 0, z)%float)
      (concat (replicate 4 [0; 1; 2; 3; 4; 5; 6; 5; 4; 3; 2; 1]%float) ++ [0%float]).

(** With [lp_filter_size] 8 a fresh detector counts two steps on
    [triangle], and after [reset] the same detector counts none. *)
Example reset_starves :
  step_count (feed triangle (initial 12 8 4 0.25%float)) = 2
  /\ step_count (feed triangle (exec reset (initial 12 8 4 0.25%float))) = 0.
Proof. vm_compute. done. Qed.

(** With [lp_filter_size] 1 a fresh detector passes samples through
    unsmoothed and counts nothing on [triangle]; after [reset] it applies the
    seven-tap kernel and counts two steps. *)
Example reset_changes_short_filter :
  step_count (feed triangle (initial 12 1 4 0.25%float)) = 0
  /\ step_count (feed triangle (exec reset (initial 12 1 4 0.25%float))) = 2.
Proof. vm_compute. done. Qed.

Lemma reset_initial_witness :
  reset (feed triangle (initial 12 7 4 0.25%float))
  = (Ok tt, initial 12 7 4 0.25%float).
Proof.
  assert (wf (feed triangle (initial 12 7 4 0.25%float))) as Hwf
    by (apply (bool_decide_unpack _); vm_compute; exact I).
  assert (lp_filter_size (feed triangle (initial 12 7 4 0.25%float)) = 7) as HL
    by (vm_compute; reflexivity).
  pose proof (reset_initial _ Hwf HL) as W.
  vm_compute in W. vm_compute. exact W.
Defined.

Lemma reset_reproduces_witness :
  feed triangle (exec reset (feed triangle (initial 12 7 4 0.25%float)))
  = feed triangle (initial 12 7 4 0.25%float).
Proof. apply (reset_reproduces 12 4 0.25%float triangle triangle); lia. Defined.

Lemma reset_dead_witness :
  machine_fields
    (feed triangle (exec reset (feed triangle (initial 12 8 4 0.25%float))))
  = (0, (0, 0), 0).
Proof.
  apply (reset_dead (feed triangle (initial 12 8 4 0.25%float)) triangle).
  vm_compute. reflexivity.
Defined.

Lemma controls_wf_witness :
  wf (exec reset (initial 12 7 4 0.25%float))
  /\ wf (exec reset_step_count (initial 12 7 4 0.25%float))
  /\ wf (exec add_step (initial 12 7 4 0.25%float)).
Proof.
  apply (controls_wf (initial 12 7 4 0.25%float)).
  apply (bool_decide_unpack _). vm_compute. exact I.
Defined.
