(* ===== verification/Windows.v ===== *)
(** * Windows: the buffers are sliding windows over the stream

    The detector keeps its history in three deques that it updates in
    place.  This file states what they hold in terms of the stream fed so
    far, which is the reference the imperative updates are equivalent to:

    - the norm window holds the last [maxlen] norms of the samples;
    - the threshold window holds the last [maxlen] filtered samples;
    - the low-pass buffer holds the DC-blocked samples, newest first, down
      to its capacity.

    [norms], [filtered_trace] and [dc_trace] are those streams.  The last
    part is the filter of a detector built with [lp_filter_size] below
    seven: its buffer is always full and line 36 returns the DC-blocked
    sample of [lp_filter_size - 1] calls earlier. *)

From Stdlib Require Import ZArith Lia Floats.
From stdpp Require Import base tactics list.
From S2P Require Import Prelude Numeric Deque StepDetector Branches Invariant Startup.

#[local] Open Scope Z_scope.

Section Windows.
Context {R : Type} `{Arith R} `{Sqrt R}.
Implicit Types (s : StepDetector R) (samples : list (R * R * R)).

(** The norms of the samples of a stream. *)
Definition norms samples : list R := map (fun '(ax, ay, az) => norm ax ay az) samples.

(** The DC-blocked samples of a stream, in the order of arrival. *)
Fixpoint dc_trace samples s : list R :=
  match samples with
  | [] => []
  | (ax, ay, az) :: samples =>
      dc_blocked (norm ax ay az) s
      :: dc_trace samples (exec (process_sample ax ay az) s)
  end.

(** ** One call *)

Lemma process_sample_buffers ax ay az s :
  let s' := exec (process_sample ax ay az) s in
  norm_buffer s' = append (norm ax ay az) (norm_buffer s)
  /\ lp_filter_buffer s'
     = appendleft (dc_blocked (norm ax ay az) s) (lp_filter_buffer s)
  /\ threshold_buffer s'
     = match filtered_of ax ay az s with
       | Some f => append f (threshold_buffer s)
       | None => threshold_buffer s
       end.
Proof.
  cbn zeta. unfold exec, filtered_of. rewrite process_sample_eq. cbn zeta.
  destruct (_ <? _); [done|]. destruct (lp_filter _) as [f|]; [|done].
  rewrite detect_eq. cbn zeta. destruct (truediv _ _) as [th|]; [|done].
  cbn [snd]. destruct (buffers_filling _); [done|].
  pose proof (peak_logic_frame
                (peak_candidate_of
                   (sign_of_slope (last_filtered (conditioned (norm ax ay az) s)) f)
                   (last_slope (conditioned (norm ax ay az) s)))
                f th (thresholded f (conditioned (norm ax ay az) s))) as Hf.
  cbn zeta in Hf. destruct Hf as (Hnb & Hlb & Htb & _).
  change (norm_buffer (settle ?f ?sl ?x)) with (norm_buffer x).
  change (lp_filter_buffer (settle ?f ?sl ?x)) with (lp_filter_buffer x).
  change (threshold_buffer (settle ?f ?sl ?x)) with (threshold_buffer x).
  by rewrite Hnb, Hlb, Htb.
Qed.

(** ** A stream *)

Lemma norm_window samples s :
  deque_ok (norm_buffer s) ->
  deque_ok (norm_buffer (feed samples s))
  /\ maxlen (norm_buffer (feed samples s)) = maxlen (norm_buffer s)
  /\ items (norm_buffer (feed samples s))
     = lastn (maxlen (norm_buffer s)) (items (norm_buffer s) ++ norms samples).
Proof.
  revert s. induction samples as [|[[ax ay] az] xs IH]; intros s Hok.
  - cbn. by rewrite app_nil_r, lastn_all.
  - cbn [feed foldl norms map].
    destruct (process_sample_buffers ax ay az s) as (En & _ & _).
    destruct (IH (exec (process_sample ax ay az) s)) as (Hok' & Hm & Hi);
      [rewrite En; by apply append_ok|].
    unfold feed in *. rewrite Hm, Hi, En, maxlen_append, items_append by done.
    split_and!; [done..|]. by rewrite lastn_app_lastn, <- app_assoc.
Qed.

Lemma threshold_window samples s :
  deque_ok (threshold_buffer s) ->
  deque_ok (threshold_buffer (feed samples s))
  /\ maxlen (threshold_buffer (feed samples s)) = maxlen (threshold_buffer s)
  /\ items (threshold_buffer (feed samples s))
     = lastn (maxlen (threshold_buffer s))
             (items (threshold_buffer s) ++ filtered_trace samples s).
Proof.
  revert s. induction samples as [|[[ax ay] az] xs IH]; intros s Hok.
  - cbn. by rewrite app_nil_r, lastn_all.
  - cbn [feed foldl filtered_trace].
    destruct (process_sample_buffers ax ay az s) as (_ & _ & Et).
    destruct (IH (exec (process_sample ax ay az) s)) as (Hok' & Hm & Hi).
    { rewrite Et. destruct (filtered_of ax ay az s); [by apply append_ok | done]. }
    unfold feed in *. rewrite Hm, Hi, Et.
    destruct (filtered_of ax ay az s) as [f|]; [|done].
    rewrite maxlen_append, items_append by done.
    split_and!; [done..|]. by rewrite lastn_app_lastn, <- app_assoc.
Qed.

Lemma lp_window samples s :
  deque_ok (lp_filter_buffer s) ->
  deque_ok (lp_filter_buffer (feed samples s))
  /\ maxlen (lp_filter_buffer (feed samples s)) = maxlen (lp_filter_buffer s)
  /\ items (lp_filter_buffer (feed samples s))
     = take (maxlen (lp_filter_buffer s))
            (rev (dc_trace samples s) ++ items (lp_filter_buffer s)).
Proof.
  revert s. induction samples as [|[[ax ay] az] xs IH]; intros s Hok.
  - cbn. by rewrite take_ge.
  - cbn [feed foldl dc_trace rev].
    destruct (process_sample_buffers ax ay az s) as (_ & El & _).
    destruct (IH (exec (process_sample ax ay az) s)) as (Hok' & Hm & Hi);
      [rewrite El; by apply appendleft_ok|].
    unfold feed in *. rewrite Hm, Hi, El, maxlen_appendleft, items_appendleft by done.
    split_and!; [done..|]. rewrite <- app_assoc. cbn [app]. apply take_app_take.
Qed.

(** After any stream, the norm window of a well-formed detector holds
    the last [norm_window_size] norms it has seen, the threshold window the
    last [threshold_window_size] filtered samples, and the low-pass buffer
    the DC-blocked samples, newest first, down to its capacity: the deques
    updated in place are the sliding windows over the stream. *)
Theorem feed_windows samples s :
  wf s ->
  items (norm_buffer (feed samples s))
  = lastn (Z.to_nat (norm_window_size s)) (items (norm_buffer s) ++ norms samples)
  /\ items (threshold_buffer (feed samples s))
     = lastn (Z.to_nat (threshold_window_size s))
             (items (threshold_buffer s) ++ filtered_trace samples s)
  /\ items (lp_filter_buffer (feed samples s))
     = take (maxlen (lp_filter_buffer s))
            (rev (dc_trace samples s) ++ items (lp_filter_buffer s)).
Proof.
  intros ((Hn & Hl & Ht & HN & HT & _) & _).
  rewrite <- HN, <- HT, !Nat2Z.id. split_and!.
  - by apply norm_window.
  - by apply threshold_window.
  - by apply lp_window.
Qed.

(** ** The short filter

    With [lp_filter_size] between 1 and 6 the constructor leaves a full
    buffer of that many zeros, the buffer stays full, and every call
    takes line 36: [buf[-1]] is then the item at index
    [lp_filter_size - 1] of a window filled from the left, the DC-blocked
    sample of [lp_filter_size - 1] calls earlier. *)

Lemma length_dc_trace samples s : length (dc_trace samples s) = length samples.
Proof.
  revert s. induction samples as [|[[ax ay] az] xs IH]; intros s; [done|].
  cbn [dc_trace length]. by rewrite IH.
Qed.

Lemma runnable_feed samples s : runnable s -> runnable (feed samples s).
Proof.
  revert s. induction samples as [|[[ax ay] az] xs IH]; intros s Hr; [done|].
  cbn. apply IH. by apply process_sample_runnable.
Qed.

Lemma lookup_cons_take (x : R) l n :
  (1 <= n)%nat -> (x :: take n l) !! (n - 1)%nat = (x :: l) !! (n - 1)%nat.
Proof.
  intros Hn. destruct n as [|[|n]]; [lia | done |].
  replace (S (S n) - 1)%nat with (S n) by lia. cbn [lookup list_lookup].
  apply lookup_take_lt. lia.
Qed.

(** Line 56 on a full buffer of capacity below seven that has just taken
    [x] at line 50. *)
Lemma lp_filter_appendleft_full x (d : deque R) :
  (0 < maxlen d < 7)%nat -> length (items d) = maxlen d ->
  exists y, (x :: items d) !! (maxlen d - 1)%nat = Some y
            /\ lp_filter (appendleft x d) = Ok y.
Proof.
  intros Hm Hfull.
  assert (items (appendleft x d) = take (maxlen d) (x :: items d)) as Ei
    by (apply items_appendleft; unfold deque_ok; lia).
  destruct (lookup_lt_is_Some_2 (x :: items d) (maxlen d - 1)) as [y Hy];
    [cbn [length]; lia|].
  exists y. split; [done|].
  rewrite lp_filter_short by (unfold len; rewrite Ei, length_take; cbn [length]; lia).
  unfold index_last. rewrite Ei, last_lookup, length_take, lookup_take_lt by (cbn [length]; lia).
  cbn [length]. replace (Init.Nat.pred _) with (maxlen d - 1)%nat by lia.
  by rewrite Hy.
Qed.

(** What line 56 computes is what lines 74 and 105 store. *)
Lemma process_sample_last_filtered ax ay az s f :
  eval (process_sample ax ay az) s = Ok tt ->
  filtered_of ax ay az s = Some f ->
  last_filtered (exec (process_sample ax ay az) s) = f.
Proof.
  unfold eval, exec, filtered_of. rewrite process_sample_eq. cbn zeta.
  destruct (_ <? _); [done|]. destruct (lp_filter _) as [f'|]; [|done].
  rewrite detect_eq. cbn zeta. destruct (truediv _ _) as [th|]; [|done].
  intros _ [= ->]. by destruct (buffers_filling _).
Qed.

(** The low-pass buffer of a detector built with [lp_filter_size] below
    seven is full after any stream. *)
Lemma lp_buffer_full N L T (A : R) samples :
  0 <= L < 7 ->
  let b := lp_filter_buffer (feed samples (initial N L T A)) in
  maxlen b = Z.to_nat L /\ deque_ok b
  /\ items b = take (Z.to_nat L)
                    (rev (dc_trace samples (initial N L T A))
                     ++ replicate (Z.to_nat L) (of_Z 0)).
Proof.
  intros HL. cbn zeta.
  destruct (lp_window samples (initial N L T A)) as (Hok & Hm & Hi).
  { unfold deque_ok. cbn. rewrite length_replicate. lia. }
  rewrite Hm, Hi. cbn [initial lp_filter_buffer maxlen items].
  by replace (Z.to_nat L `min` 7)%nat with (Z.to_nat L) by lia.
Qed.

(** C29: a detector built with [lp_filter_size] from 1 to 6 never applies
    the kernel of line 37.  After any stream its low-pass buffer is full,
    so that the next call passes the guard of line 53 and [lp_filter]
    returns [buf[-1]]: the filtered sample, which the call leaves in
    [last_filtered], is the DC-blocked sample of [lp_filter_size - 1] calls
    earlier (a zero of the constructor during the first
    [lp_filter_size - 1] calls), and the sample just taken only when
    [lp_filter_size] is 1. *)
Theorem lp_filter_short_delay N L T (A : R) samples ax ay az :
  0 <= N -> 1 <= L < 7 -> 1 <= T ->
  let s0 := initial N L T A in
  let s := feed samples s0 in
  let newest_first :=
    dc_blocked (norm ax ay az) s
    :: rev (dc_trace samples s0) ++ replicate (Z.to_nat L) (of_Z 0) in
  len (lp_filter_buffer s) = L
  /\ exists f, newest_first !! (Z.to_nat L - 1)%nat = Some f
       /\ filtered_of ax ay az s = Some f
       /\ last_filtered (exec (process_sample ax ay az) s) = f.
Proof.
  intros HN HL HT. cbn zeta.
  set (s0 := initial N L T A). set (s := feed samples s0).
  destruct (lp_buffer_full N L T A samples) as (Hm & Hok & Hi); [lia|].
  fold s0 s in Hm, Hok, Hi.
  assert (length (items (lp_filter_buffer s)) = Z.to_nat L) as Hlen.
  { rewrite Hi, length_take, length_app, length_replicate. lia. }
  assert (wf s) as Hwf by (apply wf_feed, initial_wf; lia).
  assert (runnable s) as Hr.
  { apply runnable_feed. split; cbn; lia. }
  assert (lp_filter_size s = L) as HLs.
  { by destruct (feed_config samples s0) as (_ & E & _). }
  split; [unfold len; lia|].
  destruct (lp_filter_appendleft_full (dc_blocked (norm ax ay az) s) (lp_filter_buffer s))
    as (f & Hf & Ef); [lia..|].
  assert (filtered_of ax ay az s = Some f) as Hfo.
  { unfold filtered_of. cbn zeta. cbn [conditioned lp_filter_buffer set_lp_filter_buffer].
    rewrite Ef, HLs, len_appendleft by done. unfold len.
    destruct (Z.ltb_spec (Z.of_nat (maxlen (lp_filter_buffer s))
                          `min` (Z.of_nat (length (items (lp_filter_buffer s))) + 1)) L);
      [lia | done]. }
  exists f. split_and!; [|done|by apply process_sample_last_filtered; [apply ok_process_sample|]].
  rewrite <- Hf, Hm, Hi. symmetry. apply lookup_cons_take. lia.
Qed.

End Windows.

Lemma feed_windows_witness :
  items (norm_buffer (feed [(0, 0, 1); (0, 3, 4); (0, 0, 2)]%float
                           (initial 2 7 10 1%float)))
  = [5; 2]%float.
Proof.
  pose proof (feed_windows [(0, 0, 1); (0, 3, 4); (0, 0, 2)]%float
                (initial 2 7 10 1%float)) as W.
  destruct W as [W _]; [apply (bool_decide_unpack _); vm_compute; exact I|].
  vm_compute in W. vm_compute. exact W.
Defined.

Lemma lp_filter_short_delay_witness :
  last_filtered (exec (process_sample 0%float 0%float 1%float)
                   (feed [(0, 0, 1); (0, 3, 4); (0, 0, 2)]%float
                         (initial 2 3 2 1%float)))
  = 2%float.
Proof.
  destruct (lp_filter_short_delay 2 3 2 1%float
              [(0, 0, 1); (0, 3, 4); (0, 0, 2)]%float 0%float 0%float 1%float)
    as (_ & f & Hf & _ & ->); [lia..|].
  vm_compute in Hf. by injection Hf.
Defined.
