(* ===== verification/Periodic.v ===== *)
(** * Periodic: a detector in a steady state counts for ever

    Detection does not read [step_count] ([bump_feed]).  So when a stream
    [cycle] takes a state [s] back to itself but for [k] steps counted, it
    does so again on the state it leaves, and [n] repetitions of the stream
    count [n * k] steps: the behaviour of the detector on a periodic input
    follows from its behaviour on one period.  With [k] positive the count
    passes every bound, which is the liveness of detection on that input.

    FloatRun shows the hypothesis for the default detector on a sampled
    sine, by evaluation of one period. *)

From Stdlib Require Import ZArith Lia.
From stdpp Require Import base tactics list.
From S2P Require Import Prelude Numeric Deque StepDetector Branches Invariant Startup Reset.

#[local] Open Scope Z_scope.

Section Periodic.
Context {R : Type} `{Arith R} `{Sqrt R}.

(** [n] repetitions of a stream. *)
Definition cycles (n : nat) (cycle : list (R * R * R)) : list (R * R * R) :=
  concat (replicate n cycle).

Lemma cycles_S n cycle : cycles (S n) cycle = cycle ++ cycles n cycle.
Proof. reflexivity. Qed.

Lemma cycles_add m n cycle : cycles (m + n) cycle = cycles m cycle ++ cycles n cycle.
Proof. unfold cycles. by rewrite replicate_add, concat_app. Qed.

Lemma length_cycles n cycle : length (cycles n cycle) = (n * length cycle)%nat.
Proof. induction n as [|n IH]; [done|]. rewrite cycles_S, length_app, IH. lia. Qed.

Section Steady.
Variables (cycle : list (R * R * R)) (s : StepDetector R) (k : Z).
Hypothesis Hsteady : feed cycle s = bump k s.

(** The steady state is steady whatever the count. *)
Lemma steady_bump j : feed cycle (bump j s) = bump k (bump j s).
Proof using Hsteady. by rewrite bump_feed, Hsteady, !bump_bump, Z.add_comm. Qed.

Lemma feed_cycles n : feed (cycles n cycle) s = bump (Z.of_nat n * k) s.
Proof using Hsteady.
  induction n as [|n IH]; [by rewrite bump_0|].
  rewrite cycles_S, feed_app, Hsteady, bump_feed, IH, bump_bump. f_equal. lia.
Qed.

Lemma step_count_cycles n :
  step_count (feed (cycles n cycle) s) = step_count s + Z.of_nat n * k.
Proof using Hsteady. by rewrite feed_cycles. Qed.

(** With a positive [k] every count is reached. *)
Lemma cycles_unbounded c :
  0 < k -> exists n, c <= step_count (feed (cycles n cycle) s).
Proof using Hsteady.
  intros Hk. exists (Z.to_nat (c - step_count s)). rewrite step_count_cycles. nia.
Qed.

End Steady.

(** C20: a periodic input keeps counting: if one period takes a state back
    to itself with [k] more steps, then [n] periods count [n * k] steps
    and leave that state again, and with [k > 0] every count is
    eventually reached. *)
Theorem steady_counts cycle (s : StepDetector R) k n :
  feed cycle s = bump k s ->
  feed (cycles n cycle) s = bump (Z.of_nat n * k) s
  /\ step_count (feed (cycles n cycle) s) = step_count s + Z.of_nat n * k
  /\ (0 < k -> forall c, exists m, c <= step_count (feed (cycles m cycle) s)).
Proof.
  intros Hs. split_and!.
  - apply (feed_cycles _ _ _ Hs).
  - apply (step_count_cycles _ _ _ Hs).
  - intros Hk c. apply (cycles_unbounded _ _ _ Hs c Hk).
Qed.

End Periodic.
