(* ===== verification/Text.v ===== *)
(** * Text: the string operations of the server

    [src/main.py] builds its replies from Python strings: [str(n)],
    [s.startswith(p)], [s.split(sep)[0]], [len(s)], concatenation, and
    [json.dumps] of a one-key dictionary.  This file models them on
    [string], from their documented behaviour, with the lemmas the server's
    theorems use: the decimal printer is injective and is read back by
    [int_of_str]; [before] and [after] cut a text at the first occurrence of
    a separator; [dumps_steps] is read back by [loads_steps]. *)

From Stdlib Require Import ZArith String Ascii DecimalString DecimalZ Lia.
From stdpp Require Import base tactics list strings.
From S2P Require Import Prelude.

#[local] Open Scope Z_scope.

(** ** Characters and constants *)

Definition CR : ascii := "013"%char.
Definition LF : ascii := "010"%char.
Definition crlf : string := String CR (String LF EmptyString).
Definition quote : string := String "034"%char EmptyString.

(** ** [str], [int], [startswith], [split] *)

(** [str(n)] for an [int]. *)
Definition str_int (n : Z) : string := NilEmpty.string_of_int (Z.to_int n).

(** [int(s)], [None] where Python raises [ValueError] (signs other than a
    leading minus, spaces and underscores are not accepted here). *)
Definition int_of_str (s : string) : option Z :=
  Z.of_int <$> NilEmpty.int_of_string s.

(** [s.startswith(p)]. *)
Definition startswith (s p : string) : bool := String.prefix p s.

(** [s.split(sep)[0]] for a non-empty [sep]: the text before the first
    occurrence of [sep], all of [s] when there is none. *)
Fixpoint before (sep s : string) : string :=
  match s with
  | EmptyString => EmptyString
  | String c s' => if String.prefix sep s then EmptyString else String c (before sep s')
  end.

(** The text after the first occurrence of [sep], [None] when there is
    none: what a reader of the reply takes as its body. *)
Fixpoint after (sep s : string) : option string :=
  if String.prefix sep s then Some (substring (String.length sep) (String.length s) s)
  else match s with
       | EmptyString => None
       | String _ s' => after sep s'
       end.

(** Whether a character occurs in a text. *)
Fixpoint occurs (c : ascii) (s : string) : bool :=
  match s with
  | EmptyString => false
  | String d s' => Ascii.eqb c d || occurs c s'
  end.

(** Whether a text is ASCII: every character is below 128, so that
    [encode()] yields one byte a character and [len] counts bytes. *)
Definition seven_bit (c : ascii) : bool :=
  let 'Ascii _ _ _ _ _ _ _ b7 := c in negb b7.

Fixpoint plain (s : string) : bool :=
  match s with
  | EmptyString => true
  | String c s' => seven_bit c && plain s'
  end.

(** ** [json.dumps({"steps": v})] *)

(** The value of the key: an [int], or [None] printed as [null]. *)
Definition dumps_value (v : option Z) : string :=
  match v with
  | Some n => str_int n
  | None => "null"
  end.

Definition steps_key : string := "{" +:+ quote +:+ "steps" +:+ quote +:+ ": ".

Definition dumps_steps (v : option Z) : string :=
  steps_key +:+ dumps_value v +:+ "}".

(** Removes a final ["}"]. *)
Fixpoint strip_brace (s : string) : option string :=
  match s with
  | EmptyString => None
  | String c EmptyString => if Ascii.eqb c "}" then Some EmptyString else None
  | String c s' => String c <$> strip_brace s'
  end.

(** Reads back what [dumps_steps] writes. *)
Definition loads_steps (s : string) : option (option Z) :=
  if startswith s steps_key then
    v ← strip_brace (substring (String.length steps_key) (String.length s) s);
    if String.eqb v "null" then Some None else Some <$> int_of_str v
  else None.

(** ** Lemmas *)

Lemma append_cons c (s t : string) : String c s +:+ t = String c (s +:+ t).
Proof. reflexivity. Qed.

Lemma append_nil (t : string) : EmptyString +:+ t = t.
Proof. reflexivity. Qed.

Lemma substring_all s : substring 0 (String.length s) s = s.
Proof. induction s as [|c s IH]; [done|]. cbn. by rewrite IH. Qed.

Lemma substring_skip p s n : substring (String.length p) n (p +:+ s) = substring 0 n s.
Proof. induction p as [|c p IH]; [done|]. rewrite append_cons. cbn. apply IH. Qed.

Lemma substring_ge s n : (String.length s <= n)%nat -> substring 0 n s = s.
Proof.
  revert n. induction s as [|c s IH]; intros [|n] Hn; cbn in *; try done; try lia.
  rewrite IH; [done | lia].
Qed.

Lemma length_string_append (s t : string) :
  String.length (s +:+ t) = (String.length s + String.length t)%nat.
Proof. induction s as [|c s IH]; [done|]. rewrite append_cons. cbn. by rewrite IH. Qed.

Lemma append_assoc (s t u : string) : (s +:+ t) +:+ u = s +:+ (t +:+ u).
Proof. induction s as [|c s IH]; [done|]. rewrite !append_cons. by rewrite IH. Qed.

Lemma prefix_append (p s : string) : String.prefix p (p +:+ s) = true.
Proof.
  induction p as [|c p IH]; [by destruct s|]. rewrite append_cons. cbn.
  destruct (ascii_dec c c); [done | congruence].
Qed.

Lemma startswith_append p s : startswith (p +:+ s) p = true.
Proof. apply prefix_append. Qed.

(** A text that starts with its separator's first character elsewhere
    cannot start with the separator. *)
Lemma prefix_head c sep d s :
  c <> d -> String.prefix (String c sep) (String d s) = false.
Proof. intros Hne. cbn. by destruct (ascii_dec c d). Qed.

Lemma prefix_cons c p s : String.prefix (String c p) (String c s) = String.prefix p s.
Proof. cbn. by destruct (ascii_dec c c). Qed.

Lemma occurs_append c (s t : string) : occurs c (s +:+ t) = occurs c s || occurs c t.
Proof.
  induction s as [|d s IH]; [done|]. rewrite append_cons. cbn.
  by rewrite IH, orb_assoc.
Qed.

(** ** Cutting at a separator *)

Lemma before_absent c sep s :
  occurs c s = false -> before (String c sep) s = s.
Proof.
  induction s as [|d s IH]; [done|]. cbn [occurs before].
  intros [Hd Hs]%orb_false_elim. rewrite prefix_head, IH; [done..|].
  intros ->. by rewrite Ascii.eqb_refl in Hd.
Qed.

Lemma before_append c sep l r :
  occurs c l = false ->
  before (String c sep) (l +:+ String c sep +:+ r) = l.
Proof.
  induction l as [|d l IH]; [rewrite append_nil | rewrite (append_cons d l)].
  - intros _. rewrite append_cons. cbn [before].
    by rewrite <- append_cons, prefix_append.
  - cbn [occurs before]. intros [Hd Hs]%orb_false_elim.
    rewrite prefix_head, IH; [done..|].
    intros ->. by rewrite Ascii.eqb_refl in Hd.
Qed.

Lemma after_here sep r : after sep (sep +:+ r) = Some r.
Proof.
  destruct (sep +:+ r) eqn:E; cbn [after]; rewrite <- E, prefix_append,
    substring_skip, substring_ge; try done; rewrite length_string_append; lia.
Qed.

Lemma after_append c sep l r :
  occurs c l = false ->
  after (String c sep) (l +:+ String c sep +:+ r) = Some r.
Proof.
  induction l as [|d l IH]; [rewrite append_nil | rewrite (append_cons d l)].
  - intros _. apply after_here.
  - cbn [occurs]. intros [Hd Hs]%orb_false_elim.
    cbn [after]. rewrite prefix_head, IH; [done..|].
    intros ->. by rewrite Ascii.eqb_refl in Hd.
Qed.

(** ** The decimal printer *)

Lemma occurs_uint c u :
  occurs c "0123456789" = false -> occurs c (NilEmpty.string_of_uint u) = false.
Proof.
  cbn [occurs]. intros Hc. repeat apply orb_false_elim in Hc as [? Hc].
  induction u; cbn [NilEmpty.string_of_uint occurs]; rewrite ?IHu; try done;
    by rewrite orb_false_r.
Qed.

(** [str(n)] is made of digits and a minus sign. *)
Lemma occurs_str_int c n :
  occurs c "-0123456789" = false -> occurs c (str_int n) = false.
Proof.
  cbn [occurs]. intros [Hm Hc]%orb_false_elim. unfold str_int.
  destruct (Z.to_int n); cbn [NilEmpty.string_of_int occurs];
    rewrite ?Hm, occurs_uint; done.
Qed.

Lemma plain_append (s t : string) : plain (s +:+ t) = plain s && plain t.
Proof.
  induction s as [|c s IH]; [done|]. rewrite append_cons. cbn [plain].
  by rewrite IH, andb_assoc.
Qed.

Lemma plain_uint u : plain (NilEmpty.string_of_uint u) = true.
Proof. induction u; cbn [NilEmpty.string_of_uint plain]; by rewrite ?IHu. Qed.

(** [str(n)] and the JSON object are ASCII. *)
Lemma plain_str_int n : plain (str_int n) = true.
Proof.
  unfold str_int. destruct (Z.to_int n); cbn [NilEmpty.string_of_int plain];
    by rewrite plain_uint.
Qed.

Lemma plain_dumps_steps v : plain (dumps_steps v) = true.
Proof.
  unfold dumps_steps. rewrite !plain_append. destruct v as [n|]; [|done].
  cbn [dumps_value]. by rewrite plain_str_int.
Qed.

(** The decimal text of an integer stays on its line. *)
Lemma str_int_line n : occurs CR (str_int n) = false.
Proof. by apply occurs_str_int. Qed.

Lemma int_of_str_int n : int_of_str (str_int n) = Some n.
Proof. unfold int_of_str, str_int. rewrite NilEmpty.isi. cbn. by rewrite of_to. Qed.

Lemma str_int_inj n m : str_int n = str_int m -> n = m.
Proof.
  intros E. apply (f_equal int_of_str) in E. rewrite !int_of_str_int in E.
  by injection E.
Qed.

Lemma str_int_not_null n : String.eqb (str_int n) "null" = false.
Proof.
  apply String.eqb_neq. intros E.
  pose proof (occurs_str_int "n" n eq_refl) as Ho. by rewrite E in Ho.
Qed.

(** ** The JSON body *)

Lemma strip_brace_append s : strip_brace (s +:+ "}") = Some s.
Proof.
  induction s as [|c s IH]; [done|]. rewrite append_cons.
  cbn [strip_brace]. rewrite IH. by destruct s.
Qed.

Lemma loads_dumps_steps v : loads_steps (dumps_steps v) = Some v.
Proof.
  unfold loads_steps, dumps_steps. rewrite startswith_append, substring_skip.
  rewrite substring_ge by (rewrite !length_string_append; lia).
  rewrite strip_brace_append. cbn [mbind option_bind].
  destruct v as [n|]; cbn [dumps_value]; [|done].
  by rewrite str_int_not_null, int_of_str_int.
Qed.

Lemma dumps_steps_inj v w : dumps_steps v = dumps_steps w -> v = w.
Proof.
  intros E. apply (f_equal loads_steps) in E. rewrite !loads_dumps_steps in E.
  by injection E.
Qed.

(** ** Header lines *)

(** Whether a text can follow a line break without making an empty line. *)
Definition starts_line (s : string) : bool :=
  match s with
  | EmptyString => true
  | String d _ => negb (Ascii.eqb d CR)
  end.

(** The search for the empty line passes over a header line. *)
Lemma after_skip_line h rest :
  occurs CR h = false -> starts_line rest = true ->
  after (crlf +:+ crlf) (h +:+ crlf +:+ rest) = after (crlf +:+ crlf) rest.
Proof.
  intros Hh Hr. induction h as [|c h IH].
  - rewrite append_nil. destruct rest as [|d rest]; [done|].
    cbn in Hr. apply negb_true_iff, Ascii.eqb_neq in Hr.
    change (crlf +:+ String d rest) with (String CR (String LF (String d rest))).
    change (crlf +:+ crlf)
      with (String CR (String LF (String CR (String LF EmptyString)))).
    cbn [after]. rewrite !prefix_cons, prefix_head by done.
    cbn [after]. by rewrite prefix_head.
  - cbn [occurs] in Hh. apply orb_false_elim in Hh as [Hc Hh].
    rewrite (append_cons c h).
    change (crlf +:+ crlf) with (String CR (String LF crlf)) in *.
    cbn [after]. rewrite prefix_head; [exact (IH Hh)|].
    intros <-. by rewrite Ascii.eqb_refl in Hc.
Qed.

(** The text after the empty line that ends the last header line. *)
Lemma after_last_line h body :
  occurs CR h = false ->
  after (crlf +:+ crlf) (h +:+ crlf +:+ crlf +:+ body) = Some body.
Proof.
  intros Hh. rewrite <- (append_assoc crlf crlf body).
  change (crlf +:+ crlf) with (String CR (String LF crlf)).
  by apply after_append.
Qed.

(** Two different texts of one length are not prefixes of one text. *)
Lemma prefix_exclusive p q s :
  String.length p = String.length q -> p <> q ->
  String.prefix p s = true -> String.prefix q s = false.
Proof.
  intros Hl Hne Hp%prefix_correct. apply not_true_is_false.
  intros Hq%prefix_correct. congruence.
Qed.

(** Texts that differ in their first character are not prefixes of one
    text. *)
Lemma prefix_first c p d q s :
  c <> d -> String.prefix (String c p) s = true -> String.prefix (String d q) s = false.
Proof.
  intros Hne. destruct s as [|e s]; [done|]. cbn.
  destruct (ascii_dec c e) as [->|]; [|done]. intros _.
  by destruct (ascii_dec d e) as [->|].
Qed.

(** ** Searching past a known text *)

(** [sep] differs from [s] at a position both have. *)
Fixpoint mismatch (sep s : string) : bool :=
  match sep, s with
  | String a sep', String b s' => if Ascii.eqb a b then mismatch sep' s' else true
  | _, _ => false
  end.

(** [sep] starts nowhere in [p], whatever text follows [p]. *)
Fixpoint nowhere (sep p : string) : bool :=
  match p with
  | EmptyString => true
  | String _ p' => mismatch sep p && nowhere sep p'
  end.

Lemma mismatch_prefix sep s t :
  mismatch sep s = true -> String.prefix sep (s +:+ t) = false.
Proof.
  revert s. induction sep as [|a sep IH]; intros [|b s]; try done.
  rewrite append_cons. cbn [mismatch String.prefix].
  destruct (Ascii.eqb_spec a b) as [->|Hne].
  - intros Hm. destruct (ascii_dec b b); [by apply IH | done].
  - intros _. by destruct (ascii_dec a b).
Qed.

Lemma after_nowhere sep p t :
  nowhere sep p = true -> after sep (p +:+ t) = after sep t.
Proof.
  induction p as [|c p IH]; [done|]. cbn [nowhere].
  intros [Hm Hn]%andb_prop. rewrite (append_cons c p). cbn [after].
  rewrite <- (append_cons c p), (mismatch_prefix _ _ _ Hm). by apply IH.
Qed.

(** The value of the [Content-Length] header of a reply. *)
Definition content_length (response : string) : option Z :=
  rest ← after "Content-Length: " response;
  int_of_str (before crlf rest).

(** The body of a reply: what follows the first empty line. *)
Definition body_of (response : string) : option string :=
  after (crlf +:+ crlf) response.

(** The value of the [Content-Type] header of a reply. *)
Definition content_type (response : string) : option string :=
  before crlf <$> after "Content-Type: " response.
