(* ===== verification/Interface.v ===== *)
(** * Interface: what the control loop asks of the detector

    [src/main.py] holds one detector object, [krokomierz], and calls four
    of its methods: [process_sample] on each sensor reading,
    [get_step_count] after it, [reset_step_count] on the route [/zeruj] and
    [add_step] on the route [/dodaj].  [Detector] is that interface, with
    [d_new] for the constructor call [StepDetector()].

    [DetectorLaws] is what the loop relies on: a validity predicate that
    the constructor establishes and every method preserves, a count that
    [get_step_count] returns without changing the object, that
    [reset_step_count] zeroes, that [add_step] increments, and that
    [process_sample] never decreases and raises by at most one.  Methods
    are computations in the monad [py]; none of them raises on a valid
    object.

    The theorems of the file Server are proved for every lawful detector;
    the file Board shows that [StepDetector] with its default arguments is
    one. *)

From Stdlib Require Import ZArith.
From stdpp Require Import base tactics.
From S2P Require Import Prelude.

#[local] Open Scope Z_scope.

Class Detector (R D : Type) : Type := {
  d_new : D;
  d_process_sample : R -> R -> R -> py D unit;
  d_get_step_count : py D Z;
  d_reset_step_count : py D unit;
  d_add_step : py D unit
}.

Class DetectorLaws (R D : Type) `{Detector R D} : Type := {
  valid : D -> Prop;
  count : D -> Z;
  valid_new : valid d_new;
  count_new : count d_new = 0;
  count_nonneg d : valid d -> 0 <= count d;
  get_step_count_law d : d_get_step_count d = (Ok (count d), d);
  reset_step_count_law d :
    eval d_reset_step_count d = Ok tt
    /\ count (exec d_reset_step_count d) = 0
    /\ (valid d -> valid (exec d_reset_step_count d));
  add_step_law d :
    eval d_add_step d = Ok tt
    /\ count (exec d_add_step d) = count d + 1
    /\ (valid d -> valid (exec d_add_step d));
  process_sample_law ax ay az d :
    valid d ->
    eval (d_process_sample ax ay az) d = Ok tt
    /\ valid (exec (d_process_sample ax ay az) d)
    /\ count d <= count (exec (d_process_sample ax ay az) d) <= count d + 1
}.

Arguments valid {R D _ _} d.
Arguments count {R D _ _} d.
