(* ===== verification/Clock.v ===== *)
(** * Clock: the millisecond clock of the board

    [time.ticks_ms()] counts milliseconds and wraps at [TICKS_PERIOD];
    [time.ticks_diff(a, b)] is the signed distance from [b] to [a] on that
    ring (MicroPython's documentation; the functions are not part of the
    sources).  The loop of [src/main.py] compares [ticks_diff] of the
    clock and its mark with the update interval (line 84).  The lemmas say
    when the difference the loop measures is the time that has passed. *)

From Stdlib Require Import ZArith Lia.
From stdpp Require Import base tactics.
From S2P Require Import Prelude.

#[local] Open Scope Z_scope.

(** The number of values of [time.ticks_ms()]. *)
Definition TICKS_PERIOD : Z := 2 ^ 30.

(** [time.ticks_diff(a, b)]: the signed distance from [b] to [a] on the
    ring of [TICKS_PERIOD] values. *)
Definition ticks_diff (a b : Z) : Z :=
  (a - b + TICKS_PERIOD / 2) mod TICKS_PERIOD - TICKS_PERIOD / 2.

(** ** The difference of two clock values *)

Lemma ticks_diff_range a b :
  - (TICKS_PERIOD / 2) <= ticks_diff a b < TICKS_PERIOD / 2.
Proof.
  unfold ticks_diff.
  pose proof (Z.mod_pos_bound (a - b + TICKS_PERIOD / 2) TICKS_PERIOD eq_refl).
  change (TICKS_PERIOD / 2) with (2 ^ 29) in *.
  change TICKS_PERIOD with (2 ^ 30) in *. lia.
Qed.

(** The difference of two clock values less than half a period apart is
    their difference as integers. *)
Lemma ticks_diff_near a b :
  - (TICKS_PERIOD / 2) <= a - b < TICKS_PERIOD / 2 -> ticks_diff a b = a - b.
Proof.
  intros Hd. unfold ticks_diff. rewrite Z.mod_small; [lia|].
  change (TICKS_PERIOD / 2) with (2 ^ 29) in *.
  change TICKS_PERIOD with (2 ^ 30) in *. lia.
Qed.

(** The clock difference survives the wrap-around of [ticks_ms]: when
    [d] milliseconds, less than half a period, have passed since the clock
    read [t], the loop measures [d] whatever the clock has wrapped to. *)
Theorem ticks_diff_wrap t d :
  - (TICKS_PERIOD / 2) <= d < TICKS_PERIOD / 2 ->
  ticks_diff ((t + d) mod TICKS_PERIOD) t = d.
Proof.
  intros Hd. unfold ticks_diff.
  rewrite Zplus_mod, Zminus_mod, Z.mod_mod, <- Zminus_mod, <- Zplus_mod by done.
  replace (t + d - t + TICKS_PERIOD / 2) with (d + TICKS_PERIOD / 2) by lia.
  rewrite Z.mod_small; [lia|].
  change (TICKS_PERIOD / 2) with (2 ^ 29) in *.
  change TICKS_PERIOD with (2 ^ 30) in *. lia.
Qed.

(** ** The clock on residues *)

Lemma ticks_diff_mod a b :
  ticks_diff (a mod TICKS_PERIOD) (b mod TICKS_PERIOD) = ticks_diff a b.
Proof.
  unfold ticks_diff. f_equal.
  rewrite (Z.mod_eq a TICKS_PERIOD), (Z.mod_eq b TICKS_PERIOD) by done.
  replace (a - TICKS_PERIOD * (a / TICKS_PERIOD)
           - (b - TICKS_PERIOD * (b / TICKS_PERIOD)) + TICKS_PERIOD / 2)
    with (a - b + TICKS_PERIOD / 2
          + (b / TICKS_PERIOD - a / TICKS_PERIOD) * TICKS_PERIOD) by lia.
  by rewrite Z.mod_add.
Qed.

(** The difference the loop measures between two turns less than half a
    period apart is the time that passed. *)
Lemma ticks_diff_elapsed m t :
  m <= t < m + TICKS_PERIOD / 2 ->
  ticks_diff (t mod TICKS_PERIOD) (m mod TICKS_PERIOD) = t - m.
Proof. intros Ht. rewrite ticks_diff_mod. apply ticks_diff_near. lia. Qed.

Lemma ticks_diff_wrap_witness :
  ticks_diff ((TICKS_PERIOD - 10 + 60) mod TICKS_PERIOD) (TICKS_PERIOD - 10) = 60.
Proof. apply (ticks_diff_wrap (TICKS_PERIOD - 10) 60). by vm_compute. Defined.
