(* ===== verification/Wifi.v ===== *)
(** * Wifi: waiting for the network

    [connect_wifi] (lines 34-63 of [src/main.py]) switches the radio on,
    asks for the connection and polls [wlan.isconnected()] once a second
    for at most 20 seconds; it returns the address or raises
    [RuntimeError].  The answers of [isconnected()] are an oracle indexed by
    the number of the call; the display texts, the connect call and the
    sleeps are events.  The loop on [max_wait] is [wait_loop], by recursion
    on fuel; the theorems show that 21 units of fuel are enough. *)

From Stdlib Require Import ZArith String Ascii Lia.
From stdpp Require Import base tactics list strings.
From S2P Require Import Prelude.

#[local] Open Scope Z_scope.

(** What [connect_wifi] does to the display and the radio. *)
Inductive wifi_event : Type :=
| Connect
| WifiSleep
| Show (lines : list (string * Z)).

(** The seconds [connect_wifi] has slept. *)
Fixpoint seconds_slept (events : list wifi_event) : Z :=
  match events with
  | [] => 0
  | WifiSleep :: events => 1 + seconds_slept events
  | _ :: events => seconds_slept events
  end.

(** Lines 45-49: the loop on [max_wait].  [isconnected k] is the answer
    of the [k]-th call of [wlan.isconnected()]; the result is the number of
    calls made and of seconds slept. *)
Fixpoint wait_loop (fuel : nat) (isconnected : nat -> bool) (k : nat)
    (max_wait : Z) : option (nat * Z) :=
  match fuel with
  | O => None
  | S fuel =>
      if 0 <? max_wait then
        if isconnected k then Some (S k, 0)
        else (fun '(k', slept) => (k', slept + 1))
               <$> wait_loop fuel isconnected (S k) (max_wait - 1)
      else Some (k, 0)
  end.

(** [connect_wifi()]: the address, or [RuntimeError]; [None] when the fuel
    does not cover the wait.  [display] says whether the initialisation of
    lines 24-32 has bound the global of that name: every path of the
    function draws on it before anything else can be observed, and raises
    [NameError] when it is not there. *)
Definition connect_wifi (fuel : nat) (display : bool) (SSID : string)
    (isconnected : nat -> bool) (ifconfig : string)
    : option (outcome string * list wifi_event) :=
  if display then
    let waited :=
      if isconnected 0%nat then Some (1%nat, [])
      else
        (fun '(k, slept) =>
           (k, [Show [("Laczenie z " +:+ SSID, 0)]; Connect]
                 ++ replicate (Z.to_nat slept) WifiSleep))
          <$> wait_loop fuel isconnected 1 20 in
    (fun '(k, events) =>
       if isconnected k
       then (Ok ifconfig,
             events ++ [Show [("IP: " +:+ ifconfig, 0); ("Serwer MPU ON", 16)]])
       else (Raise RuntimeError, events ++ [Show [("Blad WiFi!", 0)]]))
      <$> waited
  else Some (Raise NameError, []).


(** ** Termination *)

Lemma wait_loop_ends isconnected fuel k max_wait :
  (Z.to_nat max_wait < fuel)%nat ->
  exists k' slept,
    wait_loop fuel isconnected k max_wait = Some (k', slept)
    /\ 0 <= slept <= Z.max 0 max_wait
    /\ (k <= k')%nat
    /\ Z.of_nat (k' - k) <= slept + 1.
Proof.
  revert k max_wait.
  induction fuel as [|fuel IH]; intros k max_wait Hf; [lia|]. cbn [wait_loop].
  destruct (Z.ltb_spec 0 max_wait) as [Hpos|Hneg];
    [|exists k, 0; split_and!; [done | lia..]].
  destruct (isconnected k); [exists (S k), 0; split_and!; [done | lia..]|].
  destruct (IH (S k) (max_wait - 1)) as (k' & slept & -> & Hs & Hk & Hq); [lia|].
  exists k', (slept + 1). cbn. split_and!; [done | lia..].
Qed.

(** More fuel does not change an answer. *)
Lemma wait_loop_fuel isconnected fuel fuel' k max_wait r :
  (fuel <= fuel')%nat ->
  wait_loop fuel isconnected k max_wait = Some r ->
  wait_loop fuel' isconnected k max_wait = Some r.
Proof.
  revert fuel' k max_wait r.
  induction fuel as [|fuel IH]; intros [|fuel'] k max_wait r Hle; try done; [lia|].
  cbn [wait_loop]. destruct (0 <? max_wait); [|done].
  destruct (isconnected k); [done|].
  destruct (wait_loop fuel _ _ _) as [r'|] eqn:E; [|done].
  by rewrite (IH fuel' _ _ r') by (done || lia).
Qed.

Lemma seconds_slept_app es es' :
  seconds_slept (es ++ es') = seconds_slept es + seconds_slept es'.
Proof. induction es as [|[] es IH]; cbn [app seconds_slept]; lia. Qed.

Lemma seconds_slept_replicate n : seconds_slept (replicate n WifiSleep) = Z.of_nat n.
Proof. induction n as [|n IH]; cbn [replicate seconds_slept]; lia. Qed.

Lemma connect_wifi_ends fuel SSID isconnected ifconfig :
  (20 < fuel)%nat ->
  exists k events,
    connect_wifi fuel true SSID isconnected ifconfig
    = Some (if isconnected k then Ok ifconfig else Raise RuntimeError, events)
    /\ 0 <= seconds_slept events <= 20
    /\ Z.of_nat k <= seconds_slept events + 2.
Proof.
  intros Hfuel. unfold connect_wifi. destruct (isconnected 0%nat).
  - exists 1%nat. cbn. destruct (isconnected 1%nat); eexists; split_and!; eauto; cbn; lia.
  - destruct (wait_loop_ends isconnected fuel 1 20) as (k & slept & -> & Hs & Hk & Hq);
      [cbn; lia|].
    cbn [fmap option_fmap option_map]. exists k.
    destruct (isconnected k); eexists; (split; [done|]);
      rewrite !seconds_slept_app, seconds_slept_replicate; cbn; lia.
Qed.

(** C32: [connect_wifi] terminates: with fuel for more than 20 turns of
    its loop it returns, having slept at most 20 seconds.  Its last call of
    [isconnected()], the one of line 52, is call number [k] counting from
    0, with [k] at most the seconds slept plus 2: the function asks at
    most three times more than it sleeps (lines 38 and 52, and the call
    that breaks the loop).  It returns the address when that last answer
    is yes and raises [RuntimeError] otherwise. *)
Theorem connect_wifi_terminates fuel SSID isconnected ifconfig :
  (20 < fuel)%nat ->
  exists k events,
    connect_wifi fuel true SSID isconnected ifconfig
    = Some (if isconnected k then Ok ifconfig else Raise RuntimeError, events)
    /\ 0 <= seconds_slept events <= 20
    /\ Z.of_nat k <= seconds_slept events + 2.
Proof. apply connect_wifi_ends. Qed.

(** With more than 20 units of fuel [connect_wifi] returns, and the three
    ways it can end are the only ones. *)
Lemma connect_wifi_returns fuel display SSID isconnected ifconfig :
  (20 < fuel)%nat ->
  exists result events,
    connect_wifi fuel display SSID isconnected ifconfig = Some (result, events)
    /\ (result = Ok ifconfig /\ display = true
        \/ result = Raise RuntimeError /\ display = true
        \/ result = Raise NameError /\ display = false /\ events = []).
Proof.
  intros Hfuel. destruct display; [|by eexists _, _; split; [|right; right]].
  destruct (connect_wifi_ends fuel SSID isconnected ifconfig Hfuel)
    as (k & events & -> & _).
  destruct (isconnected k); eexists _, _; split; eauto.
Qed.

Lemma connect_wifi_terminates_witness :
  exists k events,
    connect_wifi 21 true "dom" (fun k => 3 <=? k)%nat "192.168.0.7"
    = Some (if (3 <=? k)%nat then Ok "192.168.0.7" else Raise RuntimeError, events)
    /\ 0 <= seconds_slept events <= 20
    /\ Z.of_nat k <= seconds_slept events + 2.
Proof. apply (connect_wifi_terminates 21). lia. Defined.
