(* ===== verification/Server.v ===== *)
(** * Server: the control loop of [src/main.py]

    The board runs one loop (lines 81-171).  Each turn it looks at the
    clock and, when more than [GYRO_UPDATE_INTERVAL_MS] have passed, reads
    the accelerometer, feeds the detector, copies the count into the global
    [steps] and redraws the display (lines 84-105); then it polls the
    listening socket and, when a client has connected, answers one request
    (lines 107-171).

    The state of the loop is [server]: the detector object [krokomierz],
    the global [steps] (an [int], or [None] once [add_step]'s return value
    has been assigned to it), [last_gyro_update_ms] and the address
    [connect_wifi] returned.  What the hardware and the network do in one
    turn is an [input]; what the loop does to them is a list of [event]s.
    The console is in the file Log, the exceptions that leave the loop in
    the file Faults.

    This file holds the definitions; Replies has what a client reads from
    a reply, Loop the theorems about the loop over a lawful detector. *)

From Stdlib Require Import ZArith String Ascii Lia.
From stdpp Require Import base tactics list strings.
From S2P Require Import Prelude Text Interface Clock.

#[local] Open Scope Z_scope.

(** Line 18: the interval between two sensor updates, in milliseconds. *)
Definition GYRO_UPDATE_INTERVAL_MS : Z := 50.

(** ** One turn of the loop *)

(** What the loop does to the outside: the texts it draws, the time it
    sleeps, the call [conn.sendall(response.encode())] (whether or not the
    call raises, nothing follows it in its [try] block) and the call
    [conn.close()]. *)
Inductive event : Type :=
| Display (lines : list (string * Z))
| Sleep (ms : Z)
| Send (response : string)
| Close.

Section Server.
Context {R D : Type} `{Detector R D}.

Record server : Type := Server {
  krokomierz : D;
  steps : option Z;
  last_gyro_update_ms : Z;
  ip_addr : string
}.

(** What the accelerometer returns, or that reading it raised. *)
Inductive reading : Type :=
| Reading (ax ay az : R)
| ReadFailure.

(** What [conn.recv] returns, decoded, or how it failed. *)
Inductive received : Type :=
| Request (request : string)
| RecvOSError (errno : Z)
| RecvFailure.

(** What [s.accept] returns. *)
Inductive accepted : Type :=
| AcceptOSError (errno : Z)
| Connection (r : received).

Record input : Type := Input {
  current_time : Z;
  sensor : reading;
  display_ok : bool;
  socket : accepted
}.

(** The state after lines 69-79, started at clock value [t0]. *)
Definition boot (ip : string) (t0 : Z) : server := Server d_new (Some 0) t0 ip.

(** [str(steps)] as line 97 prints it. *)
Definition str_steps (v : option Z) : string :=
  match v with
  | Some n => str_int n
  | None => "None"
  end.

(** [get_steps_json] (lines 65-67). *)
Definition get_steps_json (srv : server) : string := dumps_steps (steps srv).

(** Lines 84-105: the sensor branch.  An exception anywhere in the [try]
    leaves what was assigned before it. *)
Definition sensor_update (i : input) (srv : server) : server * list event :=
  if GYRO_UPDATE_INTERVAL_MS <? ticks_diff (current_time i) (last_gyro_update_ms srv)
  then
    match sensor i with
    | ReadFailure => (srv, [])
    | Reading ax ay az =>
        let (result, k1) := d_process_sample ax ay az (krokomierz srv) in
        let srv1 := Server k1 (steps srv) (last_gyro_update_ms srv) (ip_addr srv) in
        match result with
        | Raise _ => (srv1, [])
        | Ok _ =>
            let (count, k2) := d_get_step_count k1 in
            let srv2 := Server k2 (steps srv) (last_gyro_update_ms srv) (ip_addr srv) in
            match count with
            | Raise _ => (srv2, [])
            | Ok n =>
                let srv3 :=
                  Server k2 (Some n) (last_gyro_update_ms srv) (ip_addr srv) in
                if display_ok i then
                  (Server k2 (Some n) (current_time i) (ip_addr srv),
                   [Display [("KROKI: " +:+ str_steps (Some n), 0);
                             ("IP: " +:+ ip_addr srv, 24)]])
                else (srv3, [])
            end
        end
    end
  else (srv, []).

(** Lines 125-139: the routes.  The result is the state, [http_status] and
    [json_data]; [None] when a detector method raised. *)
Definition route (request_line : string) (srv : server)
    : server * option (string * option string) :=
  if startswith request_line "GET /steps" then
    (srv, Some ("200 OK", Some (get_steps_json srv)))
  else if startswith request_line "GET /zeruj" then
    let (result, k1) := d_reset_step_count (krokomierz srv) in
    let srv1 := Server k1 (steps srv) (last_gyro_update_ms srv) (ip_addr srv) in
    match result with
    | Raise _ => (srv1, None)
    | Ok _ => (srv1, Some ("200 OK", Some (get_steps_json srv1)))
    end
  else if startswith request_line "GET /dodaj" then
    let (result, k1) := d_add_step (krokomierz srv) in
    let srv1 := Server k1 (steps srv) (last_gyro_update_ms srv) (ip_addr srv) in
    match result with
    | Raise _ => (srv1, None)
    | Ok tt =>
        let srv2 := Server k1 None (last_gyro_update_ms srv) (ip_addr srv) in
        (srv2, Some ("200 OK", Some (get_steps_json srv2)))
    end
  else if startswith request_line "OPTIONS" then
    (srv, Some ("200 OK", None))
  else
    (srv, Some ("404 Not Found", Some "<h1>404 Not Found</h1>")).

(** Lines 141-145: the status line and the headers every reply has. *)
Definition head (http_status : string) : string :=
  ((((("HTTP/1.1 " +:+ http_status +:+ crlf)
      +:+ "Access-Control-Allow-Origin: *" +:+ crlf)
     +:+ "Access-Control-Allow-Methods: GET, OPTIONS" +:+ crlf)
    +:+ "Access-Control-Allow-Headers: Content-Type" +:+ crlf)
   +:+ "Connection: close" +:+ crlf).

(** Lines 141-157: the reply.  In the second branch [json_data] is [None]
    and [len(json_data)] raises [TypeError]. *)
Definition render (http_status : string) (json_data : option string)
    : outcome string :=
  let response := head http_status in
  match json_data with
  | Some body =>
      Ok (((response +:+ "Content-Type: application/json" +:+ crlf)
           +:+ "Content-Length: " +:+ str_int (Z.of_nat (String.length body))
           +:+ crlf +:+ crlf)
          +:+ body)
  | None =>
      if String.eqb http_status "404 Not Found" then Raise TypeError
      else Ok (response +:+ crlf)
  end.

(** Lines 120-171: one connection. *)
Definition serve (r : received) (srv : server) : server * list event :=
  match r with
  | Request request =>
      let request_line := before crlf request in
      match route request_line srv with
      | (srv1, Some (http_status, json_data)) =>
          match render http_status json_data with
          | Ok response => (srv1, [Send response; Close])
          | Raise _ => (srv1, [Close])
          end
      | (srv1, None) => (srv1, [Close])
      end
  | RecvOSError _ | RecvFailure => (srv, [Close])
  end.

(** Lines 110-116: the errors of [accept] that mean no client is waiting. *)
Definition would_block (errno : Z) : bool :=
  (errno =? 11) || (errno =? 35) || (errno =? 110).

(** Lines 82-171: one turn. *)
Definition turn (i : input) (srv : server) : server * list event :=
  let (srv1, shown) := sensor_update i srv in
  match socket i with
  | AcceptOSError errno =>
      (srv1, shown ++ [Sleep (if would_block errno then 1 else 1000)])
  | Connection r =>
      let (srv2, served) := serve r srv1 in
      (srv2, shown ++ served)
  end.

(** Line 81: the loop, on the turns of a finite prefix of its run. *)
Fixpoint loop (inputs : list input) (srv : server) : server * list event :=
  match inputs with
  | [] => (srv, [])
  | i :: inputs =>
      let (srv1, events) := turn i srv in
      let (srv2, later) := loop inputs srv1 in
      (srv2, events ++ later)
  end.

End Server.

Arguments server D : clear implicits.
Arguments reading R : clear implicits.
Arguments input R : clear implicits.

(** The routes, in the order the handler tests them. *)
Inductive kind_of_request : Type := GetSteps | Zeruj | Dodaj | Options | Unknown.

#[export] Instance kind_of_request_eq_dec : EqDecision kind_of_request.
Proof. solve_decision. Defined.

Definition classify (request_line : string) : kind_of_request :=
  if startswith request_line "GET /steps" then GetSteps
  else if startswith request_line "GET /zeruj" then Zeruj
  else if startswith request_line "GET /dodaj" then Dodaj
  else if startswith request_line "OPTIONS" then Options
  else Unknown.
