(* ===== verification/Replies.v ===== *)
(** * Replies: what a client reads from a reply

    [render] builds the reply as one text.  The lemmas of this file read
    it back the way a client does: the status line it starts with, the
    body after the first empty line, the [Content-Length] and
    [Content-Type] headers, and the value in a JSON body. *)

From Stdlib Require Import ZArith String Ascii Lia.
From stdpp Require Import base tactics list strings.
From S2P Require Import Prelude Text Interface Clock Server.

#[local] Open Scope Z_scope.

(** The JSON body round-trips: a client that reads the body of a
    count reply back gets the value of [steps], an integer or [null]. *)
Theorem get_steps_json_roundtrip {D : Type} (srv : server D) :
  loads_steps (get_steps_json srv) = Some (steps srv).
Proof. apply loads_dumps_steps. Qed.

Lemma content_type_split :
  "Content-Type: application/json" = "Content-Type: " +:+ "application/json".
Proof. reflexivity. Qed.

(** What a client reads from a reply with a body: the body after the
    empty line, the length the [Content-Length] header announces, and the
    type the [Content-Type] header announces. *)
Section RenderBody.
Context (http_status body : string).
Hypothesis Hstatus : http_status = "200 OK" \/ http_status = "404 Not Found".
Hypothesis Hbody : occurs CR body = false.

Let reply : string :=
  ((head http_status +:+ "Content-Type: application/json" +:+ crlf)
   +:+ "Content-Length: " +:+ str_int (Z.of_nat (String.length body))
   +:+ crlf +:+ crlf)
  +:+ body.

Lemma reply_body_of : body_of reply = Some body.
Proof using Hstatus Hbody.
  pose proof (str_int_line (Z.of_nat (String.length body))) as Hd.
  unfold reply, body_of, head.
  destruct Hstatus as [-> | ->];
    rewrite !append_assoc, <- (append_assoc _ "Content-Length: "),
      after_nowhere by done;
    by apply after_last_line.
Qed.

Lemma reply_content_length :
  content_length reply = Some (Z.of_nat (String.length body)).
Proof using Hstatus.
  pose proof (str_int_line (Z.of_nat (String.length body))) as Hd.
  unfold reply, content_length, head.
  destruct Hstatus as [-> | ->];
    rewrite !append_assoc, !after_nowhere, (after_here "Content-Length: ") by done;
    cbn [mbind option_bind];
    change crlf with (String CR (String LF EmptyString)) at 1;
    by rewrite before_append, int_of_str_int.
Qed.

Lemma reply_content_type : content_type reply = Some "application/json".
Proof using Hstatus.
  unfold reply, content_type, head.
  destruct Hstatus as [-> | ->];
    rewrite !append_assoc, !after_nowhere by done;
    rewrite <- (append_assoc "Access-Control-Allow-Headers: Content-Type" crlf),
      !after_nowhere by done;
    rewrite content_type_split, (append_assoc "Content-Type: "), after_here;
    cbn [fmap option_fmap option_map];
    change crlf with (String CR (String LF EmptyString)) at 1;
    by rewrite before_append.
Qed.

Lemma render_body :
  exists response,
    render http_status (Some body) = Ok response
    /\ startswith response ("HTTP/1.1 " +:+ http_status +:+ crlf) = true
    /\ body_of response = Some body
    /\ content_length response = Some (Z.of_nat (String.length body))
    /\ content_type response = Some "application/json".
Proof using Hstatus Hbody.
  exists reply. split_and!;
    [done | | apply reply_body_of | apply reply_content_length
     | apply reply_content_type].
  unfold reply, head. by destruct Hstatus as [-> | ->]; rewrite !append_assoc.
Qed.

End RenderBody.

(** The reply without a body ends with the empty line. *)
Lemma render_empty :
  exists response,
    render "200 OK" None = Ok response
    /\ startswith response ("HTTP/1.1 200 OK" +:+ crlf) = true
    /\ body_of response = Some EmptyString.
Proof. eexists. split; [reflexivity|]. by vm_compute. Qed.

(** A reply built from an ASCII status and an ASCII body is ASCII. *)
Lemma plain_render http_status json_data response :
  render http_status json_data = Ok response ->
  plain http_status = true ->
  (forall body, json_data = Some body -> plain body = true) ->
  plain response = true.
Proof.
  unfold render, head. intros Hr Hs Hb. destruct json_data as [body|].
  - injection Hr as <-. rewrite !plain_append, Hs, plain_str_int, (Hb body) by done. done.
  - destruct (String.eqb _ _); [done|]. injection Hr as <-.
    rewrite !plain_append, Hs. done.
Qed.

Lemma occurs_dumps_steps v : occurs CR (dumps_steps v) = false.
Proof.
  unfold dumps_steps. rewrite !occurs_append. destruct v as [n|]; [|done].
  cbn [dumps_value]. by rewrite occurs_str_int.
Qed.
