(* ===== verification/Loop.v ===== *)
(** * Loop: the control loop over a lawful detector

    The theorems of this file hold for every detector that satisfies
    [DetectorLaws]: the invariant [server_ok] of the loop, the sensor
    branch, the five routes and their replies.  Board instantiates them
    with [StepDetector]. *)

From Stdlib Require Import ZArith String Ascii Lia.
From stdpp Require Import base tactics list strings.
From S2P Require Import Prelude Text Interface Clock Server Replies.

#[local] Open Scope Z_scope.

Section ServerLaws.
Context {R D : Type} `{DetectorLaws R D}.
Implicit Types (srv : server D) (i : input R) (k : D).

(** The invariant of the loop: the detector is valid, and a count held in
    [steps] is not negative. *)
(** What the loop sends is ASCII. *)
Definition sent_plain (e : event) : bool :=
  match e with
  | Send response => plain response
  | _ => true
  end.

Definition server_ok srv : Prop :=
  valid (krokomierz srv) /\ (forall n, steps srv = Some n -> 0 <= n).

(** *** The sensor branch *)

Lemma sensor_update_idle i srv :
  ticks_diff (current_time i) (last_gyro_update_ms srv) <= GYRO_UPDATE_INTERVAL_MS ->
  sensor_update i srv = (srv, []).
Proof.
  intros Hd. unfold sensor_update.
  destruct (Z.ltb_spec GYRO_UPDATE_INTERVAL_MS
              (ticks_diff (current_time i) (last_gyro_update_ms srv))); [lia | done].
Qed.

Lemma sensor_update_reading i srv ax ay az :
  valid (krokomierz srv) ->
  GYRO_UPDATE_INTERVAL_MS < ticks_diff (current_time i) (last_gyro_update_ms srv) ->
  sensor i = Reading ax ay az ->
  let k := exec (d_process_sample ax ay az) (krokomierz srv) in
  sensor_update i srv =
  if display_ok i then
    (Server k (Some (count k)) (current_time i) (ip_addr srv),
     [Display [("KROKI: " +:+ str_int (count k), 0); ("IP: " +:+ ip_addr srv, 24)]])
  else (Server k (Some (count k)) (last_gyro_update_ms srv) (ip_addr srv), []).
Proof.
  intros Hv Hd Hs. cbn zeta. unfold sensor_update. rewrite Hs.
  destruct (Z.ltb_spec GYRO_UPDATE_INTERVAL_MS
              (ticks_diff (current_time i) (last_gyro_update_ms srv))); [|lia].
  destruct (process_sample_law ax ay az _ Hv) as (He & _ & _).
  unfold eval, exec in *. destruct (d_process_sample ax ay az _) as [r k1].
  cbn [fst snd] in *. subst r. by rewrite get_step_count_law.
Qed.

Lemma sensor_update_ok i srv : server_ok srv -> server_ok (sensor_update i srv).1.
Proof.
  intros [Hv Hn].
  destruct (Z.le_gt_cases (ticks_diff (current_time i) (last_gyro_update_ms srv))
              GYRO_UPDATE_INTERVAL_MS) as [Hd|Hd];
    [by rewrite sensor_update_idle|].
  destruct (sensor i) as [ax ay az|] eqn:Es;
    [|by unfold sensor_update; rewrite Es; destruct (_ <? _)].
  rewrite (sensor_update_reading i srv ax ay az) by (done || lia).
  destruct (process_sample_law ax ay az _ Hv) as (_ & Hv' & _).
  destruct (display_ok i); (split; [done|]); intros n [= <-];
    by apply count_nonneg.
Qed.

(** *** The routes *)

Lemma reset_step_count_run k :
  d_reset_step_count k = (Ok tt, exec d_reset_step_count k).
Proof.
  destruct (reset_step_count_law k) as (He & _). unfold eval, exec in *.
  destruct (d_reset_step_count k) as [r k1]. cbn [fst snd] in *. by subst r.
Qed.

Lemma add_step_run k : d_add_step k = (Ok tt, exec d_add_step k).
Proof.
  destruct (add_step_law k) as (He & _). unfold eval, exec in *.
  destruct (d_add_step k) as [r k1]. cbn [fst snd] in *. by subst r.
Qed.

Lemma route_classify request_line srv :
  route request_line srv =
  match classify request_line with
  | GetSteps => (srv, Some ("200 OK", Some (dumps_steps (steps srv))))
  | Zeruj =>
      (Server (exec d_reset_step_count (krokomierz srv)) (steps srv)
              (last_gyro_update_ms srv) (ip_addr srv),
       Some ("200 OK", Some (dumps_steps (steps srv))))
  | Dodaj =>
      (Server (exec d_add_step (krokomierz srv)) None
              (last_gyro_update_ms srv) (ip_addr srv),
       Some ("200 OK", Some (dumps_steps None)))
  | Options => (srv, Some ("200 OK", None))
  | Unknown => (srv, Some ("404 Not Found", Some "<h1>404 Not Found</h1>"))
  end.
Proof.
  unfold route, classify. rewrite reset_step_count_run, add_step_run.
  by repeat case_match.
Qed.

Lemma route_ok request_line srv :
  server_ok srv -> server_ok (route request_line srv).1.
Proof.
  intros [Hv Hn]. rewrite route_classify.
  destruct (classify request_line); cbn [fst]; try done; (split; [|done]); cbn.
  - by apply reset_step_count_law.
  - by apply add_step_law.
Qed.

Lemma serve_ok r srv : server_ok srv -> server_ok (serve r srv).1.
Proof.
  intros Hok. destruct r as [request| |]; cbn [serve]; [|done..].
  pose proof (route_ok (before crlf request) srv Hok) as Hr.
  destruct (route _ srv) as [srv1 [[st jd]|]]; [|done].
  by destruct (render st jd).
Qed.

Lemma turn_ok i srv : server_ok srv -> server_ok (turn i srv).1.
Proof.
  intros Hok%(sensor_update_ok i). unfold turn.
  destruct (sensor_update i srv) as [srv1 shown].
  destruct (socket i) as [errno|r]; [done|].
  pose proof (serve_ok r srv1 Hok). by destruct (serve r srv1).
Qed.

Lemma loop_ok inputs srv : server_ok srv -> server_ok (loop inputs srv).1.
Proof.
  revert srv. induction inputs as [|i inputs IH]; intros srv Hok; [done|].
  cbn [loop]. pose proof (turn_ok i srv Hok) as Ht.
  destruct (turn i srv) as [srv1 events]. specialize (IH srv1 Ht).
  by destruct (loop inputs srv1).
Qed.

Lemma boot_ok ip t0 : server_ok (boot ip t0).
Proof. split; [apply valid_new|]. intros n [= <-]. done. Qed.

Lemma serve_request request srv :
  serve (Request request) srv =
  match route (before crlf request) srv with
  | (srv1, Some (http_status, json_data)) =>
      match render http_status json_data with
      | Ok response => (srv1, [Send response; Close])
      | Raise _ => (srv1, [Close])
      end
  | (srv1, None) => (srv1, [Close])
  end.
Proof. reflexivity. Qed.

(** *** What the loop promises *)

(** C35: the sensor branch on a valid detector, when the interval has
    passed and the accelerometer answers: the detector takes the sample,
    [steps] becomes its count, the display shows that count, and the clock
    mark advances only if the display did not fail. *)
Theorem sensor_update_spec i srv ax ay az :
  valid (krokomierz srv) ->
  GYRO_UPDATE_INTERVAL_MS < ticks_diff (current_time i) (last_gyro_update_ms srv) ->
  sensor i = Reading ax ay az ->
  let k := exec (d_process_sample ax ay az) (krokomierz srv) in
  sensor_update i srv =
  if display_ok i then
    (Server k (Some (count k)) (current_time i) (ip_addr srv),
     [Display [("KROKI: " +:+ str_int (count k), 0); ("IP: " +:+ ip_addr srv, 24)]])
  else (Server k (Some (count k)) (last_gyro_update_ms srv) (ip_addr srv), []).
Proof. apply sensor_update_reading. Qed.

(** The five routes: what each does to the state and which status and
    body it answers with.  No route raises. *)
Theorem route_spec request_line srv :
  route request_line srv =
  match classify request_line with
  | GetSteps => (srv, Some ("200 OK", Some (dumps_steps (steps srv))))
  | Zeruj =>
      (Server (exec d_reset_step_count (krokomierz srv)) (steps srv)
              (last_gyro_update_ms srv) (ip_addr srv),
       Some ("200 OK", Some (dumps_steps (steps srv))))
  | Dodaj =>
      (Server (exec d_add_step (krokomierz srv)) None
              (last_gyro_update_ms srv) (ip_addr srv),
       Some ("200 OK", Some (dumps_steps None)))
  | Options => (srv, Some ("200 OK", None))
  | Unknown => (srv, Some ("404 Not Found", Some "<h1>404 Not Found</h1>"))
  end.
Proof. apply route_classify. Qed.

(** C11: every request that is received is answered with one well-formed
    reply and the connection is closed: the reply starts with the status
    line, its body is what follows the first empty line, and
    [Content-Length] is the length of that body.  In particular the
    [TypeError] branch of the reply builder is never taken. *)
Theorem reply_wellformed request srv :
  exists http_status json_data response,
    (route (before crlf request) srv).2 = Some (http_status, json_data)
    /\ (serve (Request request) srv).2 = [Send response; Close]
    /\ startswith response ("HTTP/1.1 " +:+ http_status +:+ crlf) = true
    /\ body_of response = Some (default EmptyString json_data)
    /\ (forall body, json_data = Some body ->
          content_length response = Some (Z.of_nat (String.length body))).
Proof.
  rewrite serve_request, route_classify.
  destruct (classify _);
    try (destruct (render_body "200 OK" (dumps_steps (steps srv)))
           as (r & -> & ? & ? & ? & _); [auto | apply occurs_dumps_steps|]);
    try (destruct (render_body "200 OK" (dumps_steps None))
           as (r & -> & ? & ? & ? & _); [auto | apply occurs_dumps_steps|]);
    try (destruct (render_body "404 Not Found" "<h1>404 Not Found</h1>")
           as (r & -> & ? & ? & ? & _); [auto | done|]);
    try (destruct render_empty as (r & -> & ? & ?));
    eexists _, _, r; split_and!; try done; by intros body [= <-].
Qed.

(** The routes [/steps] and [OPTIONS] and every unknown request leave
    the whole state, detector included, as it was. *)
Theorem read_only_routes request_line srv :
  classify request_line <> Zeruj -> classify request_line <> Dodaj ->
  (route request_line srv).1 = srv.
Proof. intros Hz Hd. rewrite route_classify. by destruct (classify _). Qed.

(** C12: the route [/dodaj] adds one step to the detector, but assigns the
    value of [add_step()], which is [None], to [steps]: the body of its
    reply is the JSON text with [null] for the count. *)
Theorem dodaj_replies_null request_line srv :
  classify request_line = Dodaj ->
  count (krokomierz (route request_line srv).1) = count (krokomierz srv) + 1
  /\ steps (route request_line srv).1 = None
  /\ (route request_line srv).2
     = Some ("200 OK", Some ("{" +:+ quote +:+ "steps" +:+ quote +:+ ": null}")).
Proof.
  intros Hc. rewrite route_classify, Hc. cbn [fst snd krokomierz steps].
  split; [apply add_step_law | done].
Qed.

(** C13: the route [/zeruj] zeroes the detector's count, but its reply is
    built from [steps], which it does not update: the body still carries
    the count from before the reset. *)
Theorem zeruj_replies_stale request_line srv :
  classify request_line = Zeruj ->
  count (krokomierz (route request_line srv).1) = 0
  /\ steps (route request_line srv).1 = steps srv
  /\ (route request_line srv).2 = Some ("200 OK", Some (dumps_steps (steps srv))).
Proof.
  intros Hc. rewrite route_classify, Hc. cbn [fst snd krokomierz steps].
  split; [apply reset_step_count_law | done].
Qed.

(** C36: an unknown request is answered [404 Not Found] with the HTML
    body, announced as [application/json]: the [text/html] branch of the
    reply builder is not reachable. *)
Theorem unknown_reply_type request srv :
  classify (before crlf request) = Unknown ->
  exists response,
    (serve (Request request) srv).2 = [Send response; Close]
    /\ startswith response ("HTTP/1.1 404 Not Found" +:+ crlf) = true
    /\ body_of response = Some "<h1>404 Not Found</h1>"
    /\ content_type response = Some "application/json".
Proof.
  intros Hc. rewrite serve_request, route_classify, Hc.
  destruct (render_body "404 Not Found" "<h1>404 Not Found</h1>")
    as (r & -> & ? & ? & _ & ?); [auto | done|].
  by exists r.
Qed.

(** Every accepted connection is closed, last and once, after at
    most one reply, whatever was received and however receiving failed. *)
Theorem serve_closes r srv :
  (serve r srv).2 = [Close]
  \/ exists response, (serve r srv).2 = [Send response; Close].
Proof.
  destruct r as [request| |]; [|by left..]. rewrite serve_request.
  destruct (route _ srv) as [srv1 [[st jd]|]]; [|by left].
  destruct (render st jd); [right; by eexists | by left].
Qed.

(** The invariant of the loop holds after every finite run from the
    state the board starts in: the detector stays valid and a count in
    [steps] is never negative. *)
Theorem loop_server_ok ip t0 inputs : server_ok (loop inputs (boot ip t0)).1.
Proof. apply loop_ok, boot_ok. Qed.

(** *** The bytes on the wire *)

Lemma serve_plain r srv : forallb sent_plain (serve r srv).2 = true.
Proof.
  destruct r as [request| |]; [|done..]. rewrite serve_request, route_classify.
  destruct (classify _); cbv beta iota;
    (destruct (render _ _) as [response|] eqn:Er; [|done]);
    cbn [snd forallb sent_plain]; rewrite (plain_render _ _ _ Er); try done;
    intros body [= <-]; (done || apply plain_dumps_steps).
Qed.

Lemma turn_plain i srv : forallb sent_plain (turn i srv).2 = true.
Proof.
  unfold turn, sensor_update.
  repeat case_match; simplify_eq; rewrite ?forallb_app; cbn [forallb sent_plain andb];
    try done;
    match goal with
    | E : serve ?r ?s = (_, ?served) |- _ =>
        pose proof (serve_plain r s) as Hp; rewrite E in Hp; exact Hp
    end.
Qed.

(** C34: everything the loop sends is ASCII, whatever the requests and
    the readings: [response.encode()] yields one byte for each character,
    so that the [Content-Length] header, which counts the characters of
    the body, counts its bytes. *)
Theorem loop_sends_plain inputs srv : forallb sent_plain (loop inputs srv).2 = true.
Proof.
  revert srv. induction inputs as [|i inputs IH]; intros srv; [done|]. cbn [loop].
  pose proof (turn_plain i srv) as Ht. destruct (turn i srv) as [srv1 events].
  specialize (IH srv1). destruct (loop inputs srv1) as [srv2 later].
  cbn [snd] in *. by rewrite forallb_app, Ht, IH.
Qed.

End ServerLaws.
