(* ===== verification/Main.v ===== *)
(** * Main: the program from power-on to the loop

    [src/main.py] is a script: lines 24-32 create the bus, the sensor and
    the display inside a [try] whose handler only prints; line 69 calls
    [connect_wifi]; lines 70-76 set the listening socket up; line 79
    creates the detector and line 81 enters the loop.  An exception that
    reaches the top level ends the program.

    [main] is that sequence.  What the hardware does is a [power_on]
    record: where the initialisation raised, if it did, the clock value of
    line 17, the answers of the access point and whether the socket could
    be set up.  The result is [Stopped e] when an exception ended the
    program, [Running srv] with the state of the loop after the given
    turns otherwise.

    The file also counts what a run of the loop does to its clients:
    [replies] and [closes] against [requests] and [connections]. *)

From Stdlib Require Import ZArith String Lia.
From stdpp Require Import base tactics list strings.
From S2P Require Import Prelude Numeric Text Interface Clock Wifi Server Replies Loop.

#[local] Open Scope Z_scope.

(** ** The constants of the script (lines 10-22) *)

(** Lines 10-11: the credentials of the network, empty in the
    repository. *)
Definition SSID : string := EmptyString.
Definition PASSWORD : string := EmptyString.

(** Lines 13-14: the pins of the I2C bus. *)
Definition I2C_SCL_PIN : Z := 9.
Definition I2C_SDA_PIN : Z := 8.

(** Lines 20-22: three thresholds under the comment that announces the
    parameters of the pedometer.  No line of the program reads them: the
    detector runs with the defaults of [StepDetector()]. *)
Definition GYRO_FORWARD_THRESHOLD {R : Type} `{Arith R} : R := of_Z 40.
Definition GYRO_BACKWARD_THRESHOLD {R : Type} `{Arith R} : R := (- of_Z 40)%num.
Definition GYRO_RESET_THRESHOLD {R : Type} `{Arith R} : R := of_Z 15.

(** ** Initialisation (lines 24-32) *)

(** The statement of the [try] block that raised. *)
Inductive stage : Type :=
| AtI2C
| AtSensor
| AtDisplay
| AtDrawing.

#[export] Instance stage_eq_dec : EqDecision stage.
Proof. solve_decision. Defined.

(** Whether line 26 has bound [accel_sensor], line 25 [i2c] and line 27
    [display], when the block is left. *)
Definition bound_accel_sensor (failed : option stage) : bool :=
  match failed with
  | Some AtI2C | Some AtSensor => false
  | Some AtDisplay | Some AtDrawing | None => true
  end.

Definition bound_i2c (failed : option stage) : bool :=
  match failed with
  | Some AtI2C => false
  | Some AtSensor | Some AtDisplay | Some AtDrawing | None => true
  end.

Definition bound_display (failed : option stage) : bool :=
  match failed with
  | Some AtI2C | Some AtSensor | Some AtDisplay => false
  | Some AtDrawing | None => true
  end.

(** What lines 28-30 draw. *)
Definition initialise (failed : option stage) : list event :=
  match failed with
  | None => [Display [("Inicjalizacja...", 0)]]
  | Some _ => []
  end.

(** ** Socket set-up (lines 70-76) *)

(** The call that raised.  None of them is inside a [try]: the exception
    ends the program. *)
Inductive socket_stage : Type :=
| AtGetaddrinfo
| AtSocket
| AtSetsockopt
| AtBind
| AtListen
| AtSetblocking.

#[export] Instance socket_stage_eq_dec : EqDecision socket_stage.
Proof. solve_decision. Defined.

(** Whether line 70 has bound [addr], and line 71 [s], when the set-up is
    left. *)
Definition bound_addr (failed : option socket_stage) : bool :=
  match failed with
  | Some AtGetaddrinfo => false
  | _ => true
  end.

Definition bound_s (failed : option socket_stage) : bool :=
  match failed with
  | Some AtGetaddrinfo | Some AtSocket => false
  | _ => true
  end.

(** Whether [s.listen(1)] of line 74 has returned: the port is open, also
    when line 76 then raises and the program ends. *)
Definition listening (failed : option socket_stage) : bool :=
  match failed with
  | Some AtSetblocking | None => true
  | _ => false
  end.

(** ** The script *)

Record power_on : Type := PowerOn {
  init_failed : option stage;
  ticks_ms : Z;
  isconnected : nat -> bool;
  ifconfig : string;
  socket_failed : option socket_stage
}.

(** Whether lines 70-76 all returned. *)
Definition socket_ok (p : power_on) : bool :=
  if socket_failed p is None then true else false.

Inductive execution (D : Type) : Type :=
| Stopped (e : exn)
| Running (srv : server D).

Arguments Stopped {D} e.
Arguments Running {D} srv.

Section Main.
Context {R D : Type} `{Detector R D}.

(** Lines 16-171 on the first turns of the loop: the way the program
    ends or the state it is in, what [connect_wifi] did and what the rest
    of the script did. *)
Definition main (fuel : nat) (SSID : string) (p : power_on)
    (inputs : list (input R)) : option (execution D * list wifi_event * list event) :=
  let last_gyro_update_ms := ticks_ms p in
  let drawn := initialise (init_failed p) in
  '(result, wifi) ← connect_wifi fuel (bound_display (init_failed p)) SSID
                      (isconnected p) (ifconfig p);
  match result with
  | Raise e => Some (Stopped e, wifi, drawn)
  | Ok ip_addr =>
      if socket_ok p then
        let (srv, events) := loop inputs (boot ip_addr last_gyro_update_ms) in
        Some (Running srv, wifi, drawn ++ events)
      else Some (Stopped OSError, wifi, drawn)
  end.

(** The script as the repository has it: [connect_wifi] reads the [SSID]
    of line 10. *)
Definition script (fuel : nat) (p : power_on) (inputs : list (input R))
    : option (execution D * list wifi_event * list event) :=
  main fuel SSID p inputs.

(** ** Counting requests and replies *)

Definition is_request (i : input R) : bool :=
  match socket i with Connection (Request _) => true | _ => false end.

Definition is_connection (i : input R) : bool :=
  match socket i with Connection _ => true | AcceptOSError _ => false end.

Definition is_send (e : event) : bool :=
  match e with Send _ => true | _ => false end.

Definition is_close (e : event) : bool :=
  match e with Close => true | _ => false end.

Definition requests (inputs : list (input R)) : nat :=
  length (filter is_request inputs).

Definition connections (inputs : list (input R)) : nat :=
  length (filter is_connection inputs).

Definition replies (events : list event) : nat := length (filter is_send events).

Definition closes (events : list event) : nat := length (filter is_close events).

End Main.

(** ** Initialisation *)

(** The display exists only if the sensor does: the loop never reads an
    unbound [accel_sensor]. *)
Lemma bound_display_sensor failed :
  bound_display failed = true -> bound_accel_sensor failed = true.
Proof. by destruct failed as [[]|]. Qed.

Lemma bound_display_false failed :
  bound_display failed = false <-> exists st, failed = Some st /\ st <> AtDrawing.
Proof.
  split; [|by intros ([] & -> & ?)].
  destruct failed as [[]|]; try done; eauto.
Qed.

Lemma replies_app es es' : replies (es ++ es') = (replies es + replies es')%nat.
Proof. unfold replies. by rewrite filter_app, length_app. Qed.

Lemma closes_app es es' : closes (es ++ es') = (closes es + closes es')%nat.
Proof. unfold closes. by rewrite filter_app, length_app. Qed.

Section MainLaws.
Context {R D : Type} `{DetectorLaws R D}.
Implicit Types (srv : server D) (i : input R) (p : power_on).

(** ** From power-on to the loop *)

Lemma main_unfold fuel SSID p inputs result wifi :
  connect_wifi fuel (bound_display (init_failed p)) SSID (isconnected p) (ifconfig p)
  = Some (result, wifi) ->
  main fuel SSID p inputs =
  Some (match result with
        | Raise e => Stopped e
        | Ok ip => if socket_ok p
                   then Running (loop inputs (boot ip (ticks_ms p))).1
                   else Stopped OSError
        end, wifi,
        initialise (init_failed p)
        ++ match result with
           | Ok ip => if socket_ok p then (loop inputs (boot ip (ticks_ms p))).2 else []
           | Raise _ => []
           end).
Proof.
  intros Hc. unfold main. rewrite Hc. cbn [mbind option_bind].
  destruct result as [ip|e]; [|by rewrite app_nil_r].
  destruct (socket_ok p); [|by rewrite app_nil_r].
  by destruct (loop inputs _).
Qed.

(** The program from power-on.  With fuel for the wait it ends in one
    of four ways: it is in the loop, in a state that satisfies the loop's
    invariant, and then the display and the sensor exist and the socket is
    set up; or it has stopped with [NameError] because the initialisation
    did not get as far as the display, without having tried to connect; or
    with [RuntimeError] after the wait; or with [OSError] from the call of
    the socket set-up that raised. *)
Theorem main_outcome fuel SSID p inputs :
  (20 < fuel)%nat ->
  exists r wifi events,
    main fuel SSID p inputs = Some (r, wifi, events)
    /\ 0 <= seconds_slept wifi <= 20
    /\ match r with
       | Running srv =>
           srv = (loop inputs (boot (ifconfig p) (ticks_ms p))).1
           /\ server_ok srv
           /\ bound_display (init_failed p) = true
           /\ bound_accel_sensor (init_failed p) = true
           /\ socket_failed p = None
       | Stopped e =>
           e = NameError /\ bound_display (init_failed p) = false /\ wifi = []
           \/ e = RuntimeError /\ bound_display (init_failed p) = true
           \/ e = OSError /\ bound_display (init_failed p) = true
              /\ exists failed, socket_failed p = Some failed
       end.
Proof.
  intros Hfuel. destruct (bound_display (init_failed p)) eqn:Ed.
  - destruct (connect_wifi_ends fuel SSID (isconnected p) (ifconfig p) Hfuel)
      as (k & wifi & Hc & Hs & _).
    rewrite <- Ed in Hc. rewrite (main_unfold _ _ _ _ _ _ Hc).
    eexists _, wifi, _. split; [done|]. split; [done|].
    destruct (isconnected p k); [|auto]. unfold socket_ok.
    destruct (socket_failed p) as [failed|]; [eauto 6|].
    split_and!; try done; [apply loop_ok, boot_ok | by apply bound_display_sensor].
  - rewrite (main_unfold _ _ _ _ (Raise NameError) []) by by rewrite Ed.
    eexists _, _, _. split; [done|]. cbn. split; [lia | auto].
Qed.

(** ** Every request is answered *)

Lemma sensor_update_quiet i srv :
  replies (sensor_update i srv).2 = 0%nat /\ closes (sensor_update i srv).2 = 0%nat.
Proof.
  unfold sensor_update. destruct (_ <? _); [|done].
  destruct (sensor i) as [ax ay az|]; [|done].
  destruct (d_process_sample _ _ _ _) as [[|] k1]; [|done].
  destruct (d_get_step_count k1) as [[|] k2]; [|done].
  by destruct (display_ok i).
Qed.

Lemma serve_counts r srv :
  replies (serve r srv).2 = (if r is Request _ then 1 else 0)%nat
  /\ closes (serve r srv).2 = 1%nat.
Proof.
  destruct r as [request| |]; [|done..]. rewrite serve_request, route_classify.
  destruct (classify _); cbn [dumps_steps render]; try done.
Qed.

Lemma turn_counts i srv :
  replies (turn i srv).2 = (if is_request i then 1 else 0)%nat
  /\ closes (turn i srv).2 = (if is_connection i then 1 else 0)%nat.
Proof.
  unfold turn, is_request, is_connection.
  destruct (sensor_update_quiet i srv) as [Hr Hc].
  destruct (sensor_update i srv) as [srv1 shown]. cbn [snd] in *.
  destruct (socket i) as [errno|r].
  - cbn [snd]. rewrite replies_app, closes_app, Hr, Hc. done.
  - destruct (serve_counts r srv1) as [Hr' Hc'].
    destruct (serve r srv1) as [srv2 served]. cbn [snd] in *.
    rewrite replies_app, closes_app, Hr, Hc, Hr', Hc'. by destruct r.
Qed.

Lemma loop_counts inputs srv :
  replies (loop inputs srv).2 = requests inputs
  /\ closes (loop inputs srv).2 = connections inputs.
Proof.
  revert srv. induction inputs as [|i inputs IH]; intros srv; [done|].
  cbn [loop]. destruct (turn_counts i srv) as [Hr Hc].
  destruct (turn i srv) as [srv1 events]. specialize (IH srv1).
  destruct (loop inputs srv1) as [srv2 later]. cbn [snd] in *.
  rewrite replies_app, closes_app, Hr, Hc, (proj1 IH), (proj2 IH).
  unfold requests, connections. rewrite !filter_cons.
  by destruct (is_request i), (is_connection i).
Qed.

(** C25: every request the loop receives is answered, and every
    connection it accepts is closed: along any run the loop sends as many
    replies as requests came in and closes as many connections as it
    accepted, whatever the detector and the sensor did in between. *)
Theorem loop_replies inputs srv :
  replies (loop inputs srv).2 = requests inputs
  /\ closes (loop inputs srv).2 = connections inputs.
Proof. apply loop_counts. Qed.

End MainLaws.
