(* ===== verification/Faults.v ===== *)
(** * Faults: the exceptions that end the loop

    The loop of [src/main.py] catches what the sensor, the display and the
    socket raise, but not what its own handlers raise.  Two handlers read
    [e.args[0]] (lines 110 and 162), which raises [IndexError] when the
    [OSError] has no arguments, and the [finally] clause calls
    [conn.close()] unprotected (line 170).  An exception that leaves a
    handler or the [finally] clause reaches the top level and ends the
    program.

    A [fault] says which of these happens in a turn; [turn_with] is the
    turn under a fault, [loop_with] the loop until an exception leaves it
    and [main_with] the script with that loop.  Without a fault
    [loop_with] is [loop]; with one, the program stops with [IndexError] or
    [OSError], in a state that satisfies the invariant of the loop, and the
    connection of the turn has been closed, or [close] was the call that
    raised.  A [sendall] that fails with its [errno] is a fault too: its
    handler swallows it and the loop goes on. *)

From Stdlib Require Import ZArith String Lia.
From stdpp Require Import base tactics list strings.
From S2P Require Import Prelude Text Interface Clock Wifi Server Replies Loop Main.

#[local] Open Scope Z_scope.

(** What goes wrong in a turn beyond what the inputs of [Server] say:
    the [OSError] of [accept] has no arguments; the [OSError] of
    [settimeout] or [recv] has none; [sendall] raises [OSError], with its
    [errno] or without arguments; [conn.close()] raises. *)
Inductive fault : Type :=
| NoFault
| AcceptNoArgs
| RecvNoArgs
| SendFails (errno : option Z)
| CloseFails.

#[export] Instance fault_eq_dec : EqDecision fault.
Proof. solve_decision. Defined.

(** Whether [sendall] was called. *)
Definition sent (served : list event) : bool := existsb is_send served.

(** Lines 120-171: the exception that leaves the handling of a connection,
    if one does.  [IndexError] comes from [e.args[0]] in the handler of
    line 161, after the [finally] clause has closed the connection;
    [OSError] from [conn.close()] itself. *)
Definition raised (f : fault) (r : received) (served : list event) : option exn :=
  match f with
  | RecvNoArgs => if r is RecvOSError _ then Some IndexError else None
  | SendFails None => if sent served then Some IndexError else None
  | CloseFails => Some OSError
  | NoFault | AcceptNoArgs | SendFails (Some _) => None
  end.

Section Faults.
Context {R D : Type} `{Detector R D}.

(** Lines 82-171: one turn under a fault.  The state and the events are
    those of [turn], but for the sleep that [e.args[0]] of line 110 never
    reaches. *)
Definition turn_with (f : fault) (i : input R) (srv : server D)
    : server D * list event * option exn :=
  let (srv1, shown) := sensor_update i srv in
  match socket i with
  | AcceptOSError errno =>
      if decide (f = AcceptNoArgs) then (srv1, shown, Some IndexError)
      else (srv1, shown ++ [Sleep (if would_block errno then 1 else 1000)], None)
  | Connection r =>
      let (srv2, served) := serve r srv1 in
      (srv2, shown ++ served, raised f r served)
  end.

(** Line 81: the loop until an exception leaves it. *)
Fixpoint loop_with (inputs : list (fault * input R)) (srv : server D)
    : server D * list event * option exn :=
  match inputs with
  | [] => (srv, [], None)
  | (f, i) :: inputs =>
      let '(srv1, events, stop) := turn_with f i srv in
      match stop with
      | Some e => (srv1, events, Some e)
      | None =>
          let '(srv2, later, stop') := loop_with inputs srv1 in
          (srv2, events ++ later, stop')
      end
  end.

(** The turns [loop_with] has gone through, the one that raised included. *)
Fixpoint ran (inputs : list (fault * input R)) (srv : server D) : nat :=
  match inputs with
  | [] => 0
  | (f, i) :: inputs =>
      let '(srv1, _, stop) := turn_with f i srv in
      match stop with
      | Some _ => 1
      | None => S (ran inputs srv1)
      end
  end.

(** Lines 16-171 under faults: [main] with [loop_with] for the loop. *)
Definition main_with (fuel : nat) (SSID : string) (p : power_on)
    (inputs : list (fault * input R))
    : option (execution D * list wifi_event * list event) :=
  let drawn := initialise (init_failed p) in
  '(result, wifi) ← connect_wifi fuel (bound_display (init_failed p)) SSID
                      (isconnected p) (ifconfig p);
  match result with
  | Raise e => Some (Stopped e, wifi, drawn)
  | Ok ip_addr =>
      if socket_ok p then
        let '(srv, events, stop) := loop_with inputs (boot ip_addr (ticks_ms p)) in
        Some (match stop with Some e => Stopped e | None => Running srv end,
              wifi, drawn ++ events)
      else Some (Stopped OSError, wifi, drawn)
  end.

End Faults.

Section FaultLaws.
Context {R D : Type} `{DetectorLaws R D}.
Implicit Types (srv : server D) (i : input R) (f : fault).

(** ** One turn *)

Lemma turn_with_state f i srv : (turn_with f i srv).1.1 = (turn i srv).1.
Proof.
  unfold turn_with, turn. destruct (sensor_update i srv) as [srv1 shown].
  destruct (socket i) as [errno|r]; [by case_decide|]. by destruct (serve r srv1).
Qed.

(** A turn that no exception leaves is the turn of [Server]. *)
Lemma turn_with_quiet f i srv :
  (turn_with f i srv).2 = None -> (turn_with f i srv).1 = turn i srv.
Proof.
  unfold turn_with, turn. destruct (sensor_update i srv) as [srv1 shown].
  destruct (socket i) as [errno|r]; [by case_decide|]. by destruct (serve r srv1).
Qed.

Lemma turn_with_NoFault i srv : turn_with NoFault i srv = (turn i srv, None).
Proof.
  unfold turn_with, turn. destruct (sensor_update i srv) as [srv1 shown].
  destruct (socket i) as [errno|r]; [done|]. by destruct (serve r srv1).
Qed.

(** A received request reaches [sendall]. *)
Lemma sent_replies served : replies served <> 0%nat -> sent served = true.
Proof.
  unfold replies, sent. induction served as [|e served IH]; [done|].
  rewrite filter_cons. cbn [existsb]. destruct (is_send e); [done|].
  case_decide as Hd; [destruct Hd | exact IH].
Qed.

Lemma sent_request request srv : sent (serve (Request request) srv).2 = true.
Proof.
  apply sent_replies. by rewrite (proj1 (serve_counts (Request request) srv)).
Qed.

Lemma sent_no_request r srv :
  (if r is Request _ then False else True) -> sent (serve r srv).2 = false.
Proof. by destruct r. Qed.

(** The exceptions that leave a turn, each with its cause. *)
Lemma turn_with_stop f i srv e :
  (turn_with f i srv).2 = Some e <->
  (f = AcceptNoArgs /\ (exists errno, socket i = AcceptOSError errno) /\ e = IndexError)
  \/ (f = RecvNoArgs /\ (exists errno, socket i = Connection (RecvOSError errno))
      /\ e = IndexError)
  \/ (f = SendFails None /\ (exists request, socket i = Connection (Request request))
      /\ e = IndexError)
  \/ (f = CloseFails /\ (exists r, socket i = Connection r) /\ e = OSError).
Proof.
  unfold turn_with. destruct (sensor_update i srv) as [srv1 shown].
  destruct (socket i) as [errno|r].
  - case_decide; cbn [snd]; split; try naive_solver.
  - pose proof (sent_request) as Hs. pose proof (sent_no_request r srv1) as Hn.
    destruct r as [request| |]; [specialize (Hs request srv1)|..];
      destruct (serve _ srv1) as [srv2 served]; cbn [snd] in *;
      destruct f as [| | |[code|]|]; cbn [raised]; rewrite ?Hs, ?Hn by done;
      split; naive_solver.
Qed.

(** Every accepted connection is closed, under any fault: [close] is
    called in the [finally] clause. *)
Lemma turn_with_closes f i srv :
  closes (turn_with f i srv).1.2 = (if is_connection i then 1 else 0)%nat.
Proof.
  destruct (turn_counts i srv) as [_ Hc]. revert Hc. unfold turn_with, turn, is_connection.
  destruct (sensor_update_quiet i srv) as [_ Hq].
  destruct (sensor_update i srv) as [srv1 shown]. cbn [snd] in Hq.
  destruct (socket i) as [errno|r]; [by case_decide|]. by destruct (serve r srv1).
Qed.

(** ** The loop *)

Lemma turn_with_ok f i srv : server_ok srv -> server_ok (turn_with f i srv).1.1.
Proof. intros Hok. rewrite turn_with_state. by apply turn_ok. Qed.

Lemma run_ok inputs srv : server_ok srv -> server_ok (loop_with inputs srv).1.1.
Proof.
  revert srv. induction inputs as [|[f i] inputs IH]; intros srv Hok; [done|].
  cbn [loop_with]. pose proof (turn_with_ok f i srv Hok) as Hok1.
  destruct (turn_with f i srv) as [[srv1 events] [e|]]; [done|].
  specialize (IH srv1 Hok1). by destruct (loop_with inputs srv1) as [[srv2 later] stop].
Qed.

(** A run that no exception leaves is the loop on the same inputs. *)
Lemma run_quiet inputs srv :
  (loop_with inputs srv).2 = None -> (loop_with inputs srv).1 = loop (map snd inputs) srv.
Proof.
  revert srv. induction inputs as [|[f i] inputs IH]; intros srv; [done|].
  cbn [loop_with map loop snd]. pose proof (turn_with_quiet f i srv) as Hq.
  destruct (turn_with f i srv) as [[srv1 events] [e|]]; [done|].
  rewrite <- Hq by done. specialize (IH srv1).
  destruct (loop_with inputs srv1) as [[srv2 later] stop]. cbn [fst snd] in *.
  intros ->. by rewrite <- IH.
Qed.

Lemma run_faultless inputs srv :
  loop_with (map (pair NoFault) inputs) srv = (loop inputs srv, None).
Proof.
  revert srv. induction inputs as [|i inputs IH]; intros srv; [done|].
  cbn [map loop_with loop]. rewrite turn_with_NoFault. destruct (turn i srv) as [srv1 events].
  rewrite IH. by destruct (loop inputs srv1).
Qed.

(** The exception that leaves a run left its last turn. *)
Lemma run_stop inputs srv e :
  (loop_with inputs srv).2 = Some e ->
  exists before f i srv1,
    take (ran inputs srv) inputs = before ++ [(f, i)]
    /\ loop_with before srv = (loop (map snd before) srv, None)
    /\ srv1 = (loop (map snd before) srv).1
    /\ (turn_with f i srv1).2 = Some e.
Proof.
  revert srv. induction inputs as [|[f i] inputs IH]; intros srv; [done|].
  cbn [loop_with ran]. pose proof (turn_with_quiet f i srv) as Hq.
  destruct (turn_with f i srv) as [[srv1 events] [e'|]] eqn:Et.
  - intros [= ->]. exists [], f, i, srv. by rewrite Et.
  - specialize (Hq eq_refl). cbn [fst] in Hq. specialize (IH srv1).
    destruct (loop_with inputs srv1) as [[srv2 later] stop]. cbn [snd] in *.
    intros ->. destruct (IH eq_refl) as (before & f' & i' & srv' & Ht & Hr & -> & Hs).
    exists ((f, i) :: before), f', i', (loop (map snd before) srv1).1.
    cbn [take app map loop_with loop snd]. rewrite Ht, Et, Hr, <- Hq.
    split_and!; try done; by destruct (loop (map snd before) srv1).
Qed.

Lemma run_closes inputs srv :
  closes (loop_with inputs srv).1.2 = connections (map snd (take (ran inputs srv) inputs)).
Proof.
  revert srv. induction inputs as [|[f i] inputs IH]; intros srv; [done|].
  cbn [loop_with ran]. pose proof (turn_with_closes f i srv) as Hc.
  destruct (turn_with f i srv) as [[srv1 events] [e|]]; cbn [fst snd take map] in *.
  - rewrite take_0. cbn [map snd]. unfold connections. rewrite filter_cons, Hc.
    by destruct (is_connection i).
  - specialize (IH srv1). destruct (loop_with inputs srv1) as [[srv2 later] stop].
    cbn [fst snd] in *. rewrite closes_app, Hc, IH. unfold connections.
    rewrite filter_cons. by destruct (is_connection i).
Qed.

(** Only [IndexError] and [OSError] leave a run. *)
Lemma run_raises inputs srv e :
  (loop_with inputs srv).2 = Some e -> e = IndexError \/ e = OSError.
Proof.
  intros Hs. destruct (run_stop inputs srv e Hs) as (before & f & i & srv1 & Ht & _ & _ & He).
  apply turn_with_stop in He. naive_solver.
Qed.

(** C14: the exceptions that end the loop.  When an exception leaves a
    run it is [IndexError] or [OSError]; it left the last turn the run
    went through, for one of four causes: [e.args[0]] on an [OSError]
    without arguments from [accept], from [recv] or from [sendall], or
    [conn.close()] raising; the state satisfies the invariant of the loop;
    and [close] has been called on every connection accepted, the last
    included. *)
Theorem run_stops inputs srv e :
  server_ok srv ->
  (loop_with inputs srv).2 = Some e ->
  (e = IndexError \/ e = OSError)
  /\ server_ok (loop_with inputs srv).1.1
  /\ closes (loop_with inputs srv).1.2 = connections (map snd (take (ran inputs srv) inputs))
  /\ exists before f i,
       take (ran inputs srv) inputs = before ++ [(f, i)]
       /\ (f = AcceptNoArgs /\ is_connection i = false /\ e = IndexError
           \/ f = RecvNoArgs /\ is_connection i = true /\ e = IndexError
           \/ f = SendFails None /\ is_request i = true /\ e = IndexError
           \/ f = CloseFails /\ is_connection i = true /\ e = OSError).
Proof.
  intros Hok Hs. destruct (run_stop inputs srv e Hs) as (before & f & i & srv1 & Ht & _ & _ & He).
  apply turn_with_stop in He. split_and!; [naive_solver | by apply run_ok | apply run_closes|].
  exists before, f, i. split; [done|]. unfold is_connection, is_request.
  destruct He as [(-> & [? ->] & ->)|[(-> & [? ->] & ->)|[(-> & [? ->] & ->)|(-> & [? ->] & ->)]]];
    auto 6.
Qed.

(** ** From power-on *)

(** C22: the ways the program ends.  From power-on, with fuel for the
    wait and under any faults, the program has slept at most 20 seconds in
    [connect_wifi] and then it is in the loop, in the state the loop of
    [Server] reaches on the same inputs, with the display and the sensor
    created and the socket set up; or it has stopped: with [NameError],
    without having tried to connect, when the initialisation did not get
    as far as the display; with [RuntimeError] after the wait; with
    [OSError] from the call of the socket set-up that raised; or with the
    [IndexError] or [OSError] that left the loop. *)
Theorem main_with_outcome fuel SSID (p : power_on) inputs :
  (20 < fuel)%nat ->
  exists r wifi events,
    main_with fuel SSID p inputs = Some (r, wifi, events)
    /\ 0 <= seconds_slept wifi <= 20
    /\ match r with
       | Running srv =>
           srv = (loop (map snd inputs) (boot (ifconfig p) (ticks_ms p))).1
           /\ server_ok srv
           /\ bound_display (init_failed p) = true
           /\ bound_accel_sensor (init_failed p) = true
           /\ socket_failed p = None
       | Stopped e =>
           e = NameError /\ bound_display (init_failed p) = false /\ wifi = []
           \/ e = RuntimeError /\ bound_display (init_failed p) = true
           \/ e = OSError /\ bound_display (init_failed p) = true
              /\ (exists failed, socket_failed p = Some failed)
           \/ (e = IndexError \/ e = OSError) /\ socket_failed p = None
              /\ (loop_with inputs (boot (ifconfig p) (ticks_ms p))).2 = Some e
       end.
Proof.
  intros Hfuel. unfold main_with. destruct (bound_display (init_failed p)) eqn:Ed.
  - destruct (connect_wifi_ends fuel SSID (isconnected p) (ifconfig p) Hfuel)
      as (k & wifi & -> & Hslept & _). cbn [mbind option_bind].
    destruct (isconnected p k);
      [|eexists _, _, _; do 2 (split; [done|]); cbv beta iota; auto 7].
    unfold socket_ok. destruct (socket_failed p) as [failed|];
      [eexists _, _, _; do 2 (split; [done|]); cbv beta iota; eauto 8|].
    pose proof (run_ok inputs (boot (ifconfig p) (ticks_ms p)) (boot_ok _ _)) as Hok.
    pose proof (run_quiet inputs (boot (ifconfig p) (ticks_ms p))) as Hq.
    pose proof (run_raises inputs (boot (ifconfig p) (ticks_ms p))) as Hs.
    destruct (loop_with inputs _) as [[srv events] [e|]]; cbn [fst snd] in *;
      cbv beta iota; eexists _, _, _; do 2 (split; [done|]); cbv beta iota.
    + do 3 right. auto.
    + rewrite <- Hq by done. split_and!; try done. by apply bound_display_sensor.
  - eexists _, _, _. do 2 (split; [by cbn|]). cbv beta iota. auto.
Qed.

End FaultLaws.
