(* ===== verification/Api.v ===== *)
(** * Api: what a client of the HTTP interface is told

    The interface promises the detector's count in the body of the reply
    to [GET /steps].  The loop answers from the global [steps], a copy of
    the count that the sensor branch refreshes.  [fresh] says that the copy
    is the count.  It holds at boot, every sensor update establishes it,
    and the routes that do not touch the count keep it; while it holds the
    reply to [/steps] carries the detector's count.  The routes [/zeruj]
    and [/dodaj] change the count without refreshing the copy: they are
    the only turns after which a client can be told something else. *)

From Stdlib Require Import ZArith String Lia.
From stdpp Require Import base tactics list strings.
From S2P Require Import Prelude Text Interface Clock Wifi Server Replies Loop.

#[local] Open Scope Z_scope.

Section Api.
Context {R D : Type} `{DetectorLaws R D}.
Implicit Types (srv : server D) (i : input R).

(** What the request of a turn asks for, if the turn has one. *)
Definition asked i : option kind_of_request :=
  match socket i with
  | Connection (Request request) => Some (classify (before crlf request))
  | _ => None
  end.

(** Whether the request of a turn changes the count. *)
Definition changes_count i : bool :=
  bool_decide (asked i = Some Zeruj \/ asked i = Some Dodaj).

(** The copy of the count is the count. *)
Definition fresh srv : Prop := steps srv = Some (count (krokomierz srv)).

(** Whether the sensor branch of a turn takes a sample. *)
Definition samples i srv : bool :=
  (GYRO_UPDATE_INTERVAL_MS <? ticks_diff (current_time i) (last_gyro_update_ms srv))
  && (if sensor i is Reading _ _ _ then true else false).

Lemma boot_fresh ip t0 : fresh (boot ip t0).
Proof. unfold fresh, boot. cbn. by rewrite count_new. Qed.

(** ** The sensor branch *)

Lemma sensor_update_skip i srv : samples i srv = false -> (sensor_update i srv).1 = srv.
Proof.
  unfold samples, sensor_update. destruct (_ <? _); [|done].
  by destruct (sensor i).
Qed.

Lemma sensor_update_refresh i srv :
  valid (krokomierz srv) -> samples i srv = true -> fresh (sensor_update i srv).1.
Proof.
  unfold samples. intros Hv [Ht Hs]%andb_prop. apply Z.ltb_lt in Ht.
  destruct (sensor i) as [ax ay az|] eqn:Es; [|done].
  rewrite (sensor_update_reading i srv ax ay az) by done.
  by destruct (display_ok i).
Qed.

Lemma sensor_update_fresh i srv :
  valid (krokomierz srv) -> fresh srv -> fresh (sensor_update i srv).1.
Proof.
  intros Hv Hf. destruct (samples i srv) eqn:Es;
    [by apply sensor_update_refresh | by rewrite sensor_update_skip].
Qed.

(** ** The routes *)

Lemma serve_keeps r srv :
  (if r is Request request
   then classify (before crlf request) <> Zeruj
        /\ classify (before crlf request) <> Dodaj
   else True) ->
  (serve r srv).1 = srv.
Proof.
  destruct r as [request| |]; [|done..]. intros [Hz Hd].
  rewrite serve_request, route_classify. by destruct (classify _).
Qed.

Lemma turn_state i srv :
  changes_count i = false -> (turn i srv).1 = (sensor_update i srv).1.
Proof.
  unfold changes_count, asked, turn. intros Hc%bool_decide_eq_false.
  destruct (sensor_update i srv) as [srv1 shown]. cbn [fst].
  destruct (socket i) as [errno|r]; [done|].
  pose proof (serve_keeps r srv1) as Hk. destruct (serve r srv1) as [srv2 served].
  cbn [fst] in *. apply Hk. destruct r; [|done..].
  split; intros Hr; apply Hc; rewrite Hr; auto.
Qed.

Lemma turn_fresh i srv :
  server_ok srv -> changes_count i = false -> fresh srv -> fresh (turn i srv).1.
Proof. intros [Hv _] Hc Hf. rewrite turn_state by done. by apply sensor_update_fresh. Qed.

Lemma fresh_loop inputs srv :
  server_ok srv -> Forall (fun i => changes_count i = false) inputs ->
  fresh srv -> fresh (loop inputs srv).1.
Proof.
  revert srv. induction inputs as [|i inputs IH]; intros srv Hok Hc Hf; [done|].
  apply Forall_cons in Hc as [Hi Hc]. cbn [loop].
  pose proof (turn_ok i srv Hok) as Hok1. pose proof (turn_fresh i srv Hok Hi Hf) as Hf1.
  destruct (turn i srv) as [srv1 events]. specialize (IH srv1 Hok1 Hc Hf1).
  by destruct (loop inputs srv1).
Qed.

(** The reply of a turn to [GET /steps]. *)
Lemma turn_get_steps i srv request :
  socket i = Connection (Request request) ->
  classify (before crlf request) = GetSteps ->
  exists response,
    (turn i srv).2 = (sensor_update i srv).2 ++ [Send response; Close]
    /\ body_of response = Some (dumps_steps (steps (sensor_update i srv).1))
    /\ (turn i srv).1 = (sensor_update i srv).1.
Proof.
  intros Hs Hc. unfold turn. destruct (sensor_update i srv) as [srv1 shown].
  rewrite Hs, serve_request, route_classify, Hc. cbn [fst snd].
  destruct (render_body "200 OK" (dumps_steps (steps srv1)))
    as (response & -> & _ & Hb & _); [auto | apply occurs_dumps_steps|].
  by exists response.
Qed.

(** C17: while the copy is fresh, and in every turn in which the sensor
    branch takes a sample, a client that asks for the count is told the
    detector's count, and the copy stays fresh. *)
Theorem steps_reply_current i srv request :
  server_ok srv ->
  fresh srv \/ samples i srv = true ->
  socket i = Connection (Request request) ->
  classify (before crlf request) = GetSteps ->
  exists shown response,
    (turn i srv).2 = shown ++ [Send response; Close]
    /\ body_of response
       = Some (dumps_steps (Some (count (krokomierz (turn i srv).1))))
    /\ fresh (turn i srv).1.
Proof.
  intros [Hv _] Hf Hs Hc.
  destruct (turn_get_steps i srv request Hs Hc) as (response & -> & Hb & ->).
  assert (fresh (sensor_update i srv).1) as Hf'
    by (destruct Hf; [by apply sensor_update_fresh | by apply sensor_update_refresh]).
  exists (sensor_update i srv).2, response. by rewrite Hb, Hf'.
Qed.

(** From boot, as long as no request is [/zeruj] or [/dodaj], the
    copy the replies are built from is the detector's count after every
    turn. *)
Theorem loop_fresh ip t0 inputs :
  Forall (fun i => changes_count i = false) inputs ->
  fresh (loop inputs (boot ip t0)).1.
Proof. intros Hc. apply fresh_loop; [apply boot_ok | done | apply boot_fresh]. Qed.

(** The two routes that change the count leave the copy stale: after
    [/dodaj] it is [None], and after [/zeruj] it is fresh only if the count
    was 0 already. *)
Lemma turn_stale i srv :
  server_ok srv -> fresh (sensor_update i srv).1 ->
  (asked i = Some Dodaj -> ~ fresh (turn i srv).1)
  /\ (asked i = Some Zeruj ->
      fresh (turn i srv).1 -> count (krokomierz (sensor_update i srv).1) = 0).
Proof.
  intros Hok Hf. unfold asked, turn, fresh in *.
  destruct (sensor_update i srv) as [srv1 shown]. cbn [fst] in *.
  destruct (socket i) as [errno|[request| |]]; try done.
  rewrite serve_request, route_classify.
  split; intros [= ->]; cbn [fst steps krokomierz]; [done|].
  rewrite Hf. intros [= ->]. by apply reset_step_count_law.
Qed.

End Api.
