(* ===== verification/Rate.v ===== *)
(** * Rate: how often the detector is fed

    The sensor branch runs when [ticks_diff] of the clock and the mark
    [last_gyro_update_ms] exceeds [GYRO_UPDATE_INTERVAL_MS], and a
    successful update moves the mark to the clock.  So as long as the
    display works, two samples are more than 50 ms apart, and a run that
    lasts [d] ms feeds the detector at most [d / 51] samples.  The clock
    of the board wraps at [TICKS_PERIOD]: the theorem is stated for the
    true times of the turns, of which the loop sees the residues, and
    holds across the wrap as long as the run is shorter than half a
    period. *)

From Stdlib Require Import ZArith String Lia.
From stdpp Require Import base tactics list strings.
From S2P Require Import Prelude Text Interface Clock Wifi Server Replies Loop Api.

#[local] Open Scope Z_scope.

(** ** Times of turns *)

(** Times that do not go back, from [m] on. *)
Fixpoint ascending (m : Z) (ts : list Z) : Prop :=
  match ts with
  | [] => True
  | t :: ts => m <= t /\ ascending t ts
  end.

(** The time of the last turn, [m] when there is none. *)
Fixpoint final (m : Z) (ts : list Z) : Z :=
  match ts with
  | [] => m
  | t :: ts => final t ts
  end.

Lemma ascending_final m ts : ascending m ts -> m <= final m ts.
Proof.
  revert m. induction ts as [|t ts IH]; intros m; [done|]. intros [Hm Hts].
  specialize (IH t Hts). cbn [final]. lia.
Qed.

Lemma ascending_weaken m m' ts : m' <= m -> ascending m ts -> ascending m' ts.
Proof. destruct ts; [done|]. intros Hm [Ht Hts]. split; [lia | done]. Qed.

Lemma final_ascending m m' ts : ascending m ts -> m' <= m -> final m' ts <= final m ts.
Proof. destruct ts; [cbn; lia | done]. Qed.

Section Rate.
Context {R D : Type} `{DetectorLaws R D}.
Implicit Types (srv : server D) (i : input R).

(** The number of samples a run feeds the detector. *)
Fixpoint taken (inputs : list (input R)) srv : nat :=
  match inputs with
  | [] => 0
  | i :: inputs => (if samples i srv then 1 else 0) + taken inputs (turn i srv).1
  end.

(** ** The mark *)

Lemma serve_mark r srv :
  last_gyro_update_ms (serve r srv).1 = last_gyro_update_ms srv.
Proof.
  destruct r as [request| |]; [|done..]. rewrite serve_request, route_classify.
  by destruct (classify _).
Qed.

Lemma turn_mark i srv :
  last_gyro_update_ms (turn i srv).1 = last_gyro_update_ms (sensor_update i srv).1.
Proof.
  unfold turn. destruct (sensor_update i srv) as [srv1 shown]. cbn [fst].
  destruct (socket i) as [errno|r]; [done|].
  pose proof (serve_mark r srv1). by destruct (serve r srv1).
Qed.

(** A turn moves the mark to the clock when it takes a sample and draws
    it, and leaves it otherwise. *)
Lemma turn_mark_cases i srv :
  valid (krokomierz srv) ->
  last_gyro_update_ms (turn i srv).1
  = if samples i srv && display_ok i then current_time i else last_gyro_update_ms srv.
Proof.
  intros Hv. rewrite turn_mark. destruct (samples i srv) eqn:Es;
    [|by rewrite sensor_update_skip].
  unfold samples in Es. apply andb_prop in Es as [Ht Hs]. apply Z.ltb_lt in Ht.
  destruct (sensor i) as [ax ay az|] eqn:Er; [|done].
  rewrite (sensor_update_reading i srv ax ay az) by done.
  by destruct (display_ok i).
Qed.

(** ** The bound *)

Lemma taken_bound inputs : forall srv m ts,
  server_ok srv ->
  last_gyro_update_ms srv = m mod TICKS_PERIOD ->
  map current_time inputs = map (fun t => t mod TICKS_PERIOD) ts ->
  ascending m ts ->
  final m ts - m < TICKS_PERIOD / 2 ->
  Forall (fun i => display_ok i = true) inputs ->
  (GYRO_UPDATE_INTERVAL_MS + 1) * Z.of_nat (taken inputs srv) <= final m ts - m.
Proof.
  induction inputs as [|i inputs IH]; intros srv m ts Hok Hm Hts Hasc Hlast Hd;
    [destruct ts; [cbn; lia | done]|].
  destruct ts as [|t ts]; [done|]. injection Hts as Ht Hts.
  destruct Hasc as [Hmt Hasc]. apply Forall_cons in Hd as [Hdi Hd].
  cbn [final taken] in *.
  pose proof (ascending_final t ts Hasc) as Hl.
  pose proof (turn_ok i srv Hok) as Hok1.
  pose proof (turn_mark_cases i srv (proj1 Hok)) as Hmark.
  rewrite Hdi, andb_true_r in Hmark.
  destruct (samples i srv) eqn:Es.
  - rewrite Ht in Hmark. specialize (IH _ t ts Hok1 Hmark Hts Hasc ltac:(lia) Hd).
    unfold samples in Es. apply andb_prop in Es as [Hgt _]. apply Z.ltb_lt in Hgt.
    rewrite Hm, Ht, ticks_diff_elapsed in Hgt by lia.
    change GYRO_UPDATE_INTERVAL_MS with 50 in *. lia.
  - rewrite Hm in Hmark.
    specialize (IH _ m ts Hok1 Hmark Hts (ascending_weaken _ _ _ Hmt Hasc)).
    pose proof (final_ascending t m ts Hasc Hmt) as Hf.
    destruct ts as [|t' ts]; [destruct inputs; [cbn; lia | done]|].
    cbn [final] in *. apply IH; [lia | done].
Qed.

(** C16: the sampling rate: while the display works, a run whose turns
    happen at the times [ts], none going back and the last less than half a
    clock period after the mark was set, feeds the detector at most one
    sample per 51 ms of the time that has passed, whether or not the clock
    has wrapped in between. *)
Theorem sampling_rate inputs srv m ts :
  server_ok srv ->
  last_gyro_update_ms srv = m mod TICKS_PERIOD ->
  map current_time inputs = map (fun t => t mod TICKS_PERIOD) ts ->
  ascending m ts ->
  final m ts - m < TICKS_PERIOD / 2 ->
  Forall (fun i => display_ok i = true) inputs ->
  (GYRO_UPDATE_INTERVAL_MS + 1) * Z.of_nat (taken inputs srv) <= final m ts - m.
Proof. apply taken_bound. Qed.

(** Without the display the mark stays where it is: once the interval has
    passed, every turn in which the sensor answers takes a sample. *)
Lemma no_display_no_mark i srv :
  valid (krokomierz srv) -> display_ok i = false ->
  last_gyro_update_ms (turn i srv).1 = last_gyro_update_ms srv.
Proof. intros Hv Hd. by rewrite turn_mark_cases, Hd, andb_false_r. Qed.

End Rate.
