(* ===== verification/Reads.v ===== *)
(** * Reads: what a client sees over time

    A client that polls [GET /steps] reads a sequence of values.  [told]
    is that sequence for a run of the loop: the value of ["steps"] in every
    reply whose body is the JSON object.  As long as no request is
    [/zeruj] or [/dodaj] and the copy of the count was fresh to begin
    with, every value read is an integer, the values never go down, they
    start at the count the detector had and they never run ahead of the
    count it has ([reads_monotone]): a client that only reads sees a
    counter. *)

From Stdlib Require Import ZArith String Lia.
From stdpp Require Import base tactics list strings.
From S2P Require Import Prelude Text Interface Clock Wifi Server Replies Loop Api Rate.

#[local] Open Scope Z_scope.

(** The value of ["steps"] a reply carries, when its body is the JSON
    object. *)
Definition value_of (e : event) : option (option Z) :=
  match e with
  | Send response => body_of response ≫= loads_steps
  | _ => None
  end.

(** The values a client reads along a run. *)
Definition told (events : list event) : list (option Z) := omap value_of events.

Section Reads.
Context {R D : Type} `{DetectorLaws R D}.
Implicit Types (srv : server D) (i : input R).

Lemma told_app events later : told (events ++ later) = told events ++ told later.
Proof. apply omap_app. Qed.

(** The sensor branch sends nothing. *)
Lemma told_sensor_update i srv : told (sensor_update i srv).2 = [].
Proof. unfold sensor_update. by repeat case_match. Qed.

(** What a connection that does not change the count tells the client: the
    copy of the count when asked for it, and nothing otherwise. *)
Lemma told_serve r srv :
  (if r is Request request
   then classify (before crlf request) <> Zeruj
        /\ classify (before crlf request) <> Dodaj
   else True) ->
  told (serve r srv).2
  = if r is Request request
    then if decide (classify (before crlf request) = GetSteps) then [steps srv] else []
    else [].
Proof.
  destruct r as [request| |]; [|done..]. intros [Hz Hd].
  rewrite serve_request, route_classify.
  destruct (classify (before crlf request)); try done; cbn [decide].
  destruct (render_body "200 OK" (dumps_steps (steps srv)))
    as (response & -> & _ & Hb & _); [auto | apply occurs_dumps_steps|].
  unfold told. cbn. by rewrite Hb; cbn; rewrite loads_dumps_steps.
Qed.

Lemma told_turn i srv :
  changes_count i = false ->
  told (turn i srv).2
  = if decide (asked i = Some GetSteps) then [steps (sensor_update i srv).1] else [].
Proof.
  unfold changes_count, asked, turn. intros Hc%bool_decide_eq_false.
  pose proof (told_sensor_update i srv) as Hshown.
  destruct (sensor_update i srv) as [srv1 shown]. cbn [fst snd] in *.
  destruct (socket i) as [errno|r].
  { cbn [snd]. rewrite told_app, Hshown. by case_decide. }
  pose proof (told_serve r srv1) as Hserved. destruct (serve r srv1) as [srv2 served].
  cbn [snd] in *. rewrite told_app, Hshown, Hserved.
  - destruct r as [request| |]; [|by case_decide..].
    cbn [app]. repeat case_decide; congruence.
  - destruct r; [|done..]. split; intros Hr; apply Hc; rewrite Hr; auto.
Qed.

(** The sensor branch never lowers the count. *)
Lemma count_sensor_update i srv :
  valid (krokomierz srv) ->
  count (krokomierz srv) <= count (krokomierz (sensor_update i srv).1).
Proof.
  intros Hv.
  destruct (Z.le_gt_cases (ticks_diff (current_time i) (last_gyro_update_ms srv))
              GYRO_UPDATE_INTERVAL_MS) as [Hd|Hd];
    [by rewrite sensor_update_idle|].
  destruct (sensor i) as [ax ay az|] eqn:Es;
    [|by unfold sensor_update; rewrite Es; destruct (_ <? _)].
  rewrite (sensor_update_reading i srv ax ay az) by (done || lia).
  destruct (process_sample_law ax ay az _ Hv) as (_ & _ & Hc).
  destruct (display_ok i); cbn [fst krokomierz]; lia.
Qed.

Lemma final_mono m m' ts : m <= m' -> final m ts <= final m' ts.
Proof. destruct ts; cbn [final]; lia. Qed.

Lemma reads_loop inputs srv :
  server_ok srv -> fresh srv ->
  Forall (fun i => changes_count i = false) inputs ->
  exists counts,
    told (loop inputs srv).2 = map Some counts
    /\ ascending (count (krokomierz srv)) counts
    /\ final (count (krokomierz srv)) counts <= count (krokomierz (loop inputs srv).1).
Proof.
  revert srv. induction inputs as [|i inputs IH]; intros srv Hok Hf Hc.
  { exists []. cbn. split_and!; [done|done|lia]. }
  apply Forall_cons in Hc as [Hi Hc]. cbn [loop].
  pose proof (turn_ok i srv Hok) as Hok1. pose proof (turn_fresh i srv Hok Hi Hf) as Hf1.
  pose proof (told_turn i srv Hi) as Ht. pose proof (turn_state i srv Hi) as Hs.
  pose proof (count_sensor_update i srv (proj1 Hok)) as Hup.
  rewrite <- Hs in Ht, Hup. destruct (turn i srv) as [srv1 events]. cbn [fst snd] in *.
  destruct (IH srv1 Hok1 Hf1 Hc) as (counts & Et & Ha & Hl).
  destruct (loop inputs srv1) as [srv2 later]. cbn [fst snd] in *.
  rewrite told_app, Ht, Et, Hf1. case_decide.
  - exists (count (krokomierz srv1) :: counts). by split_and!.
  - exists counts. split_and!; [done | by eapply ascending_weaken|].
    etrans; [by apply final_mono|done].
Qed.

(** C18: a client that only reads sees a counter.  Along a run of the loop
    that starts with a fresh copy of the count and serves no [/zeruj] and
    no [/dodaj], every JSON reply carries an integer, the integers read
    never go down from one reply to the next, the first is at least the
    count the detector had and the last at most the count it has. *)
Theorem reads_monotone inputs srv :
  server_ok srv -> fresh srv ->
  Forall (fun i => changes_count i = false) inputs ->
  exists counts,
    told (loop inputs srv).2 = map Some counts
    /\ ascending (count (krokomierz srv)) counts
    /\ final (count (krokomierz srv)) counts <= count (krokomierz (loop inputs srv).1).
Proof. apply reads_loop. Qed.

End Reads.
