(* ===== verification/Board.v ===== *)
(** * Board: the detector behind the server

    [src/main.py] line 79 builds the detector with its default arguments.
    This file shows that [StepDetector] is a lawful [Detector] (valid
    objects are the well-formed ones with positive capacities, the count is
    [step_count]), so every theorem of the file Server holds of the board,
    and relates the loop to the detector's own theory: whatever requests
    arrive, the buffers and the peak machine of [krokomierz] are those of
    [feed] on the readings the sensor branch processed ([loop_feed]). *)

From Stdlib Require Import ZArith String Lia Floats.
From stdpp Require Import base tactics list strings.
From S2P Require Import Prelude Numeric Deque StepDetector Branches Invariant Startup Reset.
From S2P Require Import Text Interface Clock Wifi Server Replies Loop Main Api Rate.
From S2P Require Import Reads Faults.

#[local] Open Scope Z_scope.

Section Board.
Context {R : Type} `{Arith R} `{Sqrt R}.

#[export] Instance step_detector : Detector R (StepDetector R) := {|
  d_new := default;
  d_process_sample := process_sample;
  d_get_step_count := get_step_count;
  d_reset_step_count := reset_step_count;
  d_add_step := add_step
|}.

(** The readings one turn processes: the sensor's, when the interval has
    passed and the sensor answered. *)
Definition sampled_now (i : input R) (srv : server (StepDetector R))
    : list (R * R * R) :=
  if GYRO_UPDATE_INTERVAL_MS <? ticks_diff (current_time i) (last_gyro_update_ms srv)
  then match sensor i with
       | Reading ax ay az => [(ax, ay, az)]
       | ReadFailure => []
       end
  else [].

(** The readings the sensor branch processes along a run of the loop. *)
Fixpoint sampled (inputs : list (input R)) (srv : server (StepDetector R))
    : list (R * R * R) :=
  match inputs with
  | [] => []
  | i :: inputs => sampled_now i srv ++ sampled inputs (turn i srv).1
  end.

(** A detector without its count: what detection reads and writes apart
    from [step_count]. *)
Definition detection (s : StepDetector R) : StepDetector R := set_step_count 0 s.

Lemma default_wf : wf (default (R := R)).
Proof. by apply initial_wf. Qed.

Lemma default_runnable : runnable (default (R := R)).
Proof. unfold runnable. cbn. lia. Qed.

#[export, refine] Instance step_detector_laws : DetectorLaws R (StepDetector R) := {|
  valid s := wf s /\ runnable s;
  count := step_count
|}.
Proof.
  - split; [apply default_wf | apply default_runnable].
  - done.
  - by intros s [(_ & _ & _ & _ & Hn) _].
  - done.
  - intros s. split_and!; [done..|]. intros [Hwf Hr].
    split; [by apply set_step_count_wf | done].
  - intros s. split_and!; [done..|]. intros [Hwf Hr].
    split; [|done]. apply bump_wf; [|done]. destruct Hwf as (_ & _ & _ & _ & Hn). lia.
  - intros ax ay az s [Hwf Hr]. split_and!.
    + by apply ok_process_sample.
    + by apply wf_process_sample.
    + by apply process_sample_runnable.
    + apply step_count_process_sample.
    + apply step_count_process_sample.
Defined.

(** ** The loop and the detector *)

Lemma detection_bump k s : detection (bump k s) = detection s.
Proof. reflexivity. Qed.

Lemma detection_inv s s' :
  detection s = detection s' -> s' = bump (step_count s' - step_count s) s.
Proof.
  destruct s, s'. unfold detection, bump, set_step_count. cbn.
  intros [= -> -> -> -> -> -> -> -> -> -> ->]. f_equal. lia.
Qed.

Lemma detection_feed samples s s' :
  detection s = detection s' ->
  detection (feed samples s) = detection (feed samples s').
Proof.
  intros ->%detection_inv. by rewrite bump_feed, detection_bump.
Qed.

Lemma sensor_update_detector i srv :
  krokomierz (sensor_update i srv).1 = feed (sampled_now i srv) (krokomierz srv).
Proof.
  unfold sensor_update, sampled_now. destruct (_ <? _); [|done].
  destruct (sensor i) as [ax ay az|]; [|done]. cbn [feed foldl].
  unfold exec. cbn [d_process_sample d_get_step_count step_detector].
  destruct (process_sample ax ay az (krokomierz srv)) as [[[]|e] k1]; [|done].
  rewrite get_step_count_eq. by destruct (display_ok i).
Qed.

(** What the request of a turn does to the detector. *)
Definition control (i : input R) (s : StepDetector R) : StepDetector R :=
  match asked i with
  | Some Zeruj => set_step_count 0 s
  | Some Dodaj => bump 1 s
  | _ => s
  end.

(** The steps a run's requests add by hand. *)
Definition added (inputs : list (input R)) : Z :=
  Z.of_nat (length (filter (fun i => asked i = Some Dodaj) inputs)).

Lemma serve_detector r (srv : server (StepDetector R)) :
  krokomierz (serve r srv).1 =
  match r with
  | Request request =>
      match classify (before crlf request) with
      | Zeruj => set_step_count 0 (krokomierz srv)
      | Dodaj => bump 1 (krokomierz srv)
      | _ => krokomierz srv
      end
  | _ => krokomierz srv
  end.
Proof.
  destruct r as [request| |]; [|done..].
  rewrite serve_request, (route_classify (H0 := step_detector_laws)).
  by destruct (classify _).
Qed.

Lemma turn_detector i srv :
  krokomierz (turn i srv).1 = control i (feed (sampled_now i srv) (krokomierz srv)).
Proof.
  unfold turn, control, asked. rewrite <- sensor_update_detector.
  destruct (sensor_update i srv) as [srv1 shown]. cbn [fst].
  destruct (socket i) as [errno|r]; [done|].
  pose proof (serve_detector r srv1) as Hs. destruct (serve r srv1). by destruct r.
Qed.

Lemma detection_control i s : detection (control i s) = detection s.
Proof. unfold control. by destruct (asked i) as [[]|]. Qed.

Lemma turn_detection i srv :
  detection (krokomierz (turn i srv).1)
  = detection (feed (sampled_now i srv) (krokomierz srv)).
Proof. by rewrite turn_detector, detection_control. Qed.

Lemma sampled_cons i inputs srv :
  sampled (i :: inputs) srv = sampled_now i srv ++ sampled inputs (turn i srv).1.
Proof. reflexivity. Qed.

(** C23: the routes do not disturb detection: after any run of the loop,
    whatever requests were served, the detector is, but for its count, the
    one that [feed] leaves on the readings the sensor branch processed. *)
Theorem loop_feed inputs srv :
  detection (krokomierz (loop inputs srv).1)
  = detection (feed (sampled inputs srv) (krokomierz srv)).
Proof.
  revert srv. induction inputs as [|i inputs IH]; intros srv; [done|].
  rewrite sampled_cons, feed_app. cbn [loop].
  destruct (turn i srv) as [srv1 events] eqn:Et.
  specialize (IH srv1). destruct (loop inputs srv1) as [srv2 later].
  cbn [fst] in *. rewrite IH. apply detection_feed.
  pose proof (turn_detection i srv) as Hd. by rewrite Et in Hd.
Qed.

(** The readings [sampled] lists are the samples [taken] counts. *)
Lemma length_sampled inputs srv : length (sampled inputs srv) = taken inputs srv.
Proof.
  revert srv. induction inputs as [|i inputs IH]; intros srv; [done|].
  rewrite sampled_cons, length_app, IH. cbn [taken]. f_equal.
  unfold sampled_now, samples. destruct (_ <? _); [|done]. by destruct (sensor i).
Qed.

Lemma added_cons i inputs :
  added (i :: inputs) = (if bool_decide (asked i = Some Dodaj) then 1 else 0) + added inputs.
Proof.
  unfold added. rewrite filter_cons.
  case_bool_decide; case_decide; try done; cbn [length]; lia.
Qed.

Lemma control_bump i s :
  asked i <> Some Zeruj ->
  control i s = bump (if bool_decide (asked i = Some Dodaj) then 1 else 0) s.
Proof.
  intros Hz. unfold control. destruct (asked i) as [[]|]; try done;
    by rewrite ?bump_0.
Qed.

Lemma loop_bump inputs srv :
  Forall (fun i => asked i <> Some Zeruj) inputs ->
  krokomierz (loop inputs srv).1
  = bump (added inputs) (feed (sampled inputs srv) (krokomierz srv)).
Proof.
  revert srv. induction inputs as [|i inputs IH]; intros srv Hz;
    [by rewrite bump_0|].
  apply Forall_cons in Hz as [Hi Hz].
  rewrite sampled_cons, feed_app, added_cons. cbn [loop].
  pose proof (turn_detector i srv) as Ht.
  destruct (turn i srv) as [srv1 events]. specialize (IH srv1 Hz).
  destruct (loop inputs srv1) as [srv2 later]. cbn [fst] in *.
  rewrite IH, Ht, control_bump, bump_feed, bump_bump by done. done.
Qed.

(** C15: the composition of the loop with the detector, count included: as
    long as no request zeroes the count, the detector after a run is the
    one [feed] leaves on the readings the sensor branch processed, with one
    step more for every [/dodaj] request. *)
Theorem loop_count inputs srv :
  Forall (fun i => asked i <> Some Zeruj) inputs ->
  krokomierz (loop inputs srv).1
  = bump (added inputs) (feed (sampled inputs srv) (krokomierz srv)).
Proof. apply loop_bump. Qed.

(** A [/zeruj] request leaves the count at 0 whatever came before. *)
Lemma turn_zeruj i srv :
  asked i = Some Zeruj -> step_count (krokomierz (turn i srv).1) = 0.
Proof. intros Hi. rewrite turn_detector. unfold control. by rewrite Hi. Qed.

End Board.

(** ** The board on binary64, evaluated

    [session] is six turns of the loop: a client adds a step, reads the
    count, reads it again after a sensor update, zeroes it, reads it, and
    reads it once more after the next sensor update. *)

Definition get (path : string) : accepted :=
  Connection (Request ("GET " +:+ path +:+ " HTTP/1.1" +:+ crlf
                        +:+ "Host: 10.0.0.2" +:+ crlf +:+ crlf)).

Definition still : reading float := Reading 0%float 0%float 9.75%float.

Definition session : list (input float) :=
  [ Input 0 still true (get "/dodaj");
    Input 10 still true (get "/steps");
    Input 60 still true (get "/steps");
    Input 70 still true (get "/zeruj");
    Input 80 still true (get "/steps");
    Input 120 still true (get "/steps") ].

(** The bodies of the replies among the events. *)
Definition bodies (events : list event) : list string :=
  omap (fun e => match e with Send response => body_of response | _ => None end)
       events.

(** The counts the display was asked to show. *)
Definition shown (events : list event) : list string :=
  omap (fun e => match e with
                 | Display ((line, _) :: _) => Some line
                 | _ => None
                 end) events.

(** On [session] the replies are [null] after [/dodaj] until the next
    sensor update, and the count from before [/zeruj] until the sensor
    update after it, while the display shows the detector's count. *)
Example session_replies :
  bodies (loop session (boot "10.0.0.2" 0)).2
  = [dumps_steps None; dumps_steps None; dumps_steps (Some 1);
     dumps_steps (Some 1); dumps_steps (Some 1); dumps_steps (Some 0)]
  /\ shown (loop session (boot "10.0.0.2" 0)).2 = ["KROKI: 1"; "KROKI: 0"]
  /\ step_count (krokomierz (loop session (boot "10.0.0.2" 0)).1) = 0.
Proof. vm_compute. done. Qed.

Lemma sensor_update_spec_witness :
  sensor_update (Input 60 still true (AcceptOSError 11)) (boot "10.0.0.2" 0)
  = (Server (exec (process_sample 0 0 9.75) default)%float (Some 0) 60 "10.0.0.2",
     [Display [("KROKI: 0", 0); ("IP: 10.0.0.2", 24)]]).
Proof.
  assert (valid (krokomierz (boot (D := StepDetector float) "10.0.0.2" 0))) as Hv
    by (apply (bool_decide_unpack _); vm_compute; exact I).
  pose proof (sensor_update_spec (Input 60 still true (AcceptOSError 11))
                (boot "10.0.0.2" 0) 0%float 0%float 9.75%float Hv eq_refl eq_refl) as W.
  vm_compute in W. vm_compute. exact W.
Defined.

Lemma read_only_routes_witness :
  (route "GET /steps HTTP/1.1" (boot (D := StepDetector float) "10.0.0.2" 0)).1
  = boot "10.0.0.2" 0.
Proof. apply (read_only_routes "GET /steps HTTP/1.1"); by vm_compute. Defined.

Lemma dodaj_replies_null_witness :
  count (krokomierz (route "GET /dodaj HTTP/1.1"
                       (boot (D := StepDetector float) "10.0.0.2" 0)).1) = 0 + 1
  /\ steps (route "GET /dodaj HTTP/1.1"
              (boot (D := StepDetector float) "10.0.0.2" 0)).1 = None
  /\ (route "GET /dodaj HTTP/1.1" (boot (D := StepDetector float) "10.0.0.2" 0)).2
     = Some ("200 OK", Some ("{" +:+ quote +:+ "steps" +:+ quote +:+ ": null}")).
Proof.
  pose proof (dodaj_replies_null "GET /dodaj HTTP/1.1"
                (boot (D := StepDetector float) "10.0.0.2" 0) eq_refl) as W.
  vm_compute in W. vm_compute. exact W.
Defined.

Lemma zeruj_replies_stale_witness :
  count (krokomierz (route "GET /zeruj HTTP/1.1"
                       (Server (exec add_step (default (R := float))) (Some 1) 0
                               "10.0.0.2")).1) = 0
  /\ steps (route "GET /zeruj HTTP/1.1"
              (Server (exec add_step (default (R := float))) (Some 1) 0
                      "10.0.0.2")).1 = Some 1
  /\ (route "GET /zeruj HTTP/1.1"
        (Server (exec add_step (default (R := float))) (Some 1) 0 "10.0.0.2")).2
     = Some ("200 OK", Some (dumps_steps (Some 1))).
Proof.
  pose proof (zeruj_replies_stale "GET /zeruj HTTP/1.1"
                (Server (exec add_step (default (R := float))) (Some 1) 0 "10.0.0.2")
                eq_refl) as W.
  vm_compute in W. vm_compute. exact W.
Defined.

Lemma unknown_reply_type_witness :
  exists response,
    (serve (Request ("GET /favicon.ico HTTP/1.1" +:+ crlf +:+ crlf))
           (boot (D := StepDetector float) "10.0.0.2" 0)).2
    = [Send response; Close]
    /\ startswith response ("HTTP/1.1 404 Not Found" +:+ crlf) = true
    /\ body_of response = Some "<h1>404 Not Found</h1>"
    /\ content_type response = Some "application/json".
Proof. apply unknown_reply_type. reflexivity. Defined.

(** A board whose sensor does not answer at power-on: the handler of the
    initialisation prints and goes on, and the program stops in
    [connect_wifi]. *)
Definition no_sensor : power_on :=
  PowerOn (Some AtSensor) 0 (fun _ => true) "10.0.0.2" None.

Lemma main_outcome_witness :
  exists r wifi events,
    main (D := StepDetector float) 21 "dom" no_sensor [] = Some (r, wifi, events)
    /\ 0 <= seconds_slept wifi <= 20
    /\ match r with
       | Running srv =>
           srv = (loop [] (boot (ifconfig no_sensor) (ticks_ms no_sensor))).1
           /\ server_ok srv
           /\ bound_display (init_failed no_sensor) = true
           /\ bound_accel_sensor (init_failed no_sensor) = true
           /\ socket_failed no_sensor = None
       | Stopped e =>
           e = NameError /\ bound_display (init_failed no_sensor) = false /\ wifi = []
           \/ e = RuntimeError /\ bound_display (init_failed no_sensor) = true
           \/ e = OSError /\ bound_display (init_failed no_sensor) = true
              /\ exists failed, socket_failed no_sensor = Some failed
       end.
Proof. apply (main_outcome 21 "dom" no_sensor []). lia. Defined.

(** A board on which the port is taken: [bind] raises, the program ends
    with [OSError] after the network answered, with the socket created
    and nothing listening. *)
Example main_bind_fails :
  main (D := StepDetector float) 21 "dom"
    (PowerOn None 0 (fun _ => true) "10.0.0.2" (Some AtBind)) session
  = Some (Stopped OSError,
          [Show [("IP: 10.0.0.2", 0); ("Serwer MPU ON", 16)]],
          [Display [("Inicjalizacja...", 0)]])
  /\ bound_s (Some AtBind) = true /\ listening (Some AtBind) = false.
Proof. by vm_compute. Qed.

(** The same board with its sensor: the program reaches the loop, and on
    [session] it answers the six requests and closes the six connections. *)
Example main_session :
  exists srv wifi events,
    main (D := StepDetector float) 21 "dom"
      (PowerOn None 0 (fun k => bool_decide (2 <= k)%nat) "10.0.0.2" None) session
    = Some (Running srv, wifi, events)
    /\ seconds_slept wifi = 1
    /\ replies events = 6%nat /\ closes events = 6%nat
    /\ step_count (krokomierz srv) = 0.
Proof. eexists _, _, _. vm_compute. done. Qed.

(** A run under faults: the second connection's [close] raises. *)
Definition crash : list (fault * input float) :=
  [ (SendFails (Some 104), Input 0 still true (get "/dodaj"));
    (CloseFails, Input 60 still true (get "/steps"));
    (NoFault, Input 120 still true (get "/steps")) ].

(** The board on [crash]: the first reply fails to go out and the loop goes
    on with the step added; the second turn samples, replies, calls
    [close] and ends the program with [OSError]; the third request is never
    accepted. *)
Example main_crash :
  exists wifi events,
    main_with (D := StepDetector float) 21 "dom"
      (PowerOn None 0 (fun _ => true) "10.0.0.2" None) crash
    = Some (Stopped OSError, wifi, events)
    /\ replies events = 2%nat /\ closes events = 2%nat
    /\ ran crash (boot (D := StepDetector float) "10.0.0.2" 0) = 2%nat
    /\ step_count (krokomierz (loop_with crash (boot "10.0.0.2" 0)).1.1) = 1.
Proof. eexists _, _. vm_compute. done. Qed.

Lemma run_stops_witness :
  (OSError = IndexError \/ OSError = OSError)
  /\ server_ok (loop_with crash (boot (D := StepDetector float) "10.0.0.2" 0)).1.1
  /\ closes (loop_with crash (boot "10.0.0.2" 0)).1.2
     = connections (map snd (take (ran crash (boot "10.0.0.2" 0)) crash))
  /\ exists before f i,
       take (ran crash (boot "10.0.0.2" 0)) crash = before ++ [(f, i)]
       /\ (f = AcceptNoArgs /\ is_connection i = false /\ OSError = IndexError
           \/ f = RecvNoArgs /\ is_connection i = true /\ OSError = IndexError
           \/ f = SendFails None /\ is_request i = true /\ OSError = IndexError
           \/ f = CloseFails /\ is_connection i = true /\ OSError = OSError).
Proof. apply run_stops; [apply boot_ok | by vm_compute]. Defined.

Lemma main_with_outcome_witness :
  exists r wifi events,
    main_with (D := StepDetector float) 21 "dom" no_sensor crash = Some (r, wifi, events)
    /\ 0 <= seconds_slept wifi <= 20
    /\ match r with
       | Running srv =>
           srv = (loop (map snd crash) (boot (ifconfig no_sensor) (ticks_ms no_sensor))).1
           /\ server_ok srv
           /\ bound_display (init_failed no_sensor) = true
           /\ bound_accel_sensor (init_failed no_sensor) = true
           /\ socket_failed no_sensor = None
       | Stopped e =>
           e = NameError /\ bound_display (init_failed no_sensor) = false /\ wifi = []
           \/ e = RuntimeError /\ bound_display (init_failed no_sensor) = true
           \/ e = OSError /\ bound_display (init_failed no_sensor) = true
              /\ (exists failed, socket_failed no_sensor = Some failed)
           \/ (e = IndexError \/ e = OSError) /\ socket_failed no_sensor = None
              /\ (loop_with crash (boot (ifconfig no_sensor) (ticks_ms no_sensor))).2 = Some e
       end.
Proof. apply main_with_outcome. lia. Defined.

Lemma loop_count_witness :
  krokomierz (loop (take 3 session) (boot "10.0.0.2" 0)).1
  = bump 1 (feed [(0, 0, 9.75)]%float default).
Proof.
  assert (Forall (fun i => asked i <> Some Zeruj) (take 3 session)) as Hz
    by (repeat (apply Forall_cons; split; [by vm_compute|]); apply Forall_nil_2).
  pose proof (loop_count (take 3 session) (boot "10.0.0.2" 0) Hz) as W.
  vm_compute in W. vm_compute. exact W.
Defined.

Lemma steps_reply_current_witness :
  exists shown response,
    (turn (Input 60 still true (get "/steps"))
          (boot (D := StepDetector float) "10.0.0.2" 0)).2
    = shown ++ [Send response; Close]
    /\ body_of response
       = Some (dumps_steps
                 (Some (count (krokomierz
                                 (turn (Input 60 still true (get "/steps"))
                                       (boot "10.0.0.2" 0)).1))))
    /\ fresh (turn (Input 60 still true (get "/steps")) (boot "10.0.0.2" 0)).1.
Proof.
  apply (steps_reply_current _ _ ("GET /steps HTTP/1.1" +:+ crlf +:+ "Host: 10.0.0.2"
                                   +:+ crlf +:+ crlf));
    [apply boot_ok | left; apply boot_fresh | reflexivity | reflexivity].
Defined.

Lemma loop_fresh_witness :
  fresh (loop [Input 60 still true (get "/steps"); Input 120 still true (get "/")]
              (boot (D := StepDetector float) "10.0.0.2" 0)).1.
Proof.
  apply loop_fresh.
  repeat (apply Forall_cons; split; [by vm_compute|]). apply Forall_nil_2.
Defined.

Lemma sampling_rate_witness :
  (GYRO_UPDATE_INTERVAL_MS + 1)
  * Z.of_nat (taken session (boot (D := StepDetector float) "10.0.0.2" 0))
  <= final 0 [0; 10; 60; 70; 80; 120] - 0.
Proof.
  apply sampling_rate;
    [apply boot_ok | reflexivity | reflexivity | cbn; lia | by vm_compute|].
  repeat (apply Forall_cons; split; [reflexivity|]). apply Forall_nil_2.
Defined.

(** What a client reads on [session], where the two routes that change
    the count are served: [null] twice, and a count that goes down. *)
Example session_told :
  told (loop session (boot (D := StepDetector float) "10.0.0.2" 0)).2
  = [None; None; Some 1; Some 1; Some 1; Some 0].
Proof. by vm_compute. Qed.

Lemma reads_monotone_witness :
  exists counts,
    told (loop [Input 60 still true (get "/steps"); Input 120 still true (get "/steps")]
               (boot (D := StepDetector float) "10.0.0.2" 0)).2
    = map Some counts
    /\ ascending (count (krokomierz (boot (D := StepDetector float) "10.0.0.2" 0))) counts
    /\ final (count (krokomierz (boot (D := StepDetector float) "10.0.0.2" 0))) counts
       <= count (krokomierz
                   (loop [Input 60 still true (get "/steps");
                          Input 120 still true (get "/steps")]
                         (boot (D := StepDetector float) "10.0.0.2" 0)).1).
Proof.
  apply reads_monotone; [apply boot_ok | apply boot_fresh|].
  repeat (apply Forall_cons; split; [by vm_compute|]). apply Forall_nil_2.
Defined.
