(* ===== verification/Log.v ===== *)
(** * Log: the console of [src/main.py]

    The script prints eleven kinds of line and the detector one.  A
    [line] is a call of [print] with what it formats: [InitError] (line
    32), [Connecting] and [Connected] (lines 39 and 53), [Listening] (line
    77), [Step] (line 101 of [src/step_detector.py]), [SensorError] (line
    104), [AcceptError] (line 114), [GotConnection] (line 118),
    [RequestLine] (line 124), [SocketError] (line 163), [UnknownError]
    (line 166) and [Closed] (line 171).  The text of a line is not
    modelled: the messages are not ASCII and they format exceptions and
    the peer's address.

    [turn_prints] is what one turn of the loop prints under a fault of the
    file Faults, [run_prints] what a run prints up to the exception that
    leaves it, [main_prints] what the whole script prints.  They are
    defined beside the loop, which they do not change: a print is placed
    where the code has it, after the calls that come before it in its
    block and not at all when one of those raises.

    The detector's line is a parameter of the generic definitions
    ([printed]); the concrete console takes [process_sample_prints] of the
    file Console for it.

    What is shown: the [Step] lines of a run are the amplitudes the
    detector prints on the readings the run sampled, whatever requests came
    in between; a [SensorError] line means the sensor or the display
    failed, never the detector; an [UnknownError] line means [recv] failed
    otherwise than with [OSError]; every [close] is followed by its
    [Closed] line but the one that raised; [Listening] is printed exactly
    when the program reaches the loop. *)

From Stdlib Require Import ZArith String Lia Floats.
From stdpp Require Import base tactics list strings.
From S2P Require Import Prelude Numeric Deque StepDetector Branches Invariant Startup Reset.
From S2P Require Import Console Text Interface Clock Wifi Server Replies Loop Main Faults.
From S2P Require Import Api Rate Board.

#[local] Open Scope Z_scope.

(** A call of [print], by the line of the source that makes it:
    [InitError] is line 32 of [src/main.py], [Connecting] line 39,
    [Connected] line 53, [Listening] line 77, [SensorError] line 104,
    [AcceptError] line 114, [GotConnection] line 118, [RequestLine]
    line 124, [SocketError] line 163, [UnknownError] line 166, [Closed]
    line 171, and [Step] is line 101 of [src/step_detector.py]. *)
Inductive line (R : Type) : Type :=
| InitError
| Connecting (SSID : string)
| Connected (ip_addr : string)
| Listening
| Step (filtered_sample : R)
| SensorError
| AcceptError (errno : Z)
| GotConnection
| RequestLine (request_line : string)
| SocketError (errno : Z)
| UnknownError
| Closed.

Arguments InitError {R}.
Arguments Connecting {R} SSID.
Arguments Connected {R} ip_addr.
Arguments Listening {R}.
Arguments Step {R} filtered_sample.
Arguments SensorError {R}.
Arguments AcceptError {R} errno.
Arguments GotConnection {R}.
Arguments RequestLine {R} request_line.
Arguments SocketError {R} errno.
Arguments UnknownError {R}.
Arguments Closed {R}.

(** The amplitudes of the [Step] lines. *)
Definition amplitudes {R} (lines : list (line R)) : list R :=
  omap (fun l => if l is Step a then Some a else None) lines.

(** The number of [Closed] lines. *)
Fixpoint closed {R} (lines : list (line R)) : nat :=
  match lines with
  | [] => 0
  | Closed :: lines => S (closed lines)
  | _ :: lines => closed lines
  end.

(** Lines 31-32: the handler of the initialisation. *)
Definition init_prints {R} (failed : option stage) : list (line R) :=
  if failed is Some _ then [InitError] else [].

(** Lines 38-39 and 51-53: what [connect_wifi] prints.  Without the
    global [display] the function prints its first line and raises at the
    next statement. *)
Definition connect_wifi_prints {R} (fuel : nat) (display : bool) (SSID : string)
    (isconnected : nat -> bool) (ifconfig : string) : option (list (line R)) :=
  if isconnected 0%nat then
    Some (if isconnected 1%nat then [Connected ifconfig] else [])
  else if display then
    (fun '(k, _) =>
       Connecting SSID :: (if isconnected k then [Connected ifconfig] else []))
      <$> wait_loop fuel isconnected 1 20
  else Some [Connecting SSID].

Section Log.
Context {R D : Type} `{Detector R D}.
Implicit Types (srv : server D) (i : input R) (f : fault).

(** What [process_sample] prints on a reading, from the state of the
    detector. *)
Variable printed : R -> R -> R -> D -> list R.

(** Lines 84-105: the detector's lines, then the handler's when anything
    in the [try] raised. *)
Definition sensor_update_prints i srv : list (line R) :=
  if GYRO_UPDATE_INTERVAL_MS <? ticks_diff (current_time i) (last_gyro_update_ms srv)
  then
    match sensor i with
    | ReadFailure => [SensorError]
    | Reading ax ay az =>
        let (result, k1) := d_process_sample ax ay az (krokomierz srv) in
        map Step (printed ax ay az (krokomierz srv))
        ++ match result with
           | Raise _ => [SensorError]
           | Ok _ =>
               match (d_get_step_count k1).1 with
               | Raise _ => [SensorError]
               | Ok _ => if display_ok i then [] else [SensorError]
               end
           end
    end
  else [].

(** Lines 159-163: the handler of [OSError], entered with [e.args[0]];
    nothing is printed when that raises. *)
Definition socket_error (no_args : bool) (errno : Z) : list (line R) :=
  if no_args then [] else if would_block errno then [] else [SocketError errno].

(** Lines 120-171: one connection, on the state the sensor branch left. *)
Definition serve_prints f (r : received) srv : list (line R) :=
  match r with
  | Request request =>
      let request_line := before crlf request in
      RequestLine request_line
      :: match route request_line srv with
         | (_, Some (http_status, json_data)) =>
             match render http_status json_data with
             | Ok _ =>
                 match f with
                 | SendFails (Some errno) => socket_error false errno
                 | _ => []
                 end
             | Raise _ => [UnknownError]
             end
         | (_, None) => [UnknownError]
         end
  | RecvOSError errno => socket_error (bool_decide (f = RecvNoArgs)) errno
  | RecvFailure => [UnknownError]
  end
  ++ (if decide (f = CloseFails) then [] else [Closed]).

(** Lines 82-171: one turn. *)
Definition turn_prints f i srv : list (line R) :=
  sensor_update_prints i srv
  ++ match socket i with
     | AcceptOSError errno =>
         if decide (f = AcceptNoArgs) then []
         else if would_block errno then [] else [AcceptError errno]
     | Connection r => GotConnection :: serve_prints f r (sensor_update i srv).1
     end.

(** Line 81: the loop until an exception leaves it. *)
Fixpoint run_prints (inputs : list (fault * input R)) srv : list (line R) :=
  match inputs with
  | [] => []
  | (f, i) :: inputs =>
      let '(srv1, _, stop) := turn_with f i srv in
      turn_prints f i srv
      ++ (if stop is Some _ then [] else run_prints inputs srv1)
  end.

(** Lines 24-171: the script. *)
Definition main_prints (fuel : nat) (SSID : string) (p : power_on)
    (inputs : list (fault * input R)) : option (list (line R)) :=
  let display := bound_display (init_failed p) in
  wifi ← connect_wifi_prints fuel display SSID (isconnected p) (ifconfig p);
  '(result, _) ← connect_wifi fuel display SSID (isconnected p) (ifconfig p);
  Some (init_prints (init_failed p) ++ wifi
        ++ match result with
           | Ok ip_addr =>
               if socket_ok p
               then Listening :: run_prints inputs (boot ip_addr (ticks_ms p))
               else []
           | Raise _ => []
           end).

End Log.

(** The detector's lines of one turn and of a run of the loop. *)
Section Detector.
Context {R D : Type} `{Detector R D}.
Variable printed : R -> R -> R -> D -> list R.

Definition detector_prints (i : input R) (srv : server D) : list R :=
  if GYRO_UPDATE_INTERVAL_MS <? ticks_diff (current_time i) (last_gyro_update_ms srv)
  then match sensor i with
       | Reading ax ay az => printed ax ay az (krokomierz srv)
       | ReadFailure => []
       end
  else [].

Fixpoint detector_run (inputs : list (input R)) (srv : server D) : list R :=
  match inputs with
  | [] => []
  | i :: inputs => detector_prints i srv ++ detector_run inputs (turn i srv).1
  end.

(** Whether the sensor branch of a turn runs and the sensor or the display
    raises in it. *)
Definition hardware_failed (i : input R) (srv : server D) : bool :=
  (GYRO_UPDATE_INTERVAL_MS <? ticks_diff (current_time i) (last_gyro_update_ms srv))
  && (if sensor i is Reading _ _ _ then negb (display_ok i) else true).

End Detector.

(** ** Lists of lines *)

Section Lines.
Context {R : Type}.
Implicit Types (lines : list (line R)).

Lemma amplitudes_app lines later :
  amplitudes (lines ++ later) = amplitudes lines ++ amplitudes later.
Proof. apply omap_app. Qed.

Lemma amplitudes_Step (values : list R) : amplitudes (map Step values) = values.
Proof. induction values as [|a values IH]; [done|]. cbn. by f_equal. Qed.

Lemma closed_app lines later : closed (lines ++ later) = (closed lines + closed later)%nat.
Proof. induction lines as [|[] lines IH]; cbn; by rewrite ?IH. Qed.

Lemma closed_Step (values : list R) : closed (map Step values) = 0%nat.
Proof. by induction values. Qed.

Lemma Forall_Step (P : line R -> Prop) (values : list R) :
  (forall a, P (Step a)) -> Forall P (map Step values).
Proof. intros HP. induction values; cbn [map]; by constructor. Qed.

End Lines.

(** ** One turn *)

Section LogLaws.
Context {R D : Type} `{DetectorLaws R D}.
Variable printed : R -> R -> R -> D -> list R.
Implicit Types (srv : server D) (i : input R) (f : fault).

(** On a valid detector the handler of line 103 is entered for the sensor
    and for the display only. *)
Lemma sensor_update_prints_valid i srv :
  valid (krokomierz srv) ->
  sensor_update_prints printed i srv
  = map Step (detector_prints printed i srv)
    ++ (if hardware_failed i srv then [SensorError] else []).
Proof.
  intros Hv. unfold sensor_update_prints, detector_prints, hardware_failed.
  destruct (_ <? _); [|done]. destruct (sensor i) as [ax ay az|]; [|done].
  destruct (process_sample_law ax ay az _ Hv) as (He & _). unfold eval in He.
  destruct (d_process_sample ax ay az (krokomierz srv)) as [result k1].
  cbn [fst] in He. subst result. rewrite get_step_count_law. cbn [fst andb].
  by destruct (display_ok i).
Qed.

Lemma amplitudes_sensor_update i srv :
  amplitudes (sensor_update_prints printed i srv) = detector_prints printed i srv.
Proof.
  unfold sensor_update_prints, detector_prints.
  destruct (_ <? _); [|done]. destruct (sensor i) as [ax ay az|]; [|done].
  destruct (d_process_sample ax ay az (krokomierz srv)) as [result k1].
  rewrite amplitudes_app, amplitudes_Step. repeat case_match; apply app_nil_r.
Qed.

Lemma closed_sensor_update i srv : closed (sensor_update_prints printed i srv) = 0%nat.
Proof.
  unfold sensor_update_prints. destruct (_ <? _); [|done].
  destruct (sensor i) as [ax ay az|]; [|done].
  destruct (d_process_sample ax ay az (krokomierz srv)) as [result k1].
  rewrite closed_app, closed_Step. by repeat case_match.
Qed.

(** A request is answered without [UnknownError]: the routes do not raise
    and [len(json_data)] is never called on [None]. *)
Lemma serve_prints_request f request srv :
  serve_prints f (Request request) srv
  = RequestLine (before crlf request)
    :: (if f is SendFails (Some errno) then socket_error false errno else [])
    ++ (if decide (f = CloseFails) then [] else [Closed]).
Proof.
  unfold serve_prints. cbn zeta. rewrite route_classify.
  by destruct (classify _), f as [| | |[code|]|].
Qed.

Lemma amplitudes_serve f r srv : amplitudes (serve_prints f r srv) = [].
Proof.
  destruct r as [request|errno|]; [rewrite serve_prints_request|..];
    unfold serve_prints, socket_error; by repeat case_match.
Qed.

Lemma closed_serve f r srv :
  closed (serve_prints f r srv) = (if decide (f = CloseFails) then 0 else 1)%nat.
Proof.
  destruct r as [request|errno|]; [rewrite serve_prints_request|..];
    unfold serve_prints, socket_error; cbn [closed app];
    rewrite ?closed_app; by repeat case_match.
Qed.

Lemma amplitudes_turn f i srv :
  amplitudes (turn_prints printed f i srv) = detector_prints printed i srv.
Proof.
  unfold turn_prints. rewrite amplitudes_app, amplitudes_sensor_update.
  destruct (socket i) as [errno|r]; [by repeat case_match; rewrite app_nil_r|].
  change (amplitudes (GotConnection :: ?l)) with (amplitudes l).
  by rewrite amplitudes_serve, app_nil_r.
Qed.

Lemma closed_turn f i srv :
  closed (turn_prints printed f i srv)
  = (if is_connection i then if decide (f = CloseFails) then 0 else 1 else 0)%nat.
Proof.
  unfold turn_prints, is_connection. rewrite closed_app, closed_sensor_update.
  destruct (socket i) as [errno|r]; [by repeat case_match|].
  cbn [closed]. by rewrite closed_serve.
Qed.

(** The [SensorError] line of a turn is the hardware's. *)
Lemma turn_prints_sensor f i srv :
  valid (krokomierz srv) -> hardware_failed i srv = false ->
  Forall (fun l => l <> SensorError) (turn_prints printed f i srv).
Proof.
  intros Hv Hh. unfold turn_prints. rewrite sensor_update_prints_valid, Hh by done.
  rewrite app_nil_r. apply Forall_app. split; [by apply Forall_Step|].
  destruct (socket i) as [errno|r]; [repeat case_match; by repeat constructor|].
  destruct r as [request|errno|]; [rewrite serve_prints_request|..];
    unfold serve_prints, socket_error; repeat case_match; by repeat constructor.
Qed.

(** The [UnknownError] line of a turn is [recv]'s. *)
Lemma turn_prints_unknown f i srv :
  socket i <> Connection RecvFailure ->
  Forall (fun l => l <> UnknownError) (turn_prints printed f i srv).
Proof.
  intros Hs. unfold turn_prints. apply Forall_app. split.
  - unfold sensor_update_prints. destruct (_ <? _); [|done].
    destruct (sensor i) as [ax ay az|]; [|by repeat constructor].
    destruct (d_process_sample ax ay az (krokomierz srv)) as [result k1].
    apply Forall_app. split; [by apply Forall_Step|].
    repeat case_match; by repeat constructor.
  - destruct (socket i) as [errno|r]; [repeat case_match; by repeat constructor|].
    destruct r as [request|errno|]; [rewrite serve_prints_request|..|done];
      unfold serve_prints, socket_error; repeat case_match; by repeat constructor.
Qed.

(** [close] and its line: the line is missing where [close] raised. *)
Lemma closed_turn_with f i srv :
  (closed (turn_prints printed f i srv)
   + (if decide ((turn_with f i srv).2 = Some OSError) then 1 else 0))%nat
  = closes (turn_with f i srv).1.2.
Proof.
  rewrite closed_turn, turn_with_closes.
  pose proof (turn_with_stop f i srv OSError) as Hs. unfold is_connection.
  destruct (socket i) as [errno|r]; repeat case_decide; naive_solver.
Qed.

(** ** A run *)

(** What holds of every turn of a run from a state that satisfies the
    invariant of the loop holds of the run. *)
Lemma run_prints_Forall (P : line R -> Prop) (Q : input R -> Prop) inputs srv :
  (forall f i srv, server_ok srv -> Q i -> Forall P (turn_prints printed f i srv)) ->
  server_ok srv -> Forall (fun fi => Q fi.2) inputs ->
  Forall P (run_prints printed inputs srv).
Proof.
  intros HP. revert srv. induction inputs as [|[f i] inputs IH]; intros srv Hok HQ;
    [apply Forall_nil_2|].
  apply Forall_cons in HQ as [Hi HQ]. cbn [run_prints].
  pose proof (turn_with_ok f i srv Hok) as Hok1.
  destruct (turn_with f i srv) as [[srv1 events] [e|]]; cbn [fst] in Hok1;
    apply Forall_app; (split; [by apply HP|]); [apply Forall_nil_2 | by apply IH].
Qed.

Lemma amplitudes_run inputs srv :
  amplitudes (run_prints printed inputs srv)
  = detector_run printed (map snd (take (ran inputs srv) inputs)) srv.
Proof.
  revert srv. induction inputs as [|[f i] inputs IH]; intros srv; [done|].
  cbn [run_prints ran]. pose proof (turn_with_state f i srv) as Hs.
  destruct (turn_with f i srv) as [[srv1 events] [e|]]; cbn [fst] in Hs;
    rewrite amplitudes_app, amplitudes_turn; cbn [take map snd detector_run].
  - by rewrite take_0.
  - by rewrite IH, Hs.
Qed.

Lemma closed_run inputs srv :
  (closed (run_prints printed inputs srv)
   + (if decide ((loop_with inputs srv).2 = Some OSError) then 1 else 0))%nat
  = closes (loop_with inputs srv).1.2.
Proof.
  revert srv. induction inputs as [|[f i] inputs IH]; intros srv;
    [by cbn; case_decide|].
  cbn [run_prints loop_with]. pose proof (closed_turn_with f i srv) as Ht.
  pose proof (turn_with_stop f i srv OSError) as Hs.
  destruct (turn_with f i srv) as [[srv1 events] [e|]]; cbn [fst snd] in *.
  - by rewrite app_nil_r.
  - specialize (IH srv1). destruct (loop_with inputs srv1) as [[srv2 later] stop].
    cbn [fst snd] in *. rewrite closed_app, closes_app, <- IH, <- Ht.
    case_decide; [done|]. lia.
Qed.

(** C28: the handlers of the loop are entered for the hardware and the
    network only.  From a state that satisfies the invariant of the loop, a
    run in which the sensor answers and the display draws prints no
    [SensorError] line, whatever the readings are: no call of the detector
    raises; and a run in which [recv] fails with [OSError] only prints no
    [UnknownError] line: no route raises, and [len(json_data)] is never
    reached with [None] under the status 404. *)
Theorem handlers_idle inputs srv :
  server_ok srv ->
  (Forall (fun fi => sensor fi.2 <> ReadFailure /\ display_ok fi.2 = true) inputs ->
   Forall (fun l => l <> SensorError) (run_prints printed inputs srv))
  /\ (Forall (fun fi => socket fi.2 <> Connection RecvFailure) inputs ->
      Forall (fun l => l <> UnknownError) (run_prints printed inputs srv)).
Proof.
  intros Hok. split.
  - apply (run_prints_Forall _ (fun i => sensor i <> ReadFailure /\ display_ok i = true));
      [|done]. intros f i srv' [Hv _] [Hs Hd]. apply turn_prints_sensor; [done|].
    unfold hardware_failed. rewrite Hd. destruct (sensor i); [|done]. apply andb_false_r.
  - apply (run_prints_Forall _ (fun i => socket i <> Connection RecvFailure)); [|done].
    intros f i srv' _. apply turn_prints_unknown.
Qed.

(** C33: [close] and its line.  Along any run, under any faults, the
    console has one [Closed] line for each connection accepted, but for
    the connection whose [close] raised and ended the program. *)
Theorem closed_lines inputs srv :
  (closed (run_prints printed inputs srv)
   + (if decide ((loop_with inputs srv).2 = Some OSError) then 1 else 0))%nat
  = connections (map snd (take (ran inputs srv) inputs)).
Proof. rewrite closed_run. apply run_closes. Qed.

End LogLaws.

(** ** The script *)

Section Script.
Context {R D : Type} `{DetectorLaws R D}.
Variable printed : R -> R -> R -> D -> list R.
Implicit Types (srv : server D) (p : power_on).

(** With fuel for the wait [connect_wifi] prints at most its two lines. *)
Lemma connect_wifi_prints_ends fuel display SSID isconnected ifconfig :
  (20 < fuel)%nat ->
  exists lines,
    connect_wifi_prints (R := R) fuel display SSID isconnected ifconfig = Some lines
    /\ Forall (fun l => l = Connecting SSID \/ l = Connected ifconfig) lines.
Proof.
  intros Hfuel. unfold connect_wifi_prints.
  destruct (wait_loop_ends isconnected fuel 1 20) as (k & slept & -> & _); [cbn; lia|].
  cbn [fmap option_fmap option_map].
  repeat case_match; eexists; (split; [done|]);
    repeat (apply Forall_cons; split; [auto|]); apply Forall_nil_2.
Qed.

Lemma init_prints_quiet (failed : option stage) : Listening ∉ init_prints (R := R) failed.
Proof.
  unfold init_prints. destruct failed; [|apply not_elem_of_nil].
  by intros [=]%list_elem_of_singleton.
Qed.

Lemma main_prints_loop fuel SSID p inputs :
  (20 < fuel)%nat ->
  exists lines,
    main_prints printed fuel SSID p inputs = Some lines
    /\ (Listening ∈ lines <->
        exists srv wifi events,
          main fuel SSID p (map snd inputs) = Some (Running srv, wifi, events)).
Proof.
  intros Hfuel.
  destruct (connect_wifi_returns fuel (bound_display (init_failed p)) SSID
              (isconnected p) (ifconfig p) Hfuel) as (result & wifi & Hc & _).
  destruct (connect_wifi_prints_ends fuel (bound_display (init_failed p)) SSID
              (isconnected p) (ifconfig p) Hfuel) as (said & Hw & Hl).
  unfold main_prints. cbn zeta. rewrite Hw, Hc, (main_unfold _ _ _ _ _ _ Hc).
  cbn [mbind option_bind]. eexists. split; [done|].
  pose proof (init_prints_quiet (init_failed p)) as Hi.
  assert (Listening ∉ said) as Hs
    by (intros Hin; by destruct (proj1 (Forall_forall _ _) Hl _ Hin)).
  rewrite !elem_of_app.
  destruct result as [ip|e]; [destruct (socket_ok p)|]; split;
    try (intros (? & ? & ? & [=]));
    try (intros [?|[?|?%elem_of_nil]]; done).
  - intros _. by eexists _, _, _.
  - do 2 right. by constructor.
Qed.

(** C37: the console says when the server is up.  With fuel for the wait
    the script prints a finite console, and [Listening] is on it exactly
    when the script, run without faults, reaches the loop. *)
Theorem listening_printed fuel SSID p inputs :
  (20 < fuel)%nat ->
  exists lines,
    main_prints printed fuel SSID p inputs = Some lines
    /\ (Listening ∈ lines <->
        exists srv wifi events,
          main fuel SSID p (map snd inputs) = Some (Running srv, wifi, events)).
Proof. apply main_prints_loop. Qed.

End Script.

(** ** The console of the pedometer *)

Section Krokomierz.
Context {R : Type} `{Arith R} `{Sqrt R}.
Implicit Types (s : StepDetector R) (srv : server (StepDetector R)) (i : input R).

(** The lines of the detector do not depend on the count. *)
Lemma peak_logic_prints_bump cand f th k s :
  peak_logic_prints cand f th (bump k s) = peak_logic_prints cand f th s.
Proof. destruct cand as [c|]; [|done]. cbn [peak_logic_prints]. by rewrite confirm_peak_bump. Qed.

Lemma process_sample_prints_bump ax ay az k s :
  process_sample_prints ax ay az (bump k s) = process_sample_prints ax ay az s.
Proof.
  unfold process_sample_prints. cbn zeta.
  change (conditioned (norm ax ay az) (bump k s))
    with (bump k (conditioned (norm ax ay az) s)).
  change (lp_filter_buffer (bump k ?x)) with (lp_filter_buffer x).
  destruct (_ <? _); [done|]. destruct (lp_filter _) as [f|]; [|done].
  change (thresholded f (bump k ?x)) with (bump k (thresholded f x)).
  change (threshold_buffer (bump k ?x)) with (threshold_buffer x).
  change (buffers_filling (bump k ?x)) with (buffers_filling x).
  destruct (truediv _ _); [|done]. destruct (buffers_filling _); [done|].
  apply peak_logic_prints_bump.
Qed.

Lemma feed_prints_bump k samples s : feed_prints samples (bump k s) = feed_prints samples s.
Proof.
  revert s. induction samples as [|[[ax ay] az] samples IH]; intros s; [done|].
  cbn [feed_prints]. unfold exec. rewrite process_sample_prints_bump, process_sample_bump.
  cbn [snd]. by rewrite IH.
Qed.

Lemma feed_prints_detection samples s s' :
  detection s = detection s' -> feed_prints samples s = feed_prints samples s'.
Proof. intros ->%detection_inv. by rewrite feed_prints_bump. Qed.

Lemma feed_prints_app samples later s :
  feed_prints (samples ++ later) s
  = feed_prints samples s ++ feed_prints later (feed samples s).
Proof.
  revert s. induction samples as [|[[ax ay] az] samples IH]; intros s; [done|].
  cbn [app feed_prints feed foldl]. by rewrite IH, app_assoc.
Qed.

Lemma detector_prints_now i srv :
  detector_prints process_sample_prints i srv
  = feed_prints (sampled_now i srv) (krokomierz srv).
Proof.
  unfold detector_prints, sampled_now. destruct (_ <? _); [|done].
  destruct (sensor i) as [ax ay az|]; [|done]. cbn [feed_prints]. by rewrite app_nil_r.
Qed.

(** The detector's lines of a run are those of the stream it sampled: the
    routes change the count only. *)
Lemma detector_run_sampled (inputs : list (input R)) srv :
  detector_run process_sample_prints inputs srv
  = feed_prints (sampled inputs srv) (krokomierz srv).
Proof.
  revert srv. induction inputs as [|i inputs IH]; intros srv; [done|].
  rewrite sampled_cons, feed_prints_app. cbn [detector_run].
  rewrite detector_prints_now, IH. f_equal.
  apply feed_prints_detection, turn_detection.
Qed.

(** C24: the [Step] lines of the console.  Along any run of the loop, under
    any faults and whatever requests are served, the amplitudes of the
    ["STEP!"] lines are those the detector prints on the stream of the
    readings the sensor branch sampled, up to the turn an exception left;
    there are as many as that stream adds steps. *)
Theorem console_steps (inputs : list (fault * input R)) srv :
  let samples := sampled (map snd (take (ran inputs srv) inputs)) srv in
  amplitudes (run_prints process_sample_prints inputs srv)
  = feed_prints samples (krokomierz srv)
  /\ Z.of_nat (length (amplitudes (run_prints process_sample_prints inputs srv)))
     = step_count (feed samples (krokomierz srv)) - step_count (krokomierz srv).
Proof.
  cbn zeta. rewrite (amplitudes_run (H0 := step_detector_laws)), detector_run_sampled.
  split; [done | apply feed_prints_count].
Qed.

End Krokomierz.

(** ** The console of the board, evaluated *)

(** The board on [crash]: the line of the request whose reply did not go
    out, no [Closed] line for the connection whose [close] raised. *)
Example console_crash :
  main_prints process_sample_prints 21 "dom"
    (PowerOn None 0 (fun k => bool_decide (2 <= k)%nat) "10.0.0.2" None) crash
  = Some [Connecting "dom"; Connected "10.0.0.2"; Listening;
          GotConnection; RequestLine "GET /dodaj HTTP/1.1"; SocketError 104; Closed;
          GotConnection; RequestLine "GET /steps HTTP/1.1"].
Proof. by vm_compute. Qed.

Lemma handlers_idle_witness :
  Forall (fun l => l <> SensorError)
    (run_prints process_sample_prints crash (boot "10.0.0.2" 0))
  /\ Forall (fun l => l <> UnknownError)
       (run_prints process_sample_prints crash (boot "10.0.0.2" 0)).
Proof.
  destruct (handlers_idle process_sample_prints crash (boot "10.0.0.2" 0) (boot_ok _ _))
    as [Hs Hu].
  split; [apply Hs | apply Hu];
    repeat (apply Forall_cons; split; [by vm_compute|]); apply Forall_nil_2.
Defined.

Lemma listening_printed_witness :
  exists lines,
    main_prints process_sample_prints 21 "dom" no_sensor crash = Some lines
    /\ (Listening ∈ lines <->
        exists srv wifi events,
          main (D := StepDetector float) 21 "dom" no_sensor (map snd crash)
          = Some (Running srv, wifi, events)).
Proof. apply listening_printed. lia. Defined.
