(* ===== verification/Stream.v ===== *)
(** * Stream: the detector as a function of the sample stream

    The class keeps three bounded deques, two scalars and the three fields
    of the peak machine, and updates them in place.  This file gives the
    reference the class is meant to compute, with nothing bounded and
    nothing mutated: a [history] holds every magnitude, every DC-blocked
    sample and every filtered sample seen so far, and [hstep] extends it by
    one sample, reading the sliding windows off the histories ([lastn N],
    [taps], [lastn T]) and moving the abstract peak machine of
    [PeakMachine].

    [concrete] is the object a history stands for.  [process_sample] on
    [concrete h] returns normally in [concrete (hstep sample h)] when the
    low-pass and threshold sizes are at least one ([concrete_step]), and a
    detector built by [__init__] and fed a stream is [concrete] of the
    history of that stream ([feed_implements]): the deques, the scalars
    and the count are functions of the stream alone. *)

From Stdlib Require Import ZArith Lia Floats.
From stdpp Require Import base tactics list.
From S2P Require Import Prelude Numeric Deque StepDetector Branches Invariant.
From S2P Require Import PeakMachine Refinement.

#[local] Open Scope Z_scope.

Section Stream.
Context {R : Type} `{Arith R} `{Sqrt R}.
Variables (N L T : nat) (A : R).

(** Everything the detector has computed so far. *)
Record history : Type := History {
  magnitudes : list R;  (* the norms, in the order of arrival *)
  blocked : list R;     (* the DC-blocked samples, newest first *)
  smoothed : list R;    (* the filtered samples, in the order of arrival *)
  previous : R;         (* the last filtered sample *)
  trend : Z;            (* the last slope *)
  paired : machine      (* the peaks confirmed so far *)
}.

(** Before the first sample. *)
Definition silence : history := History [] [] [] (of_Z 0) 0 (Machine NONE 0).

(** The mean of a window. *)
Definition mean (w : list R) : R := (pysum w / of_Z (Z.of_nat (length w)))%num.

(** DC blocking: the sample less the mean of the window that holds it. *)
Definition centred (w : list R) (x : R) : R :=
  match w with [] => of_Z 0 | _ => (x - mean w)%num end.

(** The low-pass window: the newest [L] DC-blocked samples, over the zeros
    the buffer starts from. *)
Definition taps (bs : list R) : list R :=
  take L (bs ++ replicate (L `min` 7) (of_Z 0)).

(** The kernel on the first seven of a window, the last item of a shorter
    one. *)
Definition smooth (w : list R) : option R :=
  match w with
  | b0 :: b1 :: b2 :: b3 :: b4 :: b5 :: b6 :: _ =>
      Some ((b0 + of_Z 2 * b1 + of_Z 3 * b2 + of_Z 4 * b3
             + of_Z 3 * b4 + of_Z 2 * b5 + b6) / of_Z 16)%num
  | _ => last w
  end.

(** Whether a window over [l] of capacity [n] is still filling. *)
Definition filling (n : nat) (l : list R) : bool := (length (lastn n l) <? n)%nat.

(** One sample. *)
Definition hstep (sample : R * R * R) (h : history) : history :=
  let '(ax, ay, az) := sample in
  let n := norm ax ay az in
  let ns := magnitudes h ++ [n] in
  let bs := centred (lastn N ns) n :: blocked h in
  let waiting := History ns bs (smoothed h) (previous h) (trend h) (paired h) in
  if (length (taps bs) <? L)%nat then waiting
  else match smooth (taps bs) with
       | None => waiting
       | Some f =>
           let fs := smoothed h ++ [f] in
           let slope := sign_of_slope (previous h) f in
           let cand := peak_candidate_of slope (trend h) in
           let o := observe cand f (mean (lastn T fs)) A in
           History ns bs fs f slope
             (if filling N ns || filling T fs then paired h
              else snd (anext o (paired h)))
       end.

(** The history of a stream. *)
Definition hrun (samples : list (R * R * R)) (h : history) : history :=
  foldl (fun h sample => hstep sample h) h samples.

(** The object a history stands for. *)
Definition concrete (h : history) : StepDetector R :=
  {| norm_window_size := Z.of_nat N;
     lp_filter_size := Z.of_nat L;
     threshold_window_size := Z.of_nat T;
     min_step_amplitude := A;
     norm_buffer := Deque (lastn N (magnitudes h)) N;
     lp_filter_buffer := Deque (taps (blocked h)) L;
     threshold_buffer := Deque (lastn T (smoothed h)) T;
     last_filtered := previous h;
     last_slope := trend h;
     last_peak := code (phase_of (paired h));
     peak_pair := if pending (peaks (paired h)) then marker (phase_of (paired h))
                  else (0, 0);
     step_count := steps_of (peaks (paired h)) |}.

(** The three histories grow together: one magnitude and one DC-blocked
    value a sample, and one filtered value a sample once the low-pass window
    is full, which takes [L - 8] samples over the seven zeros it starts
    from. *)
Definition counted (h : history) : Prop :=
  length (magnitudes h) = length (blocked h)
  /\ length (smoothed h) = (length (blocked h) - (L - 8))%nat.

(** The number of samples before the peak logic first runs. *)
Definition latency : nat := (N `max` (T + (L - 8)))%nat.

(** The steps of a stream. *)
Definition stream_steps (samples : list (R * R * R)) : Z :=
  steps_of (peaks (paired (hrun samples silence))).

(** ** Windows *)

Lemma ltb_of_nat (a b : nat) : (Z.of_nat a <? Z.of_nat b) = (a <? b)%nat.
Proof. destruct (Z.ltb_spec (Z.of_nat a) (Z.of_nat b)), (Nat.ltb_spec a b); [done|lia..|done]. Qed.

(** [append] on the window over a history is the window over the longer
    history. *)
Lemma append_window (x : R) n l :
  append x (Deque (lastn n l) n) = Deque (lastn n (l ++ [x])) n.
Proof.
  assert (deque_ok (Deque (lastn n l) n)) as Hok.
  { unfold deque_ok. cbn [items maxlen]. rewrite length_lastn. lia. }
  pose proof (items_append x _ Hok) as Hi. cbn [items maxlen] in Hi.
  rewrite lastn_app_lastn in Hi. rewrite <- Hi. by unfold append.
Qed.

Lemma length_taps bs : length (taps bs) = (L `min` (length bs + L `min` 7))%nat.
Proof. unfold taps. by rewrite length_take, length_app, length_replicate. Qed.

Lemma appendleft_taps x bs :
  appendleft x (Deque (taps bs) L) = Deque (taps (x :: bs)) L.
Proof.
  assert (deque_ok (Deque (taps bs) L)) as Hok.
  { unfold deque_ok. cbn [items maxlen]. rewrite length_taps. lia. }
  pose proof (items_appendleft x _ Hok) as Hi. cbn [items maxlen] in Hi.
  assert (take L (x :: taps bs) = taps (x :: bs)) as Et.
  { unfold taps. apply (take_app_take L [x]). }
  rewrite Et in Hi. rewrite <- Hi. by unfold appendleft.
Qed.

Lemma taps_nil : taps [] = replicate (L `min` 7) (of_Z 0).
Proof. unfold taps. cbn [app]. apply take_ge. rewrite length_replicate. lia. Qed.

(** ** The phases on a window *)

Lemma truediv_mean (w : list R) : w <> [] -> truediv (pysum w) (len (Deque w T)) = Ok (mean w).
Proof.
  intros Hw. rewrite truediv_ok; [done|]. unfold len. cbn [items].
  destruct w; [done | cbn [length]; lia].
Qed.

Lemma lp_filter_smooth w n :
  lp_filter (Deque w n)
  = match smooth w with Some f => Ok f | None => Raise IndexError end.
Proof.
  destruct (decide (length w < 7)%nat) as [Hs|Hs].
  - rewrite lp_filter_short by (unfold len; cbn [items]; lia).
    unfold index_last. cbn [items].
    by do 7 (destruct w as [|? w]; [done|]); cbn [length] in Hs; lia.
  - do 7 (destruct w as [|? w]; [cbn [length] in Hs; lia|]).
    by rewrite lp_filter_full.
Qed.

Lemma smooth_is_Some w : w <> [] -> is_Some (smooth w).
Proof.
  intros Hw. destruct (decide (length w < 7)%nat) as [Hs|Hs].
  - assert (smooth w = last w) as ->.
    { by do 7 (destruct w as [|? w]; [done|]); cbn [length] in Hs; lia. }
    destruct w as [|x w]; [done|]. rewrite last_cons. by destruct (last w).
  - do 7 (destruct w as [|? w]; [cbn [length] in Hs; lia|]). by eexists.
Qed.

Lemma lastn_snoc_nonempty n (l : list R) x : (1 <= n)%nat -> lastn n (l ++ [x]) <> [].
Proof.
  intros Hn Hnil. apply (f_equal length) in Hnil.
  rewrite length_lastn, length_app in Hnil. cbn [length] in Hnil. lia.
Qed.

(** ** The object of a history, phase by phase *)

Lemma concrete_refines h : consistent (paired h) -> refines 0 (concrete h) (paired h).
Proof. intros Hc. by unfold refines. Qed.

Lemma dc_blocked_concrete n h :
  dc_blocked n (concrete h) = centred (lastn N (magnitudes h ++ [n])) n.
Proof.
  unfold dc_blocked. cbn [norm_buffer concrete]. rewrite append_window.
  unfold is_empty, centred, mean, len. cbn [items]. by destruct (lastn _ _).
Qed.

Lemma conditioned_concrete n ns bs fs p t m :
  conditioned n (concrete (History ns bs fs p t m))
  = concrete (History (ns ++ [n]) (centred (lastn N (ns ++ [n])) n :: bs) fs p t m).
Proof.
  unfold conditioned. rewrite dc_blocked_concrete. unfold concrete.
  cbn [set_lp_filter_buffer set_norm_buffer norm_buffer lp_filter_buffer
       magnitudes blocked smoothed previous trend paired].
  by rewrite append_window, appendleft_taps.
Qed.

Lemma thresholded_concrete f ns bs fs p t m :
  thresholded f (concrete (History ns bs fs p t m))
  = concrete (History ns bs (fs ++ [f]) p t m).
Proof.
  unfold thresholded, concrete.
  cbn [set_threshold_buffer threshold_buffer magnitudes blocked smoothed
       previous trend paired].
  by rewrite append_window.
Qed.

Lemma buffers_filling_concrete h :
  buffers_filling (concrete h) = filling N (magnitudes h) || filling T (smoothed h).
Proof.
  unfold buffers_filling, filling, len. cbn [concrete norm_buffer threshold_buffer
    norm_window_size threshold_window_size items]. by rewrite !ltb_of_nat.
Qed.

(** The peak logic on the object of a history moves the machine of the
    history and nothing else. *)
Lemma peak_logic_concrete cand f th ns bs fs p t m :
  consistent m ->
  peak_logic cand f th (concrete (History ns bs fs p t m))
  = concrete (History ns bs fs p t (snd (anext (observe cand f th A) m))).
Proof.
  intros Hc. set (h := History ns bs fs p t m).
  pose proof (refines_peak_logic 0 cand f th _ _ (concrete_refines h Hc)) as Hr.
  pose proof (peak_logic_frame cand f th (concrete h)) as Hf.
  destruct (peak_logic cand f th (concrete h)).
  unfold refines in Hr. cbn in Hr, Hf. destruct_and!. simplify_eq.
  unfold concrete. cbn [magnitudes blocked smoothed previous trend paired]. by f_equal.
Qed.

Lemma hstep_consistent sample h : consistent (paired h) -> consistent (paired (hstep sample h)).
Proof.
  intros Hc. destruct sample as [[ax ay] az]. unfold hstep.
  repeat case_match; cbn [paired]; eauto using astep_consistent, anext_astep.
Qed.

Lemma hrun_consistent samples h : consistent (paired h) -> consistent (paired (hrun samples h)).
Proof.
  revert h. induction samples as [|x samples IH]; intros h Hc; [done|].
  apply IH. by apply hstep_consistent.
Qed.

(** ** One call and a stream *)

Lemma initial_concrete :
  initial (Z.of_nat N) (Z.of_nat L) (Z.of_nat T) A = concrete silence.
Proof.
  unfold initial, concrete, silence. cbn [magnitudes blocked smoothed previous trend paired].
  by rewrite !Nat2Z.id, taps_nil.
Qed.

Lemma process_sample_concrete ax ay az h :
  (1 <= L)%nat -> (1 <= T)%nat -> consistent (paired h) ->
  process_sample ax ay az (concrete h) = (Ok tt, concrete (hstep (ax, ay, az) h)).
Proof.
  intros HL HT Hc. destruct h as [ns bs fs p t m]. cbn [paired] in Hc.
  rewrite process_sample_eq. cbn zeta. rewrite conditioned_concrete. unfold hstep.
  cbn [magnitudes blocked smoothed previous trend paired].
  set (n := norm ax ay az). set (bs' := centred _ n :: bs).
  change (len (lp_filter_buffer (concrete (History (ns ++ [n]) bs' fs p t m)))
          <? lp_filter_size (concrete (History ns bs fs p t m)))
    with (Z.of_nat (length (taps bs')) <? Z.of_nat L).
  rewrite ltb_of_nat. destruct (Nat.ltb_spec (length (taps bs')) L) as [|Hfull]; [done|].
  change (lp_filter_buffer (concrete (History (ns ++ [n]) bs' fs p t m)))
    with (Deque (taps bs') L).
  rewrite lp_filter_smooth. destruct (smooth_is_Some (taps bs')) as [f ->].
  { intros E. rewrite E in Hfull. cbn [length] in Hfull. lia. }
  rewrite detect_eq. cbn zeta. rewrite thresholded_concrete.
  change (threshold_buffer (concrete (History (ns ++ [n]) bs' (fs ++ [f]) p t m)))
    with (Deque (lastn T (fs ++ [f])) T).
  cbn [items]. rewrite truediv_mean by by apply lastn_snoc_nonempty.
  rewrite buffers_filling_concrete.
  cbn [magnitudes smoothed last_filtered last_slope concrete previous trend].
  destruct (filling N _ || filling T _); [done|].
  by rewrite peak_logic_concrete.
Qed.

Lemma feed_concrete samples h :
  (1 <= L)%nat -> (1 <= T)%nat -> consistent (paired h) ->
  feed samples (concrete h) = concrete (hrun samples h).
Proof.
  intros HL HT. revert h. induction samples as [|[[ax ay] az] samples IH]; intros h Hc; [done|].
  cbn [feed hrun foldl]. unfold exec. rewrite process_sample_concrete by done.
  apply IH. by apply hstep_consistent.
Qed.

(** The magnitudes of a history are the norms of the stream, and every
    sample leaves one DC-blocked value. *)
Lemma hrun_magnitudes samples h :
  magnitudes (hrun samples h)
  = magnitudes h ++ map (fun '(ax, ay, az) => norm ax ay az) samples
  /\ length (blocked (hrun samples h)) = (length (blocked h) + length samples)%nat.
Proof.
  revert h. induction samples as [|[[ax ay] az] samples IH]; intros h.
  - cbn. by rewrite app_nil_r, Nat.add_0_r.
  - cbn [hrun foldl map length]. fold (hrun samples (hstep (ax, ay, az) h)).
    destruct (IH (hstep (ax, ay, az) h)) as [-> ->]. unfold hstep.
    repeat case_match; cbn [magnitudes blocked length];
      by rewrite <- app_assoc; split; [|lia].
Qed.

(** ** Start-up, on the histories *)

Lemma hstep_counted sample h : (1 <= L)%nat -> counted h -> counted (hstep sample h).
Proof.
  intros HL [Hm Hs]. destruct sample as [[ax ay] az]. unfold hstep, counted.
  destruct (Nat.ltb_spec (length (taps (centred (lastn N (magnitudes h ++ [norm ax ay az]))
                                         (norm ax ay az) :: blocked h))) L) as [Hw|Hw];
    rewrite length_taps in Hw; cbn [length] in Hw.
  - cbn [magnitudes blocked smoothed]. rewrite length_app. cbn [length]. lia.
  - destruct (smooth_is_Some (taps (centred (lastn N (magnitudes h ++ [norm ax ay az]))
                                      (norm ax ay az) :: blocked h))) as [f ->].
    { intros E%(f_equal length). rewrite length_taps in E. cbn [length] in E. lia. }
    cbn [magnitudes blocked smoothed]. rewrite !length_app. cbn [length]. lia.
Qed.

(** A sample that arrives before [latency] leaves the machine alone. *)
Lemma hstep_quiet sample h :
  counted h -> (length (blocked h) + 1 < latency)%nat ->
  paired (hstep sample h) = paired h.
Proof.
  intros [Hm Hs] Hk. destruct sample as [[ax ay] az]. unfold hstep, latency in *.
  destruct (Nat.ltb_spec (length (taps (centred (lastn N (magnitudes h ++ [norm ax ay az]))
                                         (norm ax ay az) :: blocked h))) L) as [Hw|Hw];
    [done|]. rewrite length_taps in Hw. cbn [length] in Hw.
  destruct (smooth _) as [f|]; [|done]. cbn [paired].
  assert (filling N (magnitudes h ++ [norm ax ay az])
          || filling T (smoothed h ++ [f]) = true) as ->; [|done].
  unfold filling. rewrite !length_lastn, !length_app. cbn [length].
  apply orb_true_iff. rewrite !Nat.ltb_lt. lia.
Qed.

Lemma hrun_quiet samples h :
  (1 <= L)%nat -> counted h -> (length (blocked h) + length samples < latency)%nat ->
  paired (hrun samples h) = paired h.
Proof.
  intros HL. revert h. induction samples as [|x samples IH]; intros h Hc Hk; [done|].
  cbn [length] in Hk. cbn [hrun foldl]. fold (hrun samples (hstep x h)).
  assert (length (blocked (hstep x h)) = S (length (blocked h))) as Hb.
  { pose proof (hrun_magnitudes [x] h) as [_ Hb]. cbn in Hb. lia. }
  rewrite IH; [apply hstep_quiet; [done|lia] | by apply hstep_counted | lia].
Qed.

(** C26: with sizes [L >= 1] and [T >= 1], one call of [process_sample]
    on the object of a history whose peak fields are consistent returns
    normally and leaves the object of the history extended by the sample:
    the in-place updates of the three deques, the two scalars and the peak
    fields compute [hstep]. *)
Theorem process_sample_implements ax ay az h :
  (1 <= L)%nat -> (1 <= T)%nat -> consistent (paired h) ->
  process_sample ax ay az (concrete h) = (Ok tt, concrete (hstep (ax, ay, az) h)).
Proof. apply process_sample_concrete. Qed.

(** C3: a detector constructed with sizes [N], [L >= 1] and [T >= 1] and fed
    a stream is the object of the history of that stream; in particular its
    count is [stream_steps] of the stream, a function of the samples alone. *)
Theorem feed_implements samples :
  (1 <= L)%nat -> (1 <= T)%nat ->
  let s := feed samples (initial (Z.of_nat N) (Z.of_nat L) (Z.of_nat T) A) in
  s = concrete (hrun samples silence)
  /\ step_count s = stream_steps samples
  /\ consistent (paired (hrun samples silence)).
Proof.
  intros HL HT. cbv zeta. rewrite initial_concrete, feed_concrete by done.
  split_and!; [done|done|]. by apply hrun_consistent.
Qed.

(** C27: with sizes [L >= 1] and [T >= 1], a fresh detector confirms no
    peak and counts no step on a stream shorter than [latency], the larger
    of [N] and [T + (L - 8)]: the norm window must be full, and the
    threshold window fills from the first sample that leaves the low-pass
    filter, [L - 8] samples into the stream when [L] is above eight. *)
Theorem detection_latency samples :
  (1 <= L)%nat -> (1 <= T)%nat -> (length samples < latency)%nat ->
  let s := feed samples (initial (Z.of_nat N) (Z.of_nat L) (Z.of_nat T) A) in
  last_peak s = 0 /\ peak_pair s = (0, 0) /\ step_count s = 0.
Proof.
  intros HL HT Hk. cbv zeta. rewrite initial_concrete, feed_concrete by done.
  unfold concrete. cbn [last_peak peak_pair step_count].
  by rewrite hrun_quiet.
Qed.

End Stream.

Lemma process_sample_implements_witness :
  process_sample 0%float 3%float 4%float (concrete 2 7 3 1%float silence)
  = (Ok tt, concrete 2 7 3 1%float (hstep 2 7 3 1%float (0, 3, 4)%float silence)).
Proof.
  apply (process_sample_implements 2 7 3 1%float 0%float 3%float 4%float silence); [lia|lia|done].
Defined.

Lemma feed_implements_witness :
  let s := feed [(0, 0, 1); (0, 3, 4); (0, 0, 2)]%float (initial 2 7 3 1%float) in
  s = concrete 2 7 3 1%float (hrun 2 7 3 1%float [(0, 0, 1); (0, 3, 4); (0, 0, 2)]%float silence)
  /\ step_count s = stream_steps 2 7 3 1%float [(0, 0, 1); (0, 3, 4); (0, 0, 2)]%float
  /\ consistent (paired (hrun 2 7 3 1%float [(0, 0, 1); (0, 3, 4); (0, 0, 2)]%float silence)).
Proof.
  apply (feed_implements 2 7 3 1%float [(0, 0, 1); (0, 3, 4); (0, 0, 2)]%float); lia.
Defined.

Lemma detection_latency_witness :
  let s := feed (replicate 11 (0, 3, 4)%float) (initial 4 12 8 1%float) in
  last_peak s = 0 /\ peak_pair s = (0, 0) /\ step_count s = 0.
Proof.
  apply (detection_latency 4 12 8 1%float (replicate 11 (0, 3, 4)%float));
    cbn; lia.
Defined.
