(* ===== verification/Locality.v ===== *)
(** * Locality: the signal path has a finite memory

    The norm window, the low-pass buffer and the threshold window are
    recomputed from their contents on every sample, so that what the
    detector has seen leaves its signal path once the windows have turned
    over: a magnitude after [N] samples, a DC-blocked sample after [L]
    more, a filtered sample after [T] more.  This file proves it on the
    histories of [Stream]: two histories fed the same samples [agree] on a
    part that grows with the number of samples, and after [memory] samples
    the buffers, [last_filtered] and [last_slope] of the two objects are
    equal, whatever came before.  A reading that is off (an outlier, a NaN)
    is out of the signal path after that many samples; only the peak
    fields remember. *)

From Stdlib Require Import ZArith Lia Floats.
From stdpp Require Import base tactics list.
From S2P Require Import Prelude Numeric Deque StepDetector Branches Invariant.
From S2P Require Import PeakMachine Refinement Stream.

#[local] Open Scope Z_scope.

Section Locality.
Context {R : Type} `{Arith R} `{Sqrt R}.
Variables (N L T : nat) (A : R).

(** Two lists have the same last [c] items, and have that many. *)
Definition same_end (c : nat) (l1 l2 : list R) : Prop :=
  (c <= length l1)%nat /\ (c <= length l2)%nat /\ lastn c l1 = lastn c l2.

(** Two lists have the same first [b] items, and have that many. *)
Definition same_start (b : nat) (l1 l2 : list R) : Prop :=
  (b <= length l1)%nat /\ (b <= length l2)%nat /\ take b l1 = take b l2.

(** What two histories share after [j] common samples: the last [j]
    magnitudes, the DC-blocked samples computed from full common windows,
    and the filtered samples computed from full common taps. *)
Record agree (j : nat) (h1 h2 : history (R := R)) : Prop := Agree {
  agree_magnitudes : same_end j (magnitudes h1) (magnitudes h2);
  agree_blocked : same_start (j - (N - 1)) (blocked h1) (blocked h2);
  agree_smoothed :
    same_end (j - (N - 1) - (L - 1)) (smoothed h1) (smoothed h2);
  agree_previous :
    (1 <= j - (N - 1) - (L - 1))%nat -> previous h1 = previous h2;
  agree_trend :
    (2 <= j - (N - 1) - (L - 1))%nat -> trend h1 = trend h2
}.

(** The number of common samples after which the signal path is the
    same. *)
Definition memory : nat := ((N `max` 1) + L + (T `max` 2) - 2)%nat.

(** The signal path of an object: everything but the peak fields. *)
Definition signal (s : StepDetector R) : deque R * deque R * deque R * R * Z :=
  (norm_buffer s, lp_filter_buffer s, threshold_buffer s, last_filtered s, last_slope s).

(** ** Lists with a common end or a common start *)

Lemma same_end_0 l1 l2 : same_end 0 l1 l2.
Proof. unfold same_end. rewrite !lastn_0. split_and!; [lia..|done]. Qed.

Lemma same_end_snoc c l1 l2 x :
  same_end c l1 l2 -> same_end (S c) (l1 ++ [x]) (l2 ++ [x]).
Proof.
  intros (H1 & H2 & E). unfold same_end. rewrite !length_app. cbn [length].
  split_and!; [lia..|]. rewrite !lastn_app_le by (cbn [length]; lia).
  cbn [length]. replace (S c - 1)%nat with c by lia. by rewrite E.
Qed.

Lemma same_end_le c m l1 l2 : same_end c l1 l2 -> (m <= c)%nat -> lastn m l1 = lastn m l2.
Proof.
  intros (_ & _ & E) Hm.
  by rewrite <- (lastn_lastn_le m c l1), <- (lastn_lastn_le m c l2), E.
Qed.

Lemma same_start_0 l1 l2 : same_start 0 l1 l2.
Proof. unfold same_start. split_and!; [lia..|done]. Qed.

Lemma same_start_cons b l1 l2 x :
  same_start b l1 l2 -> same_start (S b) (x :: l1) (x :: l2).
Proof.
  intros (H1 & H2 & E). unfold same_start. cbn [length take].
  split_and!; [lia..|]. by rewrite E.
Qed.

(** Taps over a common start of at least [L] items are full and equal. *)
Lemma taps_same_start b bs1 bs2 :
  same_start b bs1 bs2 -> (L <= b)%nat ->
  taps L bs1 = taps L bs2 /\ length (taps L bs1) = L.
Proof.
  intros (H1 & H2 & E) HL. split; [|rewrite length_taps; lia].
  unfold taps. rewrite !take_app_le by lia.
  rewrite <- (Nat.min_l L b), <- !take_take by done. by rewrite E.
Qed.

(** ** Histories that agree *)

Lemma agree_0 h1 h2 : agree 0 h1 h2.
Proof. split; cbn; auto using same_end_0, same_start_0; lia. Qed.

(** The DC-blocked sample of a common sample is the same once the norm
    windows are. *)
Lemma agree_centred j h1 h2 n :
  agree j h1 h2 ->
  same_start (S j - (N - 1))
    (centred (lastn N (magnitudes h1 ++ [n])) n :: blocked h1)
    (centred (lastn N (magnitudes h2 ++ [n])) n :: blocked h2).
Proof.
  intros [Hm Hb _ _ _]. destruct (decide (N <= S j)%nat) as [Hfull|Hshort].
  - rewrite (same_end_le (S j) N _ _ (same_end_snoc _ _ _ n Hm) Hfull).
    replace (S j - (N - 1))%nat with (S (j - (N - 1))) by lia.
    by apply same_start_cons.
  - replace (S j - (N - 1))%nat with 0%nat by lia. apply same_start_0.
Qed.

(** One more common sample. *)
Lemma agree_hstep j h1 h2 sample :
  (1 <= L)%nat -> agree j h1 h2 -> agree (S j) (hstep N L T A sample h1) (hstep N L T A sample h2).
Proof.
  intros HL Ha. destruct sample as [[ax ay] az]. unfold hstep.
  set (n := norm ax ay az).
  pose proof (agree_centred j h1 h2 n Ha) as Hbs.
  pose proof (same_end_snoc _ _ _ n (agree_magnitudes _ _ _ Ha)) as Hns.
  destruct (decide (L <= S j - (N - 1))%nat) as [Hfull|Hshort].
  - destruct (taps_same_start _ _ _ Hbs Hfull) as [Et Hlen]. rewrite <- Et.
    rewrite (proj2 (Nat.ltb_ge _ _)) by lia.
    destruct (smooth_is_Some (taps L (centred (lastn N (magnitudes h1 ++ [n])) n
                                       :: blocked h1))) as [f ->].
    { intros E. rewrite E in Hlen. cbn [length] in Hlen. lia. }
    destruct Ha as [_ _ Hs Hp Ht]. split; cbn [magnitudes blocked smoothed previous trend];
      [done|done| |done|].
    + replace (S j - (N - 1) - (L - 1))%nat with (S (j - (N - 1) - (L - 1))) by lia.
      by apply same_end_snoc.
    + intros Hc. rewrite Hp; [done|lia].
  - assert (S j - (N - 1) - (L - 1) = 0)%nat as Ec by lia.
    repeat case_match; split; cbn [magnitudes blocked smoothed previous trend];
      rewrite ?Ec; auto using same_end_0; lia.
Qed.

Lemma agree_hrun samples j h1 h2 :
  (1 <= L)%nat -> agree j h1 h2 ->
  agree (j + length samples) (hrun N L T A samples h1) (hrun N L T A samples h2).
Proof.
  intros HL. revert j h1 h2.
  induction samples as [|x samples IH]; intros j h1 h2 Ha; cbn [length hrun foldl].
  - by rewrite Nat.add_0_r.
  - replace (j + S (length samples))%nat with (S j + length samples)%nat by lia.
    by apply IH, agree_hstep.
Qed.

(** Histories that agree on [memory] samples stand for objects with the
    same signal path. *)
Lemma agree_signal j h1 h2 :
  (1 <= L)%nat -> agree j h1 h2 -> (memory <= j)%nat ->
  signal (concrete N L T A h1) = signal (concrete N L T A h2).
Proof.
  unfold memory. intros HL [Hm Hb Hs Hp Ht] Hj. unfold signal, concrete.
  cbn [norm_buffer lp_filter_buffer threshold_buffer last_filtered last_slope].
  rewrite (same_end_le _ N _ _ Hm), (same_end_le _ T _ _ Hs) by lia.
  destruct (taps_same_start _ _ _ Hb) as [-> _]; [lia|].
  rewrite Hp, Ht by lia. done.
Qed.

Lemma feed_signal pre1 pre2 tail :
  (1 <= L)%nat -> (1 <= T)%nat -> (memory <= length tail)%nat ->
  signal (feed (pre1 ++ tail) (concrete N L T A silence))
  = signal (feed (pre2 ++ tail) (concrete N L T A silence)).
Proof.
  intros HL HT Hlen. rewrite !feed_concrete by done. unfold hrun. rewrite !foldl_app.
  apply (agree_signal (0 + length tail)); [done| |lia].
  apply agree_hrun; [done|]. apply agree_0.
Qed.

(** C19: the signal path forgets.  Two detectors constructed with the same
    sizes [L >= 1] and [T >= 1] and fed streams that end in the same
    [memory] = max(N, 1) + L + max(T, 2) - 2 samples have the same three
    buffers, the same [last_filtered] and the same [last_slope], whatever
    the streams were before: a reading is out of the windows and of the
    slope after that many samples, and only [last_peak], [peak_pair] and
    [step_count] depend on more of the past. *)
Theorem finite_memory pre1 pre2 tail :
  (1 <= L)%nat -> (1 <= T)%nat -> (memory <= length tail)%nat ->
  signal (feed (pre1 ++ tail) (initial (Z.of_nat N) (Z.of_nat L) (Z.of_nat T) A))
  = signal (feed (pre2 ++ tail) (initial (Z.of_nat N) (Z.of_nat L) (Z.of_nat T) A)).
Proof. rewrite initial_concrete. apply feed_signal. Qed.

End Locality.

(** A reading of NaN on one axis, then ten good readings: the signal path
    is the one of a detector that never saw it. *)
Lemma finite_memory_witness :
  signal (feed ([(nan, 0, 1)%float] ++ replicate 10 (0, 3, 4)%float) (initial 2 7 3 1%float))
  = signal (feed ([] ++ replicate 10 (0, 3, 4)%float) (initial 2 7 3 1%float)).
Proof.
  apply (finite_memory 2 7 3 1%float [(nan, 0, 1)%float] [] (replicate 10 (0, 3, 4)%float));
    cbn; lia.
Defined.
