(* ===== verification/EndToEnd.v ===== *)
(** * EndToEnd: from the readings to the reply

    The whole program in one statement.  The loop polls the sensor, feeds
    the detector, copies the count and answers from the copy; [Stream]
    says what the detector computes.  Put together: after any run from
    boot that served no [/zeruj] and no [/dodaj], the global [steps] is
    the reference count [stream_steps] of the readings the loop sampled,
    with the default sizes 20, 7 and 10 and the floor 0.8, and the reply
    to a [GET /steps] of the next turn carries that count for the readings
    sampled up to and including that turn. *)

From Stdlib Require Import ZArith String Lia Floats.
From stdpp Require Import base tactics list strings.
From S2P Require Import Prelude Numeric Deque StepDetector Branches Invariant Reset.
From S2P Require Import Text Interface Clock Wifi Server Replies Loop Api Rate Reads.
From S2P Require Import PeakMachine Board Stream.

#[local] Open Scope Z_scope.

Section EndToEnd.
Context {R : Type} `{Arith R} `{Sqrt R}.
Implicit Types (srv : server (StepDetector R)) (i : input R).

(** The reference count of the default detector on a stream. *)
Definition default_steps (samples : list (R * R * R)) : Z :=
  stream_steps 20 7 10 (of_Z 8 / of_Z 10)%num samples.

Lemma default_concrete :
  default (R := R) = concrete 20 7 10 (of_Z 8 / of_Z 10)%num silence.
Proof. exact (initial_concrete 20 7 10 (of_Z 8 / of_Z 10)%num). Qed.

(** The default detector counts [default_steps]. *)
Lemma feed_default samples :
  step_count (feed samples (default (R := R))) = default_steps samples.
Proof. rewrite default_concrete, feed_concrete by (done || lia). done. Qed.

Lemma read_only_added (inputs : list (input R)) :
  Forall (fun i => changes_count i = false) inputs ->
  added inputs = 0 /\ Forall (fun i => asked i <> Some Zeruj) inputs.
Proof.
  induction 1 as [|i inputs Hi _ [IHa IHz]]; [done|].
  unfold changes_count in Hi. apply bool_decide_eq_false in Hi.
  split; [|apply Forall_cons; split; [tauto|done]].
  rewrite added_cons, IHa. case_bool_decide; [tauto|done].
Qed.

(** The detector after a read-only run from boot has counted the
    reference count of the readings sampled. *)
Lemma loop_default_steps ip t0 (inputs : list (input R)) :
  Forall (fun i => changes_count i = false) inputs ->
  step_count (krokomierz (loop inputs (boot ip t0)).1)
  = default_steps (sampled inputs (boot ip t0)).
Proof.
  intros Hc. destruct (read_only_added inputs Hc) as [Ha Hz].
  by rewrite loop_bump, Ha, bump_0, <- feed_default.
Qed.

Lemma loop_snoc (inputs : list (input R)) i srv :
  (loop (inputs ++ [i]) srv).1 = (turn i (loop inputs srv).1).1.
Proof.
  revert srv. induction inputs as [|j inputs IH]; intros srv; cbn [app loop fst].
  - by destruct (turn i srv).
  - destruct (turn j srv) as [srv1 events]. specialize (IH srv1).
    by destruct (loop (inputs ++ [i]) srv1), (loop inputs srv1).
Qed.

Lemma loop_steps_stream ip t0 (inputs : list (input R)) :
  Forall (fun i => changes_count i = false) inputs ->
  steps (loop inputs (boot ip t0)).1
  = Some (default_steps (sampled inputs (boot ip t0))).
Proof.
  intros Hc. rewrite <- loop_default_steps by done.
  exact (fresh_loop inputs (boot ip t0) (boot_ok ip t0) Hc (boot_fresh ip t0)).
Qed.

(** From the readings to the copy of the count.  After any run from
    boot that served no [/zeruj] and no [/dodaj], the global [steps] the
    replies are built from is the reference count of the readings the
    sensor branch sampled: [stream_steps] with the default sizes and
    floor. *)
Theorem steps_is_stream_count ip t0 (inputs : list (input R)) :
  Forall (fun i => changes_count i = false) inputs ->
  steps (loop inputs (boot ip t0)).1
  = Some (default_steps (sampled inputs (boot ip t0))).
Proof. apply loop_steps_stream. Qed.

(** C5: from the readings to the reply.  After such a run, a turn that
    receives [GET /steps] sends one reply, whose body is the JSON object
    with the reference count of all the readings sampled, that turn's
    included, and closes the connection. *)
Theorem reply_is_stream_count ip t0 (inputs : list (input R)) i request :
  Forall (fun i => changes_count i = false) inputs ->
  socket i = Connection (Request request) ->
  classify (before crlf request) = GetSteps ->
  exists shown response,
    (turn i (loop inputs (boot ip t0)).1).2 = shown ++ [Send response; Close]
    /\ body_of response
       = Some (dumps_steps (Some (default_steps (sampled (inputs ++ [i]) (boot ip t0))))).
Proof.
  intros Hc Hs Hr.
  assert (changes_count i = false) as Hi.
  { unfold changes_count, asked. rewrite Hs, Hr. by apply bool_decide_eq_false; intros [|]. }
  assert (Forall (fun i => changes_count i = false) (inputs ++ [i])) as Hc'
    by (apply Forall_app; split; [done | by apply Forall_singleton]).
  pose proof (loop_steps_stream ip t0 (inputs ++ [i]) Hc') as Hsteps.
  rewrite loop_snoc in Hsteps.
  destruct (turn_get_steps i (loop inputs (boot ip t0)).1 request Hs Hr)
    as (response & Ee & Hb & Et).
  exists (sensor_update i (loop inputs (boot ip t0)).1).2, response.
  split; [done|]. by rewrite Hb, <- Et, Hsteps.
Qed.

End EndToEnd.

Lemma steps_is_stream_count_witness :
  steps (loop [Input 60 still true (get "/steps"); Input 120 still true (get "/")]
              (boot (D := StepDetector float) "10.0.0.2" 0)).1
  = Some (default_steps
            (sampled [Input 60 still true (get "/steps"); Input 120 still true (get "/")]
                     (boot "10.0.0.2" 0))).
Proof.
  apply steps_is_stream_count.
  repeat (apply Forall_cons; split; [by vm_compute|]). apply Forall_nil_2.
Defined.

Lemma reply_is_stream_count_witness :
  exists shown response,
    (turn (Input 120 still true (get "/steps"))
          (loop [Input 60 still true (get "/steps")]
                (boot (D := StepDetector float) "10.0.0.2" 0)).1).2
    = shown ++ [Send response; Close]
    /\ body_of response
       = Some (dumps_steps
                 (Some (default_steps
                          (sampled ([Input 60 still true (get "/steps")]
                                    ++ [Input 120 still true (get "/steps")])
                                   (boot "10.0.0.2" 0))))).
Proof.
  apply (reply_is_stream_count _ _ _ _ ("GET /steps HTTP/1.1" +:+ crlf +:+ "Host: 10.0.0.2"
                                         +:+ crlf +:+ crlf));
    [|reflexivity|reflexivity].
  repeat (apply Forall_cons; split; [by vm_compute|]). apply Forall_nil_2.
Defined.
