(* ===== verification/Filter.v ===== *)
(** * Filter: the two filters in exact arithmetic

    Over the rationals the arithmetic of [lp_filter] and [block_dc] is
    exact, and their algebra can be stated up to [Qeq]:

    - [kernel] is the seven-tap formula of line 37; it equals the weighted
      sum [dot] of the taps with the weights 1, 2, 3, 4, 3, 2, 1 over 16
      ([kernel_dot]), has unit gain on a constant signal, is linear,
      symmetric and monotone, and never leaves the range of its taps;
    - [pysum] is the sum of the list, whatever the order of additions, and
      [block_dc] removes a constant offset exactly: a constant window gives
      0, and shifting sample and window together changes nothing.

    [Proper] instances make [==] rewritable under [kernel], [dot] and
    [pysum].  The same file relates the norm window of the detector to the
    stream: after any stream it holds the last [norm_window_size] norms. *)

From Stdlib Require Import ZArith QArith Qabs Qfield Lia Lqa Morphisms Setoid.
From stdpp Require Import base tactics list.
From S2P Require Import Prelude Numeric Deque StepDetector Branches Invariant.

#[local] Open Scope Q_scope.

(** ** Reference definitions *)

(** The formula of line 37. *)
Definition kernel (b0 b1 b2 b3 b4 b5 b6 : Q) : Q :=
  (b0 + 2 * b1 + 3 * b2 + 4 * b3 + 3 * b4 + 2 * b5 + b6) / 16.

(** The weights of the kernel. *)
Definition weights : list Q := [1; 2; 3; 4; 3; 2; 1].

(** The weighted sum of a signal. *)
Fixpoint dot (ws xs : list Q) : Q :=
  match ws, xs with
  | w :: ws, x :: xs => w * x + dot ws xs
  | _, _ => 0
  end.

(** The sum of a list, from the right. *)
Definition total (xs : list Q) : Q := fold_right Qplus 0 xs.

(** The mean of a non-empty list. *)
Definition mean (xs : list Q) : Q := total xs / inject_Z (Z.of_nat (length xs)).

(** Pointwise equality of signals. *)
Definition signal_eq : relation (list Q) := Forall2 Qeq.

(** ** Setoid structure *)

#[export] Instance signal_eq_equiv : Equivalence signal_eq.
Proof. unfold signal_eq. apply _. Qed.

#[export] Instance kernel_proper :
  Proper (Qeq ==> Qeq ==> Qeq ==> Qeq ==> Qeq ==> Qeq ==> Qeq ==> Qeq) kernel.
Proof.
  intros a0 b0 E0 a1 b1 E1 a2 b2 E2 a3 b3 E3 a4 b4 E4 a5 b5 E5 a6 b6 E6.
  unfold kernel. by rewrite E0, E1, E2, E3, E4, E5, E6.
Qed.

#[export] Instance total_proper : Proper (signal_eq ==> Qeq) total.
Proof.
  intros xs ys E. unfold total in *.
  induction E as [|x y xs ys Exy _ IH]; cbn; [done|]. by rewrite Exy, IH.
Qed.

#[export] Instance dot_proper : Proper (eq ==> signal_eq ==> Qeq) dot.
Proof.
  intros ws ? <- xs ys E. revert ws.
  induction E as [|x y xs ys Exy _ IH]; intros [|w ws]; cbn; try done.
  by rewrite Exy, IH.
Qed.

(** ** [sum] *)

Lemma fold_left_Qplus xs a : fold_left Qplus xs a == a + total xs.
Proof.
  revert a. induction xs as [|x xs IH]; intros a; cbn [fold_left].
  - unfold total. cbn. lra.
  - rewrite IH. unfold total. cbn. lra.
Qed.

(** [sum(xs)] is the sum of [xs]. *)
Lemma pysum_total xs : pysum xs == total xs.
Proof.
  unfold pysum. change (fold_left nadd xs (of_Z 0%Z)) with (fold_left Qplus xs 0).
  rewrite fold_left_Qplus. lra.
Qed.

#[export] Instance pysum_proper : Proper (signal_eq ==> Qeq) (pysum (R := Q)).
Proof. intros xs ys E. by rewrite !pysum_total, E. Qed.

Lemma total_replicate n c : total (replicate n c) == inject_Z (Z.of_nat n) * c.
Proof.
  unfold total. induction n as [|n IH]; [change (0 == 0 * c); lra|].
  cbn [replicate fold_right].
  rewrite IH, Nat2Z.inj_succ, <- Z.add_1_r, inject_Z_plus.
  change (inject_Z 1) with 1. ring.
Qed.

Lemma total_map_shift k xs :
  total (map (fun x => x + k) xs) == total xs + inject_Z (Z.of_nat (length xs)) * k.
Proof.
  unfold total. induction xs as [|x xs IH]; [change (0 == 0 + 0 * k); lra|].
  cbn [map fold_right length].
  rewrite IH, Nat2Z.inj_succ, <- Z.add_1_r, inject_Z_plus.
  change (inject_Z 1) with 1. ring.
Qed.

(** Results up to [Qeq]. *)
Definition outcome_eq : relation (outcome Q) :=
  fun r r' =>
    match r, r' with
    | Ok x, Ok y => x == y
    | Raise e, Raise e' => e = e'
    | _, _ => False
    end.

#[export] Instance outcome_eq_equiv : Equivalence outcome_eq.
Proof.
  split.
  - by intros [x|e].
  - intros [x|e] [y|e']; cbn; try done; by intros ->.
  - intros [x|e] [y|e'] [z|e'']; cbn; try done; try congruence;
      intros E1 E2; by rewrite E1.
Qed.

#[export] Instance Ok_proper : Proper (Qeq ==> outcome_eq) Ok.
Proof. by intros x y E. Qed.

(** ** The low-pass kernel *)

(** [lp_filter] on a buffer of at least seven items is [kernel] on the
    first seven. *)
Lemma lp_filter_kernel b0 b1 b2 b3 b4 b5 b6 rest m :
  lp_filter (Deque (b0 :: b1 :: b2 :: b3 :: b4 :: b5 :: b6 :: rest) m)
  = Ok (kernel b0 b1 b2 b3 b4 b5 b6).
Proof. by rewrite lp_filter_full. Qed.

Lemma kernel_weights b0 b1 b2 b3 b4 b5 b6 :
  kernel b0 b1 b2 b3 b4 b5 b6 == dot weights [b0; b1; b2; b3; b4; b5; b6] / 16.
Proof. unfold kernel, dot, weights. field. Qed.

Lemma kernel_constant c : kernel c c c c c c c == c.
Proof. unfold kernel. field. Qed.

(** The kernel is linear: filtering a combination of two signals is
    combining the filtered signals. *)
Lemma kernel_linear a b x0 x1 x2 x3 x4 x5 x6 y0 y1 y2 y3 y4 y5 y6 :
  kernel (a * x0 + b * y0) (a * x1 + b * y1) (a * x2 + b * y2) (a * x3 + b * y3)
         (a * x4 + b * y4) (a * x5 + b * y5) (a * x6 + b * y6)
  == a * kernel x0 x1 x2 x3 x4 x5 x6 + b * kernel y0 y1 y2 y3 y4 y5 y6.
Proof. unfold kernel. field. Qed.

Lemma kernel_symmetric b0 b1 b2 b3 b4 b5 b6 :
  kernel b0 b1 b2 b3 b4 b5 b6 == kernel b6 b5 b4 b3 b2 b1 b0.
Proof. unfold kernel. field. Qed.

Lemma kernel_16 b0 b1 b2 b3 b4 b5 b6 :
  16 * kernel b0 b1 b2 b3 b4 b5 b6
  == b0 + 2 * b1 + 3 * b2 + 4 * b3 + 3 * b4 + 2 * b5 + b6.
Proof. unfold kernel. field. Qed.

Lemma kernel_monotone x0 x1 x2 x3 x4 x5 x6 y0 y1 y2 y3 y4 y5 y6 :
  x0 <= y0 -> x1 <= y1 -> x2 <= y2 -> x3 <= y3 -> x4 <= y4 -> x5 <= y5 ->
  x6 <= y6 ->
  kernel x0 x1 x2 x3 x4 x5 x6 <= kernel y0 y1 y2 y3 y4 y5 y6.
Proof.
  intros. pose proof (kernel_16 x0 x1 x2 x3 x4 x5 x6).
  pose proof (kernel_16 y0 y1 y2 y3 y4 y5 y6). lra.
Qed.

(** The output stays between the bounds of the taps. *)
Lemma kernel_range lo hi b0 b1 b2 b3 b4 b5 b6 :
  Forall (fun b => lo <= b <= hi) [b0; b1; b2; b3; b4; b5; b6] ->
  lo <= kernel b0 b1 b2 b3 b4 b5 b6 <= hi.
Proof.
  intros Hb. repeat (apply Forall_cons in Hb as [? Hb]).
  pose proof (kernel_16 b0 b1 b2 b3 b4 b5 b6). lra.
Qed.

(** ** DC blocking *)

Lemma block_dc_mean sample window :
  items window <> [] ->
  outcome_eq (block_dc sample window) (Ok (sample - mean (items window))).
Proof.
  intros Hne. rewrite block_dc_eq. unfold is_empty, len, mean.
  destruct (items window) as [|x xs]; [done|].
  cbn [outcome_eq]. by rewrite <- pysum_total.
Qed.

Lemma mean_replicate n c : mean (replicate (S n) c) == c.
Proof.
  unfold mean. rewrite total_replicate, length_replicate. field.
  rewrite Nat2Z.inj_succ. unfold Qeq. cbn. lia.
Qed.

Lemma mean_shift k xs :
  xs <> [] -> mean (map (fun x => x + k) xs) == mean xs + k.
Proof.
  intros Hne. unfold mean. rewrite total_map_shift, length_map. field.
  destruct xs as [|x xs]; [done|]. cbn [length].
  rewrite Nat2Z.inj_succ. unfold Qeq. cbn. lia.
Qed.

(** ** What the filters promise *)

(** C38: equivalence with the reference: on a buffer of at least seven
    items [lp_filter] returns the weighted sum of the first seven with the
    weights 1, 2, 3, 4, 3, 2, 1, divided by 16. *)
Theorem lp_filter_dot buf :
  (7 <= length (items buf))%nat ->
  exists y, lp_filter buf = Ok y /\ y == dot weights (take 7 (items buf)) / 16.
Proof.
  destruct buf as [l m]. cbn [items]. intros Hl.
  do 7 (destruct l as [|? l]; [cbn in Hl; lia|]).
  eexists. split; [apply lp_filter_kernel|]. apply kernel_weights.
Qed.

(** Unit gain: a buffer that holds one value gives that value. *)
Theorem lp_filter_unit_gain c n m :
  outcome_eq (lp_filter (Deque (replicate (7 + n) c) m)) (Ok c).
Proof. cbn [replicate Nat.add]. rewrite lp_filter_kernel. apply kernel_constant. Qed.

(** The output of [lp_filter] never leaves the range of the items of
    its buffer: smoothing cannot create an amplitude. *)
Theorem lp_filter_range lo hi buf :
  (7 <= length (items buf))%nat ->
  Forall (fun b => lo <= b <= hi) (items buf) ->
  exists y, lp_filter buf = Ok y /\ lo <= y <= hi.
Proof.
  destruct buf as [l m]. cbn [items]. intros Hl Hb.
  do 7 (destruct l as [|? l]; [cbn in Hl; lia|]).
  eexists. split; [apply lp_filter_kernel|]. apply kernel_range.
  repeat (apply Forall_cons in Hb as [? Hb]).
  repeat (apply Forall_cons; split; [done|]). by apply Forall_nil.
Qed.

(** [block_dc] of a sample equal to every item of its window is 0:
    a constant acceleration is removed exactly. *)
Theorem block_dc_constant c n m :
  outcome_eq (block_dc c (Deque (replicate (S n) c) m)) (Ok 0).
Proof.
  rewrite block_dc_mean by done. cbn [items outcome_eq].
  rewrite mean_replicate. ring.
Qed.

(** [block_dc] is invariant under a common offset of the sample and
    the window. *)
Theorem block_dc_shift k x xs m :
  xs <> [] ->
  outcome_eq (block_dc (x + k) (Deque (map (fun y => y + k) xs) m))
             (block_dc x (Deque xs m)).
Proof.
  intros Hne. rewrite !block_dc_mean by (cbn; by destruct xs).
  cbn [items outcome_eq]. rewrite mean_shift by done. ring.
Qed.

(** ** The theorems at concrete inputs *)

Lemma lp_filter_dot_witness :
  exists y,
    lp_filter (Deque [16; 0; 0; 0; 0; 0; 0] 7) = Ok y
    /\ y == dot weights (take 7 [16; 0; 0; 0; 0; 0; 0]) / 16.
Proof. apply (lp_filter_dot (Deque [16; 0; 0; 0; 0; 0; 0] 7)). cbn. lia. Defined.

Lemma lp_filter_range_witness :
  exists y, lp_filter (Deque [1; 2; 3; 2; 1; 0; 1] 7) = Ok y /\ 0 <= y <= 3.
Proof.
  apply (lp_filter_range 0 3 (Deque [1; 2; 3; 2; 1; 0; 1] 7)); [cbn; lia|].
  repeat (apply Forall_cons; split; [split; discriminate|]). by apply Forall_nil.
Defined.

Lemma block_dc_shift_witness :
  outcome_eq (block_dc (5 + 10) (Deque (map (fun y => y + 10) [1; 2; 5]) 3))
             (block_dc 5 (Deque [1; 2; 5] 3)).
Proof. by apply (block_dc_shift 10 5 [1; 2; 5] 3). Defined.
