(* ===== verification/FloatRun.v ===== *)
(** * FloatRun: the detector on binary64, evaluated by the kernel

    The specification's literal tests and its end-to-end scenario, run on
    the model with IEEE binary64 arithmetic: the kernel computes each of
    them with the detector's own definitions, so they are facts about the
    model at these inputs, not samples of a test run.

    [gravity] is 30 samples at rest; [stride] is one period of a sine of
    amplitude 3 around 9.8 with period 20, to four decimals, and [walking]
    five of them.  After two periods the detector is in a steady state
    ([steady]): one more period takes it back there with one more step,
    which the kernel checks once; the theorem of Periodic then gives the
    count after any number of periods. *)

From Stdlib Require Import ZArith Lia Floats.
From stdpp Require Import base tactics list.
From S2P Require Import Prelude Numeric Deque StepDetector Branches Invariant Startup Reset.
From S2P Require Import Periodic PeakMachine Stream Console.

#[local] Open Scope Z_scope.
#[local] Set Warnings "-inexact-float".

Definition at_z (z : float) : float * float * float := (0, 0, z)%float.

Definition gravity : list (float * float * float) := replicate 30 (at_z 9.8).

Definition period : list float :=
  [9.8; 10.7271; 11.5634; 12.2271; 12.6532; 12.8; 12.6532; 12.2271; 11.5634;
   10.7271; 9.8; 8.8729; 8.0366; 7.3729; 6.9468; 6.8; 6.9468; 7.3729; 8.0366;
   8.8729]%float.

Definition stride : list (float * float * float) := map at_z period.

Definition walking : list (float * float * float) := cycles 5 stride.

(** The state after the rest and two periods of walking. *)
Definition steady : StepDetector float := feed (gravity ++ cycles 2 stride) default.

(** The counts after [gravity] and each of the first [n] periods of
    [walking]. *)
Definition counts_by_period (n : nat) : list Z :=
  map (fun k => step_count (feed (gravity ++ take (20 * k) walking) default))
      (seq 0 (S n)).

(** The state after the whole scenario's walk. *)
Definition walked : StepDetector float := feed (gravity ++ walking) default.

(** Low-pass determinism: the window of zeros gives 0 and the window
    [[16, 0, 0, 0, 0, 0, 0]] gives 1.0. *)
Example lp_filter_literals :
  lp_filter (Deque (replicate 7 0%float) 7) = Ok 0%float
  /\ lp_filter (Deque [16; 0; 0; 0; 0; 0; 0]%float 7) = Ok 1%float.
Proof. by vm_compute. Qed.

(** End to end with the default configuration: 30 samples at rest
    count nothing, and each further period of walking counts one more step
    from the second on: 0, 0, 1, 2, 3, 4 after 0 to 5 periods. *)
Example walking_counts : counts_by_period 5 = [0; 0; 1; 2; 3; 4].
Proof. by vm_compute. Qed.

(** The reference of [Stream] evaluated on the same walk: the history of
    the stream has confirmed ten peaks, the first unpaired and the last
    waiting for its partner, which are four steps, and holds one
    magnitude and one filtered sample for each of the 130 samples. *)
Example walking_history :
  let h := hrun 20 7 10 (of_Z 8 / of_Z 10)%num (gravity ++ walking) silence in
  peaks (paired h) = 10%nat /\ phase_of (paired h) = MIN
  /\ stream_steps 20 7 10 (of_Z 8 / of_Z 10)%num (gravity ++ walking) = 4
  /\ length (magnitudes h) = 130%nat /\ length (smoothed h) = 130%nat.
Proof. by vm_compute. Qed.

(** What the walk prints: four lines, one for each step, each with the
    filtered sample at the maximum that closed the pair. *)
Example walking_prints :
  feed_prints (gravity ++ walking) default
  = replicate 4 2.5175937500000001%float.
Proof. by vm_compute. Qed.

(** The manual controls after the walk: [reset_step_count] zeroes the
    count, three calls of [add_step] make it 3, and [reset] returns the
    object to the state the constructor makes, so that the walk counts
    again what it counted on the fresh detector. *)
Example manual_controls :
  step_count walked = 4
  /\ step_count (exec reset_step_count walked) = 0
  /\ step_count (exec add_step (exec add_step (exec add_step
                   (exec reset_step_count walked)))) = 3
  /\ exec reset walked = default
  /\ step_count (feed (gravity ++ walking) (exec reset walked)) = 4.
Proof. by vm_compute. Qed.

(** Detection in the scenario is monotone sample by sample: the count
    after each prefix of the walk is at least the count after the shorter
    prefix. *)
Example walking_monotone :
  forallb (fun k => step_count (feed (take k walking) (feed gravity default))
                    <=? step_count (feed (take (S k) walking) (feed gravity default)))
          (seq 0 100) = true.
Proof. by vm_compute. Qed.

(** ** Walking for ever *)

(** One period takes the steady state back to itself, with one step
    counted. *)
Lemma steady_stride : feed stride steady = bump 1 steady.
Proof. by vm_compute. Qed.

Lemma steady_count : step_count steady = 1.
Proof. by vm_compute. Qed.

Lemma walking_steady n :
  feed (gravity ++ cycles (2 + n) stride) default = feed (cycles n stride) steady.
Proof. unfold steady. by rewrite (cycles_add 2 n stride), app_assoc, feed_app. Qed.

(** C21: liveness of detection on the walk: after the rest and the first
    two periods every further period counts exactly one step and leaves the
    filters, the windows and the peak machine where they were, so that
    after [2 + n] periods the count is [1 + n], for every [n]. *)
Theorem walking_forever n :
  feed (gravity ++ cycles (2 + n) stride) default = bump (Z.of_nat n) steady
  /\ step_count (feed (gravity ++ cycles (2 + n) stride) default) = 1 + Z.of_nat n.
Proof.
  rewrite walking_steady, (feed_cycles stride steady 1 steady_stride n), Z.mul_1_r.
  by rewrite step_count_bump, steady_count.
Qed.

Lemma steady_counts_witness :
  feed (cycles 3 stride) steady = bump (Z.of_nat 3 * 1) steady
  /\ step_count (feed (cycles 3 stride) steady) = step_count steady + Z.of_nat 3 * 1
  /\ (0 < 1 -> forall c, exists m, c <= step_count (feed (cycles m stride) steady)).
Proof. exact (steady_counts stride steady 1 3 steady_stride). Defined.
